(** * HexcentAttendTracker: the data layer of [attendance_sqlite_app.py]

    A shallow embedding of the SQLite-backed repository, attendance-marking
    and reporting functions of [attendance_sqlite_app.py], with the
    statements of the specification settled against it.

    The SQLite engine and pandas are libraries of the program: the parts of
    their behaviour the program relies on (constraint checking, AUTOINCREMENT,
    upsert, the per-connection foreign-key switch, groupby/merge/round) are
    written out as executable definitions next to the functions using them. *)

From Stdlib Require Import ZArith String Ascii List Lia Floats Uint63.
From stdpp Require Import base decidable list strings sorting.

Set Warnings "-inexact-float".
Local Open Scope string_scope.
Local Open Scope list_scope.
Local Open Scope Z_scope.

(** ** Python strings *)

(** A Python [str] is modelled by a Rocq [string] whose characters are the
    code points below 256. *)
Module Py.

(** [str.isspace] on one code point below 256: TAB..CR, FS..US, space,
    NEL (0x85) and NBSP (0xa0). *)
Definition isspace (c : ascii) : bool :=
  let n := N_of_ascii c in
  ((9 <=? n) && (n <=? 13) || (28 <=? n) && (n <=? 32)
   || (n =? 133) || (n =? 160))%N.

Fixpoint lstrip (s : string) : string :=
  match s with
  | EmptyString => EmptyString
  | String c s' => if isspace c then lstrip s' else s
  end.

Fixpoint rstrip (s : string) : string :=
  match s with
  | EmptyString => EmptyString
  | String c s' =>
      match rstrip s' with
      | EmptyString => if isspace c then EmptyString else String c EmptyString
      | r => String c r
      end
  end.

(** [s.strip()] *)
Definition strip (s : string) : string := rstrip (lstrip s).

(** Truthiness of an [Optional[str]]: [None] and [""] are falsy. *)
Definition truthy (o : option string) : bool :=
  match o with
  | None => false
  | Some EmptyString => false
  | Some _ => true
  end.

(** Decimal rendering of a number, zero-padded on the left to [width]
    digits (the [%02d] / [%04d] of [strftime] and [isoformat]). *)
Definition digit (n : nat) : ascii := ascii_of_nat (48 + n).

Fixpoint digits (fuel n : nat) (acc : string) : string :=
  match fuel with
  | O => acc
  | S fuel' =>
      let acc' := String (digit (n mod 10)) acc in
      if (n / 10 =? 0)%nat then acc' else digits fuel' (n / 10) acc'
  end.

Fixpoint zeros (k : nat) (s : string) : string :=
  match k with
  | O => s
  | S k' => String "0" (zeros k' s)
  end.

Definition zfill (width : nat) (n : nat) : string :=
  let d := digits (S n) n EmptyString in
  zeros (width - String.length d) d.

(** Decimal rendering without padding (the C library's [%Y]). *)
Definition decimal (n : nat) : string := digits (S n) n EmptyString.

End Py.

(** ** Outcomes of a call *)

(** The constraint an [sqlite3.IntegrityError] reports. *)
Inductive constraint := UniqueFailed | ForeignKeyFailed.

(** The exceptions the data layer can meet.  [IntegrityError] is the only
    one the [add_*] functions catch. *)
Inductive exn :=
| IntegrityError (c : constraint)
| OperationalError
| DatabaseError.

(** A call either returns a value or raises. *)
Inductive result (A : Type) :=
| Ok (a : A)
| Raise (e : exn).
Arguments Ok {A} a.
Arguments Raise {A} e.

Definition bind {A B} (r : result A) (k : A -> result B) : result B :=
  match r with
  | Ok a => k a
  | Raise e => Raise e
  end.

Notation "'let*' x ':=' c 'in' k" := (bind c (fun x => k))
  (at level 10, x name, c at level 100, k at level 200).

(** ** The schema of [init_db] *)

Record college := {
  college_id : Z;
  college_name : string }.

Record department := {
  department_id : Z;
  department_college_id : Z;
  department_name : string }.

Record course := {
  course_id : Z;
  course_department_id : Z;
  course_name : string }.

(** [roll TEXT] has no [NOT NULL]: [None] is SQL [NULL]. *)
Record student := {
  student_id : Z;
  student_course_id : Z;
  student_roll : option string;
  student_name : string }.

(** [timestamp TEXT] has no [NOT NULL] either. *)
Record attendance := {
  attendance_id : Z;
  attendance_student_id : Z;
  attendance_date : string;
  attendance_status : string;
  attendance_timestamp : option string }.

(** A table with an [INTEGER PRIMARY KEY AUTOINCREMENT] column: its rows in
    rowid order and its entry of [sqlite_sequence], the largest rowid ever
    handed out. *)
Record table (A : Type) := {
  rows : list A;
  seq : Z }.
Arguments rows {A} t.
Arguments seq {A} t.

Record db := {
  colleges : table college;
  departments : table department;
  courses : table course;
  students : table student;
  attendances : table attendance }.

Definition empty_table {A} : table A := {| rows := []; seq := 0 |}.

(** What [init_db] creates in a fresh file. *)
Definition init_db_fresh : db :=
  {| colleges := empty_table; departments := empty_table;
     courses := empty_table; students := empty_table;
     attendances := empty_table |}.

(** The number of rows of every table, in schema order. *)
Definition row_counts (d : db) : list nat :=
  [ length (rows (colleges d)); length (rows (departments d));
    length (rows (courses d)); length (rows (students d));
    length (rows (attendances d)) ].

(** ** The engine *)

(** The rowid AUTOINCREMENT hands out: one more than the largest rowid the
    table has ever held. *)
Definition max_id (ids : list Z) : Z := foldr Z.max 0 ids.

Definition new_rowid {A} (id_of : A -> Z) (t : table A) : Z :=
  Z.max (seq t) (max_id (map id_of (rows t))) + 1.

(** A connection.  SQLite enforces [FOREIGN KEY] clauses only on a
    connection on which [PRAGMA foreign_keys = ON] was executed. *)
Record conn := { foreign_keys : bool }.

(** [sqlite3.connect(DB_PATH, check_same_thread=False)]: no pragma is
    executed, so the connection has SQLite's default, enforcement off. *)
Definition connect_default : conn := {| foreign_keys := false |}.

(** The parent check of a [FOREIGN KEY] clause on connection [cn]. *)
Definition fk_ok (cn : conn) (parent_ids : list Z) (pid : Z) : bool :=
  negb (foreign_keys cn) || bool_decide (pid ∈ parent_ids).

(** [INSERT INTO colleges(name) VALUES (?)] under [name TEXT UNIQUE]. *)
Definition insert_college (cn : conn) (name : string) (d : db) : result db :=
  let t := colleges d in
  if bool_decide (name ∈ map college_name (rows t))
  then Raise (IntegrityError UniqueFailed)
  else
    let i := new_rowid college_id t in
    Ok {| colleges := {| rows := rows t ++ [ {| college_id := i; college_name := name |} ];
                         seq := i |};
          departments := departments d; courses := courses d;
          students := students d; attendances := attendances d |}.

(** [INSERT INTO departments(college_id, name) VALUES (?,?)] under
    [UNIQUE(college_id, name)] and the foreign key to [colleges]. *)
Definition insert_department (cn : conn) (cid : Z) (name : string) (d : db)
  : result db :=
  let t := departments d in
  if bool_decide ((cid, name) ∈
       map (fun r => (department_college_id r, department_name r)) (rows t))
  then Raise (IntegrityError UniqueFailed)
  else if negb (fk_ok cn (map college_id (rows (colleges d))) cid)
  then Raise (IntegrityError ForeignKeyFailed)
  else
    let i := new_rowid department_id t in
    Ok {| colleges := colleges d;
          departments :=
            {| rows := rows t ++ [ {| department_id := i;
                                      department_college_id := cid;
                                      department_name := name |} ];
               seq := i |};
          courses := courses d; students := students d;
          attendances := attendances d |}.

(** [INSERT INTO courses(department_id, name) VALUES (?,?)]. *)
Definition insert_course (cn : conn) (did : Z) (name : string) (d : db)
  : result db :=
  let t := courses d in
  if bool_decide ((did, name) ∈
       map (fun r => (course_department_id r, course_name r)) (rows t))
  then Raise (IntegrityError UniqueFailed)
  else if negb (fk_ok cn (map department_id (rows (departments d))) did)
  then Raise (IntegrityError ForeignKeyFailed)
  else
    let i := new_rowid course_id t in
    Ok {| colleges := colleges d; departments := departments d;
          courses :=
            {| rows := rows t ++ [ {| course_id := i;
                                      course_department_id := did;
                                      course_name := name |} ];
               seq := i |};
          students := students d; attendances := attendances d |}.

(** A [UNIQUE(course_id, roll)] index holds no two rows equal on both
    columns; SQL [NULL]s are distinct from each other, so a row whose roll
    is [NULL] never conflicts. *)
Definition roll_conflict (cid : Z) (roll : option string) (r : student) : bool :=
  match roll with
  | None => false
  | Some x => bool_decide (student_course_id r = cid ∧ student_roll r = Some x)
  end.

(** [INSERT INTO students(course_id, name, roll) VALUES (?,?,?)]. *)
Definition insert_student (cn : conn) (cid : Z) (name : string)
    (roll : option string) (d : db) : result db :=
  let t := students d in
  if existsb (roll_conflict cid roll) (rows t)
  then Raise (IntegrityError UniqueFailed)
  else if negb (fk_ok cn (map course_id (rows (courses d))) cid)
  then Raise (IntegrityError ForeignKeyFailed)
  else
    let i := new_rowid student_id t in
    Ok {| colleges := colleges d; departments := departments d;
          courses := courses d;
          students :=
            {| rows := rows t ++ [ {| student_id := i; student_course_id := cid;
                                      student_roll := roll;
                                      student_name := name |} ];
               seq := i |};
          attendances := attendances d |}.

(** The key of the [UNIQUE(student_id, date)] index. *)
Definition same_mark (sid : Z) (date : string) (r : attendance) : bool :=
  bool_decide (attendance_student_id r = sid ∧ attendance_date r = date).

(** The row an upsert leaves in place of the conflicting row [r]: [DO UPDATE
    SET status=excluded.status, timestamp=excluded.timestamp]. *)
Definition overwritten (r : attendance) (status ts : string) : attendance :=
  {| attendance_id := attendance_id r;
     attendance_student_id := attendance_student_id r;
     attendance_date := attendance_date r;
     attendance_status := status;
     attendance_timestamp := Some ts |}.

(** The row an upsert inserts when nothing conflicts. *)
Definition fresh_mark (sid : Z) (date status ts : string) (i : Z) : attendance :=
  {| attendance_id := i; attendance_student_id := sid;
     attendance_date := date; attendance_status := status;
     attendance_timestamp := Some ts |}.

(** [INSERT ... ON CONFLICT(student_id, date) DO UPDATE ...] on the rows:
    the conflicting row keeps its rowid and takes the new status and
    timestamp; without a conflict the row is appended under rowid [i]. *)
Fixpoint upsert_rows (sid : Z) (date status ts : string) (i : Z)
    (l : list attendance) : list attendance :=
  match l with
  | [] => [ fresh_mark sid date status ts i ]
  | r :: l' =>
      if same_mark sid date r
      then overwritten r status ts :: l'
      else r :: upsert_rows sid date status ts i l'
  end.

(** The upsert statement.  The rowid is drawn before the conflict is
    detected, so [sqlite_sequence] advances on the update path too.  The
    parent check applies to a row that is inserted. *)
Definition upsert_attendance (cn : conn) (sid : Z) (date status ts : string)
    (d : db) : result db :=
  let t := attendances d in
  if negb (existsb (same_mark sid date) (rows t))
     && negb (fk_ok cn (map student_id (rows (students d))) sid)
  then Raise (IntegrityError ForeignKeyFailed)
  else
    let i := new_rowid attendance_id t in
    Ok {| colleges := colleges d; departments := departments d;
          courses := courses d; students := students d;
          attendances := {| rows := upsert_rows sid date status ts i (rows t);
                            seq := i |} |}.

(** [DELETE FROM colleges WHERE id = ?] under the schema of [init_db].  The
    [ON DELETE CASCADE] clauses act only on a connection that enforces
    foreign keys, and only when a college row is in fact deleted. *)
Definition delete_college (cn : conn) (cid : Z) (d : db) : db :=
  let hit := foreign_keys cn
             && bool_decide (cid ∈ map college_id (rows (colleges d))) in
  let keep {A} (gone : A -> Prop) `{!∀ x, Decision (gone x)} (t : table A) :=
    {| rows := filter (fun x => ¬ gone x) (rows t); seq := seq t |} in
  let colleges' := keep (fun r => college_id r = cid) (colleges d) in
  if hit then
    let gone_d := fun r => department_college_id r = cid in
    let dids := map department_id (filter gone_d (rows (departments d))) in
    let gone_c := fun r => course_department_id r ∈ dids in
    let cids := map course_id (filter gone_c (rows (courses d))) in
    let gone_s := fun r => student_course_id r ∈ cids in
    let sids := map student_id (filter gone_s (rows (students d))) in
    let gone_a := fun r => attendance_student_id r ∈ sids in
    {| colleges := colleges';
       departments := keep gone_d (departments d);
       courses := keep gone_c (courses d);
       students := keep gone_s (students d);
       attendances := keep gone_a (attendances d) |}
  else
    {| colleges := colleges'; departments := departments d;
       courses := courses d; students := students d;
       attendances := attendances d |}.

(** ** The database file *)

(** The state of [DB_PATH] as a call finds it: a file SQLite cannot open
    ([sqlite3.connect] raises [OperationalError]); a file it opens but cannot
    read as a database (every statement raises [DatabaseError]); no file yet,
    or a database without the tables (connecting creates the file; every
    statement on a table raises [OperationalError]); or a database with the
    tables of [init_db]. *)
Inductive storage :=
| Unopenable
| Unreadable
| Fresh
| Healthy (d : db).

(** [get_conn()] *)
Definition get_conn (s : storage) : result conn :=
  match s with
  | Unopenable => Raise OperationalError
  | _ => Ok connect_default
  end.

(** [init_db()]: every statement is [CREATE TABLE IF NOT EXISTS]. *)
Definition init_db (s : storage) : result storage :=
  let* conn := get_conn s in
  match s with
  | Fresh => Ok (Healthy init_db_fresh)
  | Healthy d => Ok (Healthy d)
  | _ => Raise DatabaseError
  end.

(** [conn.execute(stmt)] for a statement on the tables. *)
Definition execute (s : storage) (stmt : db -> result db) : result db :=
  match s with
  | Healthy d => stmt d
  | Fresh => Raise OperationalError
  | _ => Raise DatabaseError
  end.

(** ** CRUD operations *)

(** The shared shape of the four [add_*] functions: the insert runs inside
    [try]; on [sqlite3.IntegrityError] the connection is closed without a
    commit and the function returns [False]; any other exception
    propagates; otherwise the insert is committed and [True] returned. *)
Definition try_insert (s : storage) (stmt : conn -> db -> result db)
  : result (bool * storage) :=
  let* cn := get_conn s in
  match execute s (stmt cn) with
  | Ok d' => Ok (true, Healthy d')
  | Raise (IntegrityError _) => Ok (false, s)
  | Raise e => Raise e
  end.

(** [add_college(name)] *)
Definition add_college (name : string) (s : storage) : result (bool * storage) :=
  try_insert s (fun cn => insert_college cn (Py.strip name)).

(** [add_department(college_id, name)] *)
Definition add_department (college_id : Z) (name : string) (s : storage)
  : result (bool * storage) :=
  try_insert s (fun cn => insert_department cn college_id (Py.strip name)).

(** [add_course(department_id, name)] *)
Definition add_course (department_id : Z) (name : string) (s : storage)
  : result (bool * storage) :=
  try_insert s (fun cn => insert_course cn department_id (Py.strip name)).

(** [roll.strip() if roll else None] *)
Definition roll_param (roll : option string) : option string :=
  if Py.truthy roll then Py.strip <$> roll else None.

(** [add_student(course_id, name, roll=None)] *)
Definition add_student (course_id : Z) (name : string) (roll : option string)
    (s : storage) : result (bool * storage) :=
  try_insert s (fun cn =>
    insert_student cn course_id (Py.strip name) (roll_param roll)).

(** ** Dates and the clock *)

Record date := { year : nat; month : nat; day : nat }.

Record datetime := {
  dt_date : date;
  hour : nat; minute : nat; second : nat; microsecond : Z }.

(** [d.strftime("%Y-%m-%d")].  The format is handed to the C library, whose
    [%Y] prints the year in decimal without padding: a year below 1000 has
    fewer than four digits (["999-03-04"]).  [%m] and [%d] are two digits. *)
Definition strftime_Ymd (d : date) : string :=
  Py.decimal (year d) +:+ "-" +:+ Py.zfill 2 (month d) +:+ "-"
  +:+ Py.zfill 2 (day d).

(** [d.isoformat()]: ["%04d-%02d-%02d"], the year padded to four digits. *)
Definition isoformat_date (d : date) : string :=
  Py.zfill 4 (year d) +:+ "-" +:+ Py.zfill 2 (month d) +:+ "-"
  +:+ Py.zfill 2 (day d).

(** [dt.isoformat(timespec='seconds')]: the microseconds are dropped. *)
Definition isoformat_seconds (t : datetime) : string :=
  isoformat_date (dt_date t) +:+ "T" +:+ Py.zfill 2 (hour t) +:+ ":"
  +:+ Py.zfill 2 (minute t) +:+ ":" +:+ Py.zfill 2 (second t).

(** The order of two tuples of numbers, as Python compares them. *)
Fixpoint lex_lt (a b : list Z) : bool :=
  match a, b with
  | x :: a', y :: b' => (x <? y) || ((x =? y) && lex_lt a' b')
  | [], _ :: _ => true
  | _, _ => false
  end.



(** Python's [date.toordinal]: day 1 is 0001-01-01 (proleptic Gregorian). *)
Definition is_leap (y : Z) : bool :=
  (y mod 4 =? 0) && (negb (y mod 100 =? 0) || (y mod 400 =? 0)).

Definition days_before_year (y : Z) : Z :=
  let y1 := y - 1 in y1 * 365 + y1 / 4 - y1 / 100 + y1 / 400.

Definition days_in_month (y m : Z) : Z :=
  if m =? 2 then (if is_leap y then 29 else 28)
  else if (m =? 4) || (m =? 6) || (m =? 9) || (m =? 11) then 30 else 31.

Fixpoint days_before_month (y : Z) (m : nat) : Z :=
  match m with
  | O => 0
  | S O => 0
  | S m' => days_before_month y m' + days_in_month y (Z.of_nat m')
  end.

Definition toordinal (d : date) : Z :=
  days_before_year (Z.of_nat (year d)) + days_before_month (Z.of_nat (year d)) (month d)
  + Z.of_nat (day d).

(** [(end - start).days] *)
Definition days_between (start_date end_date : date) : Z :=
  toordinal end_date - toordinal start_date.

(** ** Marking attendance *)

(** A Python [dict] as its items in iteration (insertion) order. *)
Definition status_map := list (Z * string).

(** The loop over [student_status_map.items()]: one upsert per entry, all
    with the same [ts]; an exception leaves the loop. *)
Fixpoint upsert_each (cn : conn) (date ts : string) (m : status_map)
    (s : storage) : result storage :=
  match m with
  | [] => Ok s
  | (sid, status) :: m' =>
      let* d' := execute s (upsert_attendance cn sid date status ts) in
      upsert_each cn date ts m' (Healthy d')
  end.

(** [mark_attendance_for_date(student_status_map, date_str)], with the
    reading [now] of [datetime.now()]. *)
Definition mark_attendance_for_date (now : datetime) (m : status_map)
    (date_str : string) (s : storage) : result (bool * storage) :=
  let* cn := get_conn s in
  let ts := isoformat_seconds now in
  let* s' := upsert_each cn date_str ts m s in
  Ok (true, s').

(** ** The flat attendance query *)

(** One row of the [SELECT] of [get_attendance_df], under the column names
    the query gives them. *)
Module Flat.
Record row := {
  att_id : Z;
  student_id : Z;
  student_name : string;
  roll : option string;
  course_id : Z;
  course : string;
  department_id : Z;
  department : string;
  college_id : Z;
  college : string;
  date : string;
  status : string;
  timestamp : option string }.

Definition columns : list string :=
  [ "att_id"; "student_id"; "student_name"; "roll"; "course_id"; "course";
    "department_id"; "department"; "college_id"; "college"; "date";
    "status"; "timestamp" ].
End Flat.

(** [FROM attendance a JOIN students s ON s.id = a.student_id JOIN courses c
    ON c.id = s.course_id JOIN departments d ON d.id = c.department_id JOIN
    colleges co ON co.id = d.college_id] *)
Definition join (d : db) : list Flat.row :=
  a ← rows (attendances d);
  s ← filter (fun s => student_id s = attendance_student_id a) (rows (students d));
  c ← filter (fun c => course_id c = student_course_id s) (rows (courses d));
  dp ← filter (fun dp => department_id dp = course_department_id c)
         (rows (departments d));
  co ← filter (fun co => college_id co = department_college_id dp)
         (rows (colleges d));
  [ {| Flat.att_id := attendance_id a;
       Flat.student_id := student_id s;
       Flat.student_name := student_name s;
       Flat.roll := student_roll s;
       Flat.course_id := course_id c;
       Flat.course := course_name c;
       Flat.department_id := department_id dp;
       Flat.department := department_name dp;
       Flat.college_id := college_id co;
       Flat.college := college_name co;
       Flat.date := attendance_date a;
       Flat.status := attendance_status a;
       Flat.timestamp := attendance_timestamp a |} ].

(** The conditions the pages put after [WHERE], each with its bound
    parameter. *)
Inductive clause :=
| CollegeIs (id : Z)                (* co.id = ? *)
| DepartmentIs (id : Z)             (* d.id = ? *)
| CourseIs (id : Z)                 (* c.id = ? *)
| StudentIs (id : Z)                (* s.id = ? *)
| DateIs (d : string)               (* a.date = ? *)
| DateBetween (lo hi : string).     (* a.date BETWEEN ? AND ? *)

(** [filter_clause] with [params]: a conjunction of conditions ([Where []]
    is the empty default), or text and parameters the engine rejects. *)
Inductive filter_clause :=
| Where (cs : list clause)
| Malformed.

Definition clause_holds (r : Flat.row) (c : clause) : bool :=
  match c with
  | CollegeIs i => Flat.college_id r =? i
  | DepartmentIs i => Flat.department_id r =? i
  | CourseIs i => Flat.course_id r =? i
  | StudentIs i => Flat.student_id r =? i
  | DateIs x => String.eqb (Flat.date r) x
  | DateBetween lo hi => String.leb lo (Flat.date r) && String.leb (Flat.date r) hi
  end.

Definition matches (cs : list clause) (r : Flat.row) : bool :=
  forallb (clause_holds r) cs.

(** [ORDER BY a.date DESC, co.name, d.name, c.name, s.name] *)
Definition then_by (c k : comparison) : comparison :=
  match c with
  | Eq => k
  | _ => c
  end.

Definition order_compare (x y : Flat.row) : comparison :=
  then_by (String.compare (Flat.date y) (Flat.date x))
 (then_by (String.compare (Flat.college x) (Flat.college y))
 (then_by (String.compare (Flat.department x) (Flat.department y))
 (then_by (String.compare (Flat.course x) (Flat.course y))
          (String.compare (Flat.student_name x) (Flat.student_name y))))).

Definition order_le (x y : Flat.row) : Prop := order_compare x y ≠ Gt.

#[local] Instance order_le_dec x y : Decision (order_le x y).
Proof. unfold order_le. apply _. Defined.

(** The order among rows equal under the sort key is the engine's choice;
    no statement below depends on it. *)
Definition order_by (l : list Flat.row) : list Flat.row :=
  merge_sort order_le l.

(** A pandas [DataFrame] holding rows of the flat query. *)
Record dataframe := {
  columns : list string;
  data : list Flat.row }.

(** [pd.DataFrame()] *)
Definition DataFrame_empty : dataframe := {| columns := []; data := [] |}.

(** [df.empty] *)
Definition df_empty (df : dataframe) : bool :=
  match columns df, data df with
  | _ :: _, _ :: _ => false
  | _, _ => true
  end.

(** [pd.read_sql_query(q, conn, params=params)] *)
Definition read_sql_query (s : storage) (f : filter_clause) : result dataframe :=
  match s, f with
  | Healthy d, Where cs =>
      Ok {| columns := Flat.columns;
            data := order_by (List.filter (matches cs) (join d)) |}
  | _, _ => Raise DatabaseError
  end.

(** [get_attendance_df(filter_clause, params)].  The first [get_conn()] is
    called before the [try]; the second one and the query are inside it,
    where [except Exception] replaces any exception by [pd.DataFrame()]. *)
Definition get_attendance_df (f : filter_clause) (s : storage) : result dataframe :=
  let* conn := get_conn s in
  match (let* conn2 := get_conn s in read_sql_query s f) with
  | Ok df => Ok df
  | Raise _ => Ok DataFrame_empty
  end.

(** ** pandas on the weekly report *)

(** A group key [(student_name, roll)]; a [NULL] roll is pandas' NA. *)
Definition key : Type := string * option string.

Definition key_of (r : Flat.row) : key := (Flat.student_name r, Flat.roll r).

(** [drop_duplicates()]: the first occurrence of each value is kept, and NA
    counts as equal to NA. *)
Fixpoint drop_duplicates_from (seen l : list key) : list key :=
  match l with
  | [] => []
  | x :: l' =>
      if bool_decide (x ∈ seen) then drop_duplicates_from seen l'
      else x :: drop_duplicates_from (x :: seen) l'
  end.

Definition drop_duplicates (l : list key) : list key :=
  drop_duplicates_from [] l.

(** The order in which [groupby] lists its groups. *)
Definition key_compare (x y : key) : comparison :=
  then_by (String.compare x.1 y.1)
    match x.2, y.2 with
    | Some a, Some b => String.compare a b
    | None, Some _ => Lt
    | Some _, None => Gt
    | None, None => Eq
    end.

Definition key_le (x y : key) : Prop := key_compare x y ≠ Gt.

#[local] Instance key_le_dec x y : Decision (key_le x y).
Proof. unfold key_le. apply _. Defined.

(** [df.groupby(['student_name','roll']).size().reset_index(name=...)].
    [groupby] has [dropna=True]: a row with NA in a key column belongs to
    no group. *)
Definition has_key (k : key) (r : Flat.row) : bool := bool_decide (key_of r = k).

Definition groupby_size (df : list Flat.row) : list (key * Z) :=
  let keyed := List.filter (fun r => bool_decide (is_Some (Flat.roll r))) df in
  (fun k => (k, Z.of_nat (length (List.filter (has_key k) keyed))))
    <$> merge_sort key_le (drop_duplicates (key_of <$> keyed)).

(** [left.merge(right, on=['student_name','roll'], how='left')]: every left
    row once per right row with the same key, and once with NaN when the
    right has none. *)
Definition merge_left (left : list key) (right : list (key * Z))
  : list (key * option Z) :=
  k ← left;
  match List.filter (fun e => bool_decide (e.1 = k)) right with
  | [] => [ (k, None) ]
  | ms => (fun e => (k, Some e.2)) <$> ms
  end.

(** A cell of the [roll] column of the summary. *)
Inductive cell :=
| Text (s : string)
| Int (z : Z).

#[local] Instance cell_eq_dec : EqDecision cell.
Proof. solve_decision. Defined.

(** [.fillna(0)] on the [roll] column. *)
Definition fillna_roll (r : option string) : cell :=
  match r with
  | Some x => Text x
  | None => Int 0
  end.

(** ** float64 *)

(** An [int64] as a [float64] (to nearest, ties to even). *)
Definition float_of_int (z : Z) : float :=
  if z <? 0 then PrimFloat.opp (PrimFloat.of_uint63 (Uint63.of_Z (- z)))
  else PrimFloat.of_uint63 (Uint63.of_Z z).

(** [rint]: the nearest integer, ties to even.  Below 2^52 in magnitude it is
    obtained by adding and removing 2^52; from there on every float64 is an
    integer. *)
Definition rint (x : float) : float :=
  let c := 4503599627370496%float in
  if PrimFloat.ltb (PrimFloat.abs x) c then
    if PrimFloat.ltb x 0%float
    then PrimFloat.add (PrimFloat.sub x c) c
    else PrimFloat.sub (PrimFloat.add x c) c
  else x.

(** [Series.round(2)] is NumPy's [around]: multiply by [10**2], [rint],
    divide by [10**2]. *)
Definition round2 (x : float) : float :=
  PrimFloat.div (rint (PrimFloat.mul x 100%float)) 100%float.

(** [(PresentCount / TotalDays * 100).round(2)] *)
Definition attendance_percent (present_count total_days : Z) : float :=
  round2 (PrimFloat.mul
            (PrimFloat.div (float_of_int present_count) (float_of_int total_days))
            100%float).

(** ** The weekly report of the Reports & Export page *)

Record summary_row := {
  sum_student_name : string;
  sum_roll : cell;
  PresentCount : Z;
  TotalDays : Z;
  AttendancePercent : float }.

(** The student-wise summary table [merged] built from [df_week]. *)
Definition weekly_summary (df_week : list Flat.row) (start_date end_date : date)
  : list summary_row :=
  let presences :=
    groupby_size
      (List.filter (fun r => String.eqb (Flat.status r) "Present") df_week) in
  let total_days := days_between start_date end_date + 1 in
  let students_list := drop_duplicates (key_of <$> df_week) in
  (fun kc : key * option Z =>
     let present_count := default 0 kc.2 in
     {| sum_student_name := kc.1.1;
        sum_roll := fillna_roll kc.1.2;
        PresentCount := present_count;
        TotalDays := total_days;
        AttendancePercent := attendance_percent present_count total_days |})
    <$> merge_left students_list presences.

(** [start_date > end_date] *)
Definition date_gt (a b : date) : bool :=
  lex_lt (Z.of_nat <$> [year b; month b; day b])
         (Z.of_nat <$> [year a; month a; day a]).

(** What the page does for a chosen course, optional student and date
    range once the button is pressed: [None] stands for the branches that
    only show a message (invalid range, no data); otherwise the two sheets,
    WeeklySummary and RawAttendance. *)
Definition weekly_report (course_id_for_report : Z) (student_choice : option Z)
    (start_date end_date : date) (s : storage)
  : result (option (list summary_row * dataframe)) :=
  if date_gt start_date end_date then Ok None
  else
    let clauses :=
      app [ DateBetween (strftime_Ymd start_date) (strftime_Ymd end_date);
            CourseIs course_id_for_report ]
          match student_choice with
          | Some sid => [ StudentIs sid ]
          | None => []
          end in
    let* df_week := get_attendance_df (Where clauses) s in
    if df_empty df_week then Ok None
    else Ok (Some (weekly_summary (data df_week) start_date end_date, df_week)).

(** ** Notions used in the statements *)

(** The key of a mark under [UNIQUE(student_id, date)]. *)
Definition mark_key (r : attendance) : Z * string :=
  (attendance_student_id r, attendance_date r).

(** The attendance table holds at most one row per (student, date): the
    invariant the unique index maintains. *)
Definition unique_marks (d : db) : Prop :=
  NoDup (mark_key <$> rows (attendances d)).

(** The rows stored for a (student, date) pair. *)
Definition marks_of (sid : Z) (date : string) (d : db) : list attendance :=
  List.filter (same_mark sid date) (rows (attendances d)).

(** All the rows stored for a student. *)
Definition marks_of_student (sid : Z) (d : db) : list attendance :=
  List.filter (fun r => attendance_student_id r =? sid) (rows (attendances d)).

(** The database after one upsert on a connection of [get_conn]. *)
Definition upsert_db (date ts : string) (d : db) (e : Z * string) : db :=
  let t := attendances d in
  let i := new_rowid attendance_id t in
  {| colleges := colleges d; departments := departments d;
     courses := courses d; students := students d;
     attendances := {| rows := upsert_rows e.1 date e.2 ts i (rows t);
                       seq := i |} |}.

(** A call of one of the four [add_*] functions. *)
Inductive add_call :=
| AddCollege (name : string)
| AddDepartment (college_id : Z) (name : string)
| AddCourse (department_id : Z) (name : string)
| AddStudent (course_id : Z) (name : string) (roll : option string).

Definition run_add (c : add_call) (s : storage) : result (bool * storage) :=
  match c with
  | AddCollege name => add_college name s
  | AddDepartment cid name => add_department cid name s
  | AddCourse did name => add_course did name s
  | AddStudent cid name roll => add_student cid name roll s
  end.

(** The call would store a second row with a name (or roll) already used in
    the same scope: the uniqueness constraint of its table is violated. *)
Definition duplicates (c : add_call) (d : db) : Prop :=
  match c with
  | AddCollege name =>
      exists r, r ∈ rows (colleges d) /\ college_name r = Py.strip name
  | AddDepartment cid name =>
      exists r, r ∈ rows (departments d) /\
        department_college_id r = cid /\ department_name r = Py.strip name
  | AddCourse did name =>
      exists r, r ∈ rows (courses d) /\
        course_department_id r = did /\ course_name r = Py.strip name
  | AddStudent cid name roll =>
      exists r x, r ∈ rows (students d) /\ student_course_id r = cid /\
        roll_param roll = Some x /\ student_roll r = Some x
  end.

(** The parent row the call refers to is in the parent table. *)
Definition parent_exists (c : add_call) (d : db) : Prop :=
  match c with
  | AddCollege _ => True
  | AddDepartment cid _ => cid ∈ map college_id (rows (colleges d))
  | AddCourse did _ => did ∈ map department_id (rows (departments d))
  | AddStudent cid _ _ => cid ∈ map course_id (rows (courses d))
  end.

(** [add_student] called once per entry of a list, in order. *)
Fixpoint add_students (course_id : Z) (l : list (string * option string))
    (s : storage) : result (list bool * storage) :=
  match l with
  | [] => Ok ([], s)
  | (name, roll) :: l' =>
      let* r := add_student course_id name roll s in
      let* r' := add_students course_id l' r.2 in
      Ok (r.1 :: r'.1, r'.2)
  end.

(** What a student row says besides its rowid. *)
Definition student_fields (r : student) : Z * option string * string :=
  (student_course_id r, student_roll r, student_name r).

(** The rows beneath college [cid] in the store [d]. *)
Definition department_under (cid : Z) (r : department) : Prop :=
  department_college_id r = cid.

Definition course_under (d : db) (cid : Z) (c : course) : Prop :=
  exists dp, dp ∈ rows (departments d) /\ department_under cid dp /\
    course_department_id c = department_id dp.

Definition student_under (d : db) (cid : Z) (s : student) : Prop :=
  exists c, c ∈ rows (courses d) /\ course_under d cid c /\
    student_course_id s = course_id c.

Definition mark_under (d : db) (cid : Z) (a : attendance) : Prop :=
  exists s, s ∈ rows (students d) /\ student_under d cid s /\
    attendance_student_id a = student_id s.

(** The number of rows of [df] under group key [k] whose status is
    ["Present"]. *)
Definition present_rows (df : list Flat.row) (k : key) : Z :=
  Z.of_nat (length (List.filter
    (fun r => has_key k r && String.eqb (Flat.status r) "Present") df)).

(** The summary row of a key, given its count. *)
Definition summary_of (start_date end_date : date) (k : key) (n : Z)
  : summary_row :=
  {| sum_student_name := k.1;
     sum_roll := fillna_roll k.2;
     PresentCount := n;
     TotalDays := days_between start_date end_date + 1;
     AttendancePercent :=
       attendance_percent n (days_between start_date end_date + 1) |}.

(** The count the summary shows for a key: the Present rows of a key with a
    roll, and 0 for a key whose roll is NA. *)
Definition shown_count (df : list Flat.row) (k : key) : Z :=
  match k.2 with
  | Some _ => present_rows df k
  | None => 0
  end.

(** ** Sample data *)

(** Two readings of the clock within one second. *)
Definition t_early : datetime :=
  {| dt_date := {| year := 2024; month := 3; day := 4 |};
     hour := 9; minute := 30; second := 15; microsecond := 100000 |}.

Definition t_late : datetime :=
  {| dt_date := {| year := 2024; month := 3; day := 4 |};
     hour := 9; minute := 30; second := 15; microsecond := 900000 |}.

(** A store in which student 1 is already marked on 2024-03-04. *)
Definition marked_once : db :=
  {| colleges := empty_table; departments := empty_table;
     courses := empty_table; students := empty_table;
     attendances :=
       {| rows := [ fresh_mark 1 "2024-03-04" "Present" "2024-03-04T08:00:00" 1 ];
          seq := 1 |} |}.

(** One college with one department, course, student and mark under it. *)
Definition family : db :=
  {| colleges := {| rows := [ {| college_id := 1; college_name := "North" |} ];
                    seq := 1 |};
     departments :=
       {| rows := [ {| department_id := 1; department_college_id := 1;
                       department_name := "Physics" |} ];
          seq := 1 |};
     courses :=
       {| rows := [ {| course_id := 1; course_department_id := 1;
                       course_name := "Optics" |} ];
          seq := 1 |};
     students :=
       {| rows := [ {| student_id := 1; student_course_id := 1;
                       student_roll := Some "R1"; student_name := "Asha" |} ];
          seq := 1 |};
     attendances :=
       {| rows := [ fresh_mark 1 "2024-03-04" "Present" "2024-03-04T08:00:00" 1 ];
          seq := 1 |} |}.

(** The clock at 08:00:00 on 2024-03-04. *)
Definition t_morning : datetime :=
  {| dt_date := {| year := 2024; month := 3; day := 4 |};
     hour := 8; minute := 0; second := 0; microsecond := 0 |}.

(** The calls that build [family] from a missing file. *)
Definition build_family : result storage :=
  let* s := init_db Fresh in
  let* r := add_college " North" s in
  let* r := add_department 1 "Physics " r.2 in
  let* r := add_course 1 "Optics" r.2 in
  let* r := add_student 1 "Asha" (Some "R1") r.2 in
  let* r := mark_attendance_for_date t_morning [ (1, "Present") ] "2024-03-04" r.2 in
  Ok r.2.

(** A connection on which [PRAGMA foreign_keys = ON] was executed. *)
Definition connect_enforcing : conn := {| foreign_keys := true |}.

(** A week of marks in course 1 of [family]: Asha (roll R1) is Present on
    three days and Absent on two, Bina (no roll) is Present on three days,
    Chen (roll R3) has one Absent mark, Dev (roll R4) has no mark, and one
    mark of Asha lies after the week. *)
Definition week_start : date := {| year := 2024; month := 3; day := 4 |}.
Definition week_end : date := {| year := 2024; month := 3; day := 10 |}.

Definition week_db : db :=
  let stamp := "2024-03-11T18:00:00" in
  {| colleges := colleges family; departments := departments family;
     courses := courses family;
     students :=
       {| rows :=
            [ {| student_id := 1; student_course_id := 1;
                 student_roll := Some "R1"; student_name := "Asha" |};
              {| student_id := 2; student_course_id := 1;
                 student_roll := None; student_name := "Bina" |};
              {| student_id := 3; student_course_id := 1;
                 student_roll := Some "R3"; student_name := "Chen" |};
              {| student_id := 4; student_course_id := 1;
                 student_roll := Some "R4"; student_name := "Dev" |} ];
          seq := 4 |};
     attendances :=
       {| rows :=
            [ fresh_mark 1 "2024-03-04" "Present" stamp 1;
              fresh_mark 2 "2024-03-04" "Present" stamp 2;
              fresh_mark 3 "2024-03-04" "Absent" stamp 3;
              fresh_mark 1 "2024-03-05" "Present" stamp 4;
              fresh_mark 2 "2024-03-05" "Present" stamp 5;
              fresh_mark 1 "2024-03-06" "Absent" stamp 6;
              fresh_mark 2 "2024-03-06" "Present" stamp 7;
              fresh_mark 1 "2024-03-07" "Present" stamp 8;
              fresh_mark 1 "2024-03-08" "Absent" stamp 9;
              fresh_mark 1 "2024-03-11" "Present" stamp 10 ];
          seq := 10 |} |}.

(** ** Listing the hierarchy *)

(** [dict(r)] for a row of [SELECT id, name]. *)
Record entry := {
  entry_id : Z;
  entry_name : string }.

(** [dict(r)] for a row of [SELECT id, name, roll]. *)
Record student_entry := {
  se_id : Z;
  se_name : string;
  se_roll : option string }.

(** [ORDER BY name] *)
Definition name_le {A} (name : A -> string) (x y : A) : Prop :=
  String.compare (name x) (name y) ≠ Gt.

#[local] Instance name_le_dec {A} (name : A -> string) x y :
  Decision (name_le name x y).
Proof. unfold name_le. apply _. Defined.

(** [conn.execute(q).fetchall()] for a [SELECT] on the tables. *)
Definition fetchall {A} (s : storage) (q : db -> list A) : result (list A) :=
  match s with
  | Healthy d => Ok (q d)
  | Fresh => Raise OperationalError
  | _ => Raise DatabaseError
  end.

Definition college_entry (r : college) : entry :=
  {| entry_id := college_id r; entry_name := college_name r |}.

Definition department_entry (r : department) : entry :=
  {| entry_id := department_id r; entry_name := department_name r |}.

Definition course_entry (r : course) : entry :=
  {| entry_id := course_id r; entry_name := course_name r |}.

Definition student_entry_of (r : student) : student_entry :=
  {| se_id := student_id r; se_name := student_name r;
     se_roll := student_roll r |}.

(** [list_colleges()] *)
Definition list_colleges (s : storage) : result (list entry) :=
  let* conn := get_conn s in
  fetchall s (fun d =>
    merge_sort (name_le entry_name) (college_entry <$> rows (colleges d))).

(** [list_departments(college_id)] *)
Definition list_departments (college_id : Z) (s : storage) : result (list entry) :=
  let* conn := get_conn s in
  fetchall s (fun d =>
    merge_sort (name_le entry_name)
      (department_entry <$>
         filter (fun r => department_college_id r = college_id)
           (rows (departments d)))).

(** [list_courses(department_id)] *)
Definition list_courses (department_id : Z) (s : storage) : result (list entry) :=
  let* conn := get_conn s in
  fetchall s (fun d =>
    merge_sort (name_le entry_name)
      (course_entry <$>
         filter (fun r => course_department_id r = department_id)
           (rows (courses d)))).

(** [list_students(course_id)] *)
Definition list_students (course_id : Z) (s : storage)
  : result (list student_entry) :=
  let* conn := get_conn s in
  fetchall s (fun d =>
    merge_sort (name_le se_name)
      (student_entry_of <$>
         filter (fun r => student_course_id r = course_id)
           (rows (students d)))).

(** [ensure_db_file()]: both branches call [init_db()]. *)
Definition ensure_db_file (s : storage) : result storage := init_db s.

(** ** Invariants of the schema *)

(** The primary keys of a table are pairwise distinct. *)
Definition unique_ids (d : db) : Prop :=
  NoDup (college_id <$> rows (colleges d)) /\
  NoDup (department_id <$> rows (departments d)) /\
  NoDup (course_id <$> rows (courses d)) /\
  NoDup (student_id <$> rows (students d)) /\
  NoDup (attendance_id <$> rows (attendances d)).

(** The key of a student under [UNIQUE(course_id, roll)]; a row with a
    [NULL] roll has none. *)
Definition roll_key (r : student) : option (Z * string) :=
  x ← student_roll r; Some (student_course_id r, x).

(** The [UNIQUE] constraints of the four entity tables hold. *)
Definition unique_names (d : db) : Prop :=
  NoDup (college_name <$> rows (colleges d)) /\
  NoDup ((fun r => (department_college_id r, department_name r))
           <$> rows (departments d)) /\
  NoDup ((fun r => (course_department_id r, course_name r))
           <$> rows (courses d)) /\
  NoDup (omap roll_key (rows (students d))).


(** The primary keys and the [UNIQUE] constraints of all five tables hold. *)
Definition schema_ok (d : db) : Prop :=
  unique_ids d /\ unique_names d /\ unique_marks d.

(** The store after the insert of a successful [add_*] call. *)
Definition after_add (c : add_call) (d : db) : db :=
  match c with
  | AddCollege name =>
      let i := new_rowid college_id (colleges d) in
      {| colleges :=
           {| rows := rows (colleges d) ++
                      [ {| college_id := i; college_name := Py.strip name |} ];
              seq := i |};
         departments := departments d; courses := courses d;
         students := students d; attendances := attendances d |}
  | AddDepartment cid name =>
      let i := new_rowid department_id (departments d) in
      {| colleges := colleges d;
         departments :=
           {| rows := rows (departments d) ++
                      [ {| department_id := i; department_college_id := cid;
                           department_name := Py.strip name |} ];
              seq := i |};
         courses := courses d; students := students d;
         attendances := attendances d |}
  | AddCourse did name =>
      let i := new_rowid course_id (courses d) in
      {| colleges := colleges d; departments := departments d;
         courses :=
           {| rows := rows (courses d) ++
                      [ {| course_id := i; course_department_id := did;
                           course_name := Py.strip name |} ];
              seq := i |};
         students := students d; attendances := attendances d |}
  | AddStudent cid name roll =>
      let i := new_rowid student_id (students d) in
      {| colleges := colleges d; departments := departments d;
         courses := courses d;
         students :=
           {| rows := rows (students d) ++
                      [ {| student_id := i; student_course_id := cid;
                           student_roll := roll_param roll;
                           student_name := Py.strip name |} ];
              seq := i |};
         attendances := attendances d |}
  end.

(** The key the call would store is not in its table's unique index. *)
Definition fresh_key (c : add_call) (d : db) : Prop :=
  match c with
  | AddCollege name => Py.strip name ∉ college_name <$> rows (colleges d)
  | AddDepartment cid name =>
      (cid, Py.strip name) ∉
        (fun r => (department_college_id r, department_name r))
          <$> rows (departments d)
  | AddCourse did name =>
      (did, Py.strip name) ∉
        (fun r => (course_department_id r, course_name r)) <$> rows (courses d)
  | AddStudent cid name roll =>
      forall x, roll_param roll = Some x ->
        (cid, x) ∉ omap roll_key (rows (students d))
  end.


(** ** The Setup page *)

(** What a page shows after an action. *)
Inductive feedback :=
| st_warning (msg : string)
| st_success (msg : string)
| st_error (msg : string)
| st_info (msg : string).

(** A string is blank when all its characters are whitespace, so that
    [not s.strip()] holds. *)
Fixpoint blank (s : string) : bool :=
  match s with
  | EmptyString => true
  | String c r => Py.isspace c && blank r
  end.

(** The "Add College" button. *)
Definition setup_add_college (col_name : string) (s : storage)
  : result (feedback * storage) :=
  if String.eqb (Py.strip col_name) "" then
    Ok (st_warning "Enter a valid college name.", s)
  else
    let* r := add_college col_name s in
    Ok (if r.1 then st_success ("College '" +:+ col_name +:+ "' added.")
        else st_error "College already exists.", r.2).

(** The "Add Department" button, under the selected college. *)
Definition setup_add_department (sel_college_name : string) (sel_college_id : Z)
    (dept_name : string) (s : storage) : result (feedback * storage) :=
  if String.eqb (Py.strip dept_name) "" then
    Ok (st_warning "Enter department name.", s)
  else
    let* r := add_department sel_college_id dept_name s in
    Ok (if r.1
        then st_success ("Department '" +:+ dept_name +:+ "' added under "
                         +:+ sel_college_name +:+ ".")
        else st_error "Department already exists in this college.", r.2).

(** The "Add Course" button, under the selected department. *)
Definition setup_add_course (sel_dept_name : string) (sel_dept_id : Z)
    (course_name : string) (s : storage) : result (feedback * storage) :=
  if String.eqb (Py.strip course_name) "" then
    Ok (st_warning "Enter course name.", s)
  else
    let* r := add_course sel_dept_id course_name s in
    Ok (if r.1
        then st_success ("Course '" +:+ course_name +:+ "' added under "
                         +:+ sel_dept_name +:+ ".")
        else st_error "Course already exists in this department.", r.2).

(** The "Add Student" button, under the selected course; the roll is the
    text of its input box, empty when nothing was typed. *)
Definition setup_add_student (sel_course_name : string) (sel_course_id : Z)
    (stu_name stu_roll : string) (s : storage) : result (feedback * storage) :=
  if String.eqb (Py.strip stu_name) "" then
    Ok (st_warning "Enter student name.", s)
  else
    let* r := add_student sel_course_id stu_name (Some stu_roll) s in
    Ok (if r.1
        then st_success ("Student '" +:+ stu_name +:+ "' added to "
                         +:+ sel_course_name +:+ ".")
        else st_error "Student with same roll already exists in this course.",
        r.2).

(** Two [add_*] calls aim at the same key of a unique index. *)
Definition same_key (c c' : add_call) : Prop :=
  match c, c' with
  | AddCollege n, AddCollege n' => Py.strip n = Py.strip n'
  | AddDepartment p n, AddDepartment p' n' => p = p' /\ Py.strip n = Py.strip n'
  | AddCourse p n, AddCourse p' n' => p = p' /\ Py.strip n = Py.strip n'
  | AddStudent p _ r, AddStudent p' _ r' =>
      p = p' /\ roll_param r = roll_param r' /\ roll_param r ≠ None
  | _, _ => False
  end.


(** ** Numbers in option labels *)

Module PyInt.

(** [str(z)] for an [int] *)
Definition str (z : Z) : string :=
  if z <? 0
  then String "-" (Py.digits (S (Z.to_nat (- z))) (Z.to_nat (- z)) EmptyString)
  else Py.digits (S (Z.to_nat z)) (Z.to_nat z) EmptyString.

(** The value of a decimal digit. *)
Definition digit_value (c : ascii) : option Z :=
  let n := Z.of_N (N_of_ascii c) in
  if (48 <=? n) && (n <=? 57) then Some (n - 48) else None.

(** The digits of an [int()] argument: a non-empty run of decimal digits in
    which single underscores may stand between two digits. *)
Fixpoint parse_digits (acc : Z) (after_digit : bool) (s : string) : option Z :=
  match s with
  | EmptyString => if after_digit then Some acc else None
  | String c r =>
      match digit_value c with
      | Some v => parse_digits (10 * acc + v) true r
      | None =>
          if Ascii.eqb c "_" && after_digit then parse_digits acc false r
          else None
      end
  end.

(** [int(s)]: surrounding whitespace is dropped and a sign is allowed;
    [None] stands for [ValueError]. *)
Definition int (s : string) : option Z :=
  match Py.strip s with
  | String c r =>
      if Ascii.eqb c "-" then Z.opp <$> parse_digits 0 false r
      else if Ascii.eqb c "+" then parse_digits 0 false r
      else parse_digits 0 false (String c r)
  | EmptyString => None
  end.

End PyInt.

(** [s.split(sep)[0]]: the text before the first [sep], all of [s] when
    there is none. *)
Fixpoint split_first (sep : ascii) (s : string) : string :=
  match s with
  | EmptyString => EmptyString
  | String c r => if Ascii.eqb c sep then EmptyString else String c (split_first sep r)
  end.

(** ** The Mark Attendance page *)

(** [f"{r['id']}|{r['name']} ({r['roll'] if r.get('roll') else ''})"] *)
Definition option_label (r : student_entry) : string :=
  PyInt.str (se_id r) +:+ "|" +:+ se_name r +:+ " ("
  +:+ (if Py.truthy (se_roll r) then default "" (se_roll r) else "") +:+ ")".

(** [m[k] = v] on a [dict]: an existing key keeps its place. *)
Fixpoint dict_set (k : Z) (v : string) (m : status_map) : status_map :=
  match m with
  | [] => [ (k, v) ]
  | (k', v') :: m' =>
      if k' =? k then (k', v) :: m' else (k', v') :: dict_set k v m'
  end.

(** The loop that prepares [student_status_map] from the options and the
    selection of the multiselect; [None] stands for the [ValueError] of
    [int]. *)
Fixpoint build_status_map (options selected_present : list string)
    (m : status_map) : option status_map :=
  match options with
  | [] => Some m
  | opt :: rest =>
      match PyInt.int (split_first "|" opt) with
      | Some sid =>
          build_status_map rest selected_present
            (dict_set sid
               (if bool_decide (opt ∈ selected_present) then "Present" else "Absent")
               m)
      | None => None
      end
  end.

(** The page from the chosen course on, with the "Save Attendance" button
    pressed: [None] stands for a [ValueError]. *)
Definition mark_page_save (sel_course_id : Z) (date_sel : date)
    (selected_present : list string) (now : datetime) (s : storage)
  : option (result (feedback * storage)) :=
  let date_str := strftime_Ymd date_sel in
  match list_students sel_course_id s with
  | Raise e => Some (Raise e)
  | Ok [] =>
      Some (Ok (st_info "No students in this course. Add students in Setup.", s))
  | Ok students =>
      match get_attendance_df (Where [ DateIs date_str; CourseIs sel_course_id ]) s with
      | Raise e => Some (Raise e)
      | Ok df_existing =>
          let options := option_label <$> students in
          match build_status_map options selected_present [] with
          | None => None
          | Some student_status_map =>
              Some (let* r := mark_attendance_for_date now student_status_map
                                date_str s in
                    Ok (st_success "Attendance saved.", r.2))
          end
      end
  end.

(** The status the page gives a student. *)
Definition chosen_status (selected_present : list string) (r : student_entry)
  : string :=
  if bool_decide (option_label r ∈ selected_present) then "Present" else "Absent".

(** Every character of a string passes a test. *)
Fixpoint all_chars (p : ascii -> bool) (s : string) : bool :=
  match s with
  | EmptyString => true
  | String c r => p c && all_chars p r
  end.

(** A decimal digit; a character [str] of an [int] can produce. *)
Definition is_digit (c : ascii) : bool :=
  match PyInt.digit_value c with
  | Some _ => true
  | None => false
  end.

Definition sign_or_digit (c : ascii) : bool := is_digit c || Ascii.eqb c "-".

(** A batch for two students. *)
Definition two_marks : status_map := [ (1, "Absent"); (2, "Present") ].


(** A date of the calendar: a month 1..12 and a day of that month. *)
Definition valid_date (d : date) : Prop :=
  (1 <= year d)%nat /\ (1 <= month d <= 12)%nat /\
  1 <= Z.of_nat (day d) <= days_in_month (Z.of_nat (year d)) (Z.of_nat (month d)).


(** ** The Calendar View and the filters of the report pages *)

(** The selection of the three nested select boxes: a department can only
    be chosen inside a chosen college, a course inside a chosen
    department. *)
Inductive scope :=
| AllColleges
| InCollege (college_id : Z)
| InDepartment (college_id department_id : Z)
| InCourse (college_id department_id course_id : Z).

(** The conditions of the selection, in the order the pages append them. *)
Definition scope_clauses (sc : scope) : list clause :=
  match sc with
  | AllColleges => []
  | InCollege co => [ CollegeIs co ]
  | InDepartment co dp => [ CollegeIs co; DepartmentIs dp ]
  | InCourse co dp c => [ CollegeIs co; DepartmentIs dp; CourseIs c ]
  end.

(** The listing calls the pages make to fill the select boxes of the
    selection. *)
Definition scope_lookups (sc : scope) (s : storage) : result unit :=
  match sc with
  | AllColleges => Ok tt
  | InCollege co => let* depts := list_departments co s in Ok tt
  | InDepartment co dp | InCourse co dp _ =>
      let* depts := list_departments co s in
      let* courses := list_courses dp s in Ok tt
  end.

(** [build_filters_from_ui()] of the Reports page, for a selection and the
    two dates: the date condition is always appended, so the branch that
    returns the empty filter is never taken. *)
Definition build_filters_from_ui (sc : scope) (start_date end_date : date)
  : filter_clause :=
  let clauses :=
    scope_clauses sc
    ++ [ DateBetween (strftime_Ymd start_date) (strftime_Ymd end_date) ] in
  match clauses with
  | [] => Where []
  | _ => Where clauses
  end.

(** [name + (f" ({roll})" if roll else "")], the roll with NA as [""]. *)
Definition student_display (r : Flat.row) : string :=
  Flat.student_name r +:+
  (if Py.truthy (Flat.roll r) then " (" +:+ default "" (Flat.roll r) +:+ ")" else "").

(** The index of the pivot: [student_display, course, department, college]. *)
Definition pivot_index : Type := string * string * string * string.

Definition pivot_key (r : Flat.row) : pivot_index :=
  (student_display r, Flat.course r, Flat.department r, Flat.college r).

Definition index_compare (x y : pivot_index) : comparison :=
  then_by (String.compare x.1.1.1 y.1.1.1)
 (then_by (String.compare x.1.1.2 y.1.1.2)
 (then_by (String.compare x.1.2 y.1.2)
          (String.compare x.2 y.2))).

Definition index_le (x y : pivot_index) : Prop := index_compare x y ≠ Gt.

#[local] Instance index_le_dec x y : Decision (index_le x y).
Proof. unfold index_le. apply _. Defined.

Definition string_le (x y : string) : Prop := String.compare x y ≠ Gt.

#[local] Instance string_le_dec x y : Decision (string_le x y).
Proof. unfold string_le. apply _. Defined.

(** [aggfunc='first'] on the rows of one index and date, and [fillna("")]
    where there is none. *)
Definition pivot_cell (df : list Flat.row) (k : pivot_index) (c : string) : string :=
  match List.filter (fun r => bool_decide (pivot_key r = k /\ Flat.date r = c)) df with
  | [] => ""
  | r :: _ => Flat.status r
  end.

(** The pivot: its date columns, and one row per index with a cell per
    column. *)
Record pivot_table := {
  pivot_columns : list string;
  pivot_rows : list (pivot_index * list string) }.

(** [df.pivot_table(index=[...], columns='date', values='status',
    aggfunc='first').fillna("")]: index and columns are the distinct values,
    sorted. *)
Definition pivot (df : list Flat.row) : pivot_table :=
  let cols := merge_sort string_le (remove_dups (Flat.date <$> df)) in
  let index := merge_sort index_le (remove_dups (pivot_key <$> df)) in
  {| pivot_columns := cols;
     pivot_rows := (fun k => (k, pivot_cell df k <$> cols)) <$> index |}.

(** The Calendar View for a selection and two dates: a message, or the
    pivot. *)
Definition calendar_view (sc : scope) (start_date end_date : date) (s : storage)
  : result (feedback + pivot_table) :=
  let* colleges := list_colleges s in
  match colleges with
  | [] => Ok (inl (st_info "No data yet."))
  | _ =>
      let* lookups := scope_lookups sc s in
      if date_gt start_date end_date
      then Ok (inl (st_error "Start date cannot be after end date."))
      else
        let* df := get_attendance_df
                     (Where (scope_clauses sc ++
                             [ DateBetween (strftime_Ymd start_date)
                                           (strftime_Ymd end_date) ])) s in
        if df_empty df
        then Ok (inl (st_info "No attendance records in this range."))
        else Ok (inr (pivot (data df)))
  end.


(** ** Dates as text *)

(** The four decimal digits [strftime] prints for a year from 1000 to 9999,
    and the two it prints for a month or day. *)
Definition d4 (n : nat) : string :=
  String (Py.digit (n / 1000)) (String (Py.digit (n / 100 mod 10))
    (String (Py.digit (n / 10 mod 10)) (String (Py.digit (n mod 10)) EmptyString))).

Definition d2 (n : nat) : string :=
  String (Py.digit (n / 10)) (String (Py.digit (n mod 10)) EmptyString).

(** The order of two dates as Python compares them. *)
Definition date_compare (a b : date) : comparison :=
  then_by (Nat.compare (year a) (year b))
    (then_by (Nat.compare (month a) (month b)) (Nat.compare (day a) (day b))).

(** The Reports page, from the selection and the two dates to what it
    shows: a message, or the filtered table. *)
Definition reports_view (sc : scope) (start_date end_date : date) (s : storage)
  : result (feedback + dataframe) :=
  let* colleges := list_colleges s in
  let* lookups := scope_lookups sc s in
  let* df := get_attendance_df (build_filters_from_ui sc start_date end_date) s in
  if df_empty df then Ok (inl (st_info "No records for the selected filters."))
  else Ok (inr df).

(** A date whose year has four digits and whose month and day have at most
    two: the dates ["%Y-%m-%d"] prints in ten characters. *)
Definition fits_pads (d : date) : Prop :=
  (1000 <= year d < 100 * 100 /\ month d < 100 /\ day d < 100)%nat.

(** ** Names as the Setup page stores them *)

(** The name an [add_*] call is given. *)
Definition call_name (c : add_call) : string :=
  match c with
  | AddCollege n | AddDepartment _ n | AddCourse _ n | AddStudent _ n _ => n
  end.

(** A name without surrounding whitespace and not empty. *)
Definition clean (n : string) : Prop := Py.strip n = n /\ n ≠ "".

(** Every stored name is clean. *)
Definition names_clean (d : db) : Prop :=
  Forall (fun r => clean (college_name r)) (rows (colleges d)) /\
  Forall (fun r => clean (department_name r)) (rows (departments d)) /\
  Forall (fun r => clean (course_name r)) (rows (courses d)) /\
  Forall (fun r => clean (student_name r)) (rows (students d)).

(** ** Statuses as the Mark Attendance page stores them *)

(** One of the two statuses of the page. *)
Definition two_valued (st : string) : Prop := st = "Present" \/ st = "Absent".

(** Every stored mark has one of the two statuses. *)
Definition statuses_ok (d : db) : Prop :=
  Forall (fun a => two_valued (attendance_status a)) (rows (attendances d)).

(** ** The days of a range *)

(** The day after [d] in the calendar. *)
Definition tomorrow (d : date) : date :=
  if Z.of_nat (day d) <? days_in_month (Z.of_nat (year d)) (Z.of_nat (month d))
  then {| year := year d; month := month d; day := S (day d) |}
  else if (month d <? 12)%nat
       then {| year := year d; month := S (month d); day := 1 |}
       else {| year := S (year d); month := 1; day := 1 |}.

(** The [n]-th day after [d]: the range from [d] to it holds [n + 1] days. *)
Definition days_after (n : nat) (d : date) : date := Nat.iter n tomorrow d.

(** [q] hundredths is [100 * p / t] rounded to two decimals: no integer is
    nearer to [10000 * p / t] than [q]. *)
Definition nearest_hundredths (p t q : Z) : Prop :=
  2 * Z.abs (q * t - 10000 * p) <= t.

(** The raw rows of the weekly report of [week_db]. *)
Definition week_rows : list Flat.row :=
  match weekly_report 1 None week_start week_end (Healthy week_db) with
  | Ok (Some (_, raw)) => data raw
  | _ => []
  end.

(** * Properties *)

(** ** The upsert on rows *)

Section Upsert.
Variables (sid : Z) (date status ts : string) (i : Z).


Lemma same_mark_true r :
  same_mark sid date r = true <-> mark_key r = (sid, date).
Proof.
  unfold same_mark, mark_key. rewrite bool_decide_eq_true.
  split; [intros [-> ->]; reflexivity | intros [= -> ->]; auto].
Qed.

Lemma same_mark_overwritten r :
  same_mark sid date (overwritten r status ts) = same_mark sid date r.
Proof. reflexivity. Qed.

(** A filter that rejects the rows of the key does not see the upsert. *)
Lemma upsert_rows_frame (P : attendance -> bool) l :
  (forall r, mark_key r = (sid, date) -> P r = false) ->
  List.filter P (upsert_rows sid date status ts i l) = List.filter P l.
Proof.
  intros HP. induction l as [|r l IH]; simpl.
  - rewrite (HP (fresh_mark sid date status ts i)); reflexivity.
  - destruct (same_mark sid date r) eqn:E; simpl.
    + apply same_mark_true in E.
      rewrite (HP (overwritten r status ts)), (HP r); auto.
    + rewrite IH. reflexivity.
Qed.

(** On the rows of the key the upsert overwrites the first one, or adds
    the fresh row when there is none. *)
Lemma upsert_rows_hit l :
  List.filter (same_mark sid date) (upsert_rows sid date status ts i l) =
  match List.filter (same_mark sid date) l with
  | [] => [ fresh_mark sid date status ts i ]
  | r :: rest => overwritten r status ts :: rest
  end.
Proof.
  induction l as [|r l IH]; simpl.
  - unfold same_mark. simpl. rewrite bool_decide_eq_true_2; auto.
  - destruct (same_mark sid date r) eqn:E; simpl.
    + rewrite same_mark_overwritten, E. reflexivity.
    + rewrite E, IH. reflexivity.
Qed.

Lemma upsert_rows_keys l :
  mark_key <$> upsert_rows sid date status ts i l =
  if bool_decide ((sid, date) ∈ mark_key <$> l)
  then mark_key <$> l else (mark_key <$> l) ++ [ (sid, date) ].
Proof.
  induction l as [|r l IH]; csimpl.
  - reflexivity.
  - destruct (same_mark sid date r) eqn:E; csimpl.
    + apply same_mark_true in E.
      rewrite bool_decide_eq_true_2; [|rewrite E; left].
      reflexivity.
    + rewrite IH. assert (mark_key r ≠ (sid, date)) as Hne.
      { intros Hk. apply same_mark_true in Hk. congruence. }
      destruct (bool_decide ((sid, date) ∈ mark_key <$> l)) eqn:B.
      * rewrite bool_decide_eq_true_2; [reflexivity|].
        apply bool_decide_eq_true in B. right. exact B.
      * rewrite bool_decide_eq_false_2; [reflexivity|].
        apply bool_decide_eq_false in B.
        intros [?|?]%elem_of_cons; [congruence | contradiction].
Qed.

Lemma upsert_rows_NoDup l :
  NoDup (mark_key <$> l) ->
  NoDup (mark_key <$> upsert_rows sid date status ts i l).
Proof.
  intros Hnd. rewrite upsert_rows_keys. case_bool_decide as B; [exact Hnd|].
  apply NoDup_app. split; [exact Hnd|]. split.
  - intros x Hx [->|[]%elem_of_nil]%elem_of_cons. contradiction.
  - apply NoDup_singleton.
Qed.

(** Every row after the upsert was there before, or carries [ts] and
    [status] under the key. *)
Lemma upsert_rows_new r l :
  r ∈ upsert_rows sid date status ts i l ->
  r ∈ l \/ (mark_key r = (sid, date) /\ attendance_status r = status
            /\ attendance_timestamp r = Some ts).
Proof.
  induction l as [|r0 l IH]; simpl.
  - intros [->|[]%elem_of_nil]%elem_of_cons. right. auto.
  - destruct (same_mark sid date r0) eqn:E.
    + intros [->|H]%elem_of_cons.
      * right. apply same_mark_true in E. auto.
      * left. right. exact H.
    + intros [->|H]%elem_of_cons; [left; left|].
      destruct (IH H) as [?|?]; [left; right|right]; assumption.
Qed.

(** Some row of the key carries [status] and [ts] after the upsert. *)
Lemma upsert_rows_stamped l :
  exists r, r ∈ upsert_rows sid date status ts i l /\
    mark_key r = (sid, date) /\ attendance_status r = status /\
    attendance_timestamp r = Some ts.
Proof.
  induction l as [|r0 l IH]; simpl.
  - exists (fresh_mark sid date status ts i). split; [left | auto].
  - destruct (same_mark sid date r0) eqn:E.
    + exists (overwritten r0 status ts). split; [left|].
      apply same_mark_true in E. auto.
    + destruct IH as (r & Hr & H). exists r. split; [right|]; assumption.
Qed.
End Upsert.

(** Under the unique index a key has no row or exactly one. *)
Lemma unique_marks_filter sid date l :
  NoDup (mark_key <$> l) ->
  List.filter (same_mark sid date) l = [] \/
  exists r, List.filter (same_mark sid date) l = [ r ].
Proof.
  induction l as [|r l IH]; simpl; [auto|].
  intros [Hnot Hnd]%NoDup_cons. destruct (same_mark sid date r) eqn:E.
  - right. exists r. f_equal. apply same_mark_true in E.
    destruct (List.filter (same_mark sid date) l) as [|r' ?] eqn:F; [reflexivity|].
    exfalso. apply Hnot. rewrite E.
    assert (In r' (List.filter (same_mark sid date) l)) as Hin by (rewrite F; left; auto).
    apply filter_In in Hin as [Hin Hm]. apply same_mark_true in Hm.
    rewrite <- Hm. apply list_elem_of_fmap. exists r'. split; [reflexivity|].
    apply list_elem_of_In. exact Hin.
  - apply IH. exact Hnd.
Qed.

(** A row stamped [ts] stays stamped [ts] under a further upsert at [ts]. *)
Lemma upsert_rows_keeps_stamped sid date status ts i r l :
  r ∈ l -> attendance_timestamp r = Some ts ->
  exists r', r' ∈ upsert_rows sid date status ts i l /\
    mark_key r' = mark_key r /\ attendance_timestamp r' = Some ts.
Proof.
  intros Hin Hts. induction l as [|r0 l IH]; [inversion Hin|]. simpl.
  destruct (same_mark sid date r0) eqn:E.
  - apply elem_of_cons in Hin as [->|Hin].
    + exists (overwritten r0 status ts). split; [left | auto].
    + exists r. split; [right; exact Hin | auto].
  - apply elem_of_cons in Hin as [->|Hin].
    + exists r0. split; [left | auto].
    + destruct (IH Hin) as (r' & ? & ?). exists r'. split; [right|]; assumption.
Qed.

(** ** Marking attendance on a healthy store *)

Lemma upsert_attendance_default sid date status ts d :
  upsert_attendance connect_default sid date status ts d =
  Ok (upsert_db date ts d (sid, status)).
Proof.
  unfold upsert_attendance, fk_ok. simpl.
  rewrite andb_false_r. reflexivity.
Qed.

Lemma upsert_each_healthy date ts m d :
  upsert_each connect_default date ts m (Healthy d) =
  Ok (Healthy (foldl (upsert_db date ts) d m)).
Proof.
  revert d. induction m as [|[sid status] m IH]; intros d; simpl; [reflexivity|].
  rewrite upsert_attendance_default. simpl. apply IH.
Qed.

Lemma mark_attendance_healthy now m date d :
  mark_attendance_for_date now m date (Healthy d) =
  Ok (true, Healthy (foldl (upsert_db date (isoformat_seconds now)) d m)).
Proof.
  unfold mark_attendance_for_date. simpl.
  rewrite upsert_each_healthy. reflexivity.
Qed.

Section Marking.
Variables (date ts : string).

Lemma upsert_db_unique d e :
  unique_marks d -> unique_marks (upsert_db date ts d e).
Proof. apply upsert_rows_NoDup. Qed.

Lemma foldl_upsert_unique m d :
  unique_marks d -> unique_marks (foldl (upsert_db date ts) d m).
Proof.
  revert d. induction m as [|e m IH]; intros d Hd; simpl; [exact Hd|].
  apply IH, upsert_db_unique, Hd.
Qed.

(** The rows of a student the batch does not list are left as they are. *)
Lemma upsert_db_frame d e sid :
  sid ≠ e.1 ->
  marks_of_student sid (upsert_db date ts d e) = marks_of_student sid d.
Proof.
  intros Hne. unfold marks_of_student. simpl.
  apply upsert_rows_frame. intros r [= Hr _].
  apply Z.eqb_neq. congruence.
Qed.

Lemma foldl_upsert_frame m d sid :
  sid ∉ m.*1 ->
  marks_of_student sid (foldl (upsert_db date ts) d m) = marks_of_student sid d.
Proof.
  revert d. induction m as [|e m IH]; intros d Hnot; simpl; [reflexivity|].
  rewrite fmap_cons in Hnot. apply not_elem_of_cons in Hnot as [Hne Hnot].
  rewrite IH by exact Hnot. apply upsert_db_frame, Hne.
Qed.

(** The rows of another key are left as they are. *)
Lemma upsert_db_other d e sid :
  sid ≠ e.1 -> marks_of sid date (upsert_db date ts d e) = marks_of sid date d.
Proof.
  intros Hne. unfold marks_of. simpl.
  apply upsert_rows_frame. intros r [= Hr _].
  apply bool_decide_eq_false. intros [? _]. congruence.
Qed.

Lemma foldl_upsert_other m d sid :
  sid ∉ m.*1 ->
  marks_of sid date (foldl (upsert_db date ts) d m) = marks_of sid date d.
Proof.
  revert d. induction m as [|e m IH]; intros d Hnot; simpl; [reflexivity|].
  rewrite fmap_cons in Hnot. apply not_elem_of_cons in Hnot as [Hne Hnot].
  rewrite IH by exact Hnot. apply upsert_db_other, Hne.
Qed.

(** The row of the key after one upsert. *)
Lemma upsert_db_hit d sid status :
  unique_marks d ->
  marks_of sid date (upsert_db date ts d (sid, status)) =
  [ match marks_of sid date d with
    | [] => fresh_mark sid date status ts (new_rowid attendance_id (attendances d))
    | r :: _ => overwritten r status ts
    end ].
Proof.
  intros Hd. unfold marks_of. simpl. rewrite upsert_rows_hit.
  destruct (unique_marks_filter sid date _ Hd) as [->|[r ->]]; reflexivity.
Qed.

(** The row of a listed student after the whole batch. *)
Lemma foldl_upsert_hit m d sid status :
  unique_marks d -> NoDup m.*1 -> (sid, status) ∈ m ->
  exists i,
    marks_of sid date (foldl (upsert_db date ts) d m) =
    [ match marks_of sid date d with
      | [] => fresh_mark sid date status ts i
      | r :: _ => overwritten r status ts
      end ].
Proof.
  revert d. induction m as [|[sid' st'] m IH]; intros d Hd Hnd Hin; [inversion Hin|].
  rewrite fmap_cons in Hnd. apply NoDup_cons in Hnd as [Hnot Hnd]. simpl in *.
  apply elem_of_cons in Hin as [[= <- <-]|Hin].
  - exists (new_rowid attendance_id (attendances d)).
    rewrite foldl_upsert_other by exact Hnot. apply upsert_db_hit, Hd.
  - assert (sid ≠ sid') as Hne.
    { intros ->. apply Hnot. apply list_elem_of_fmap. exists (sid', status). auto. }
    destruct (IH (upsert_db date ts d (sid', st'))) as [i Hi]; auto using upsert_db_unique.
    exists i. rewrite Hi, upsert_db_other by exact Hne. reflexivity.
Qed.

(** What the batch changes carries [ts]. *)
Lemma foldl_upsert_new m d r :
  r ∈ rows (attendances (foldl (upsert_db date ts) d m)) ->
  r ∈ rows (attendances d) \/ attendance_timestamp r = Some ts.
Proof.
  revert d. induction m as [|e m IH]; intros d Hr; simpl in *; [left; exact Hr|].
  destruct (IH _ Hr) as [H|H]; [|right; exact H].
  simpl in H. apply upsert_rows_new in H as [H|(_ & _ & H)]; auto.
Qed.

Lemma foldl_upsert_keeps_stamped m d r :
  r ∈ rows (attendances d) -> attendance_timestamp r = Some ts ->
  exists r', r' ∈ rows (attendances (foldl (upsert_db date ts) d m)) /\
    mark_key r' = mark_key r /\ attendance_timestamp r' = Some ts.
Proof.
  revert d r. induction m as [|e m IH]; intros d r Hr Hts; simpl.
  - exists r. auto.
  - destruct (upsert_rows_keeps_stamped e.1 date e.2 ts
                (new_rowid attendance_id (attendances d)) r _ Hr Hts)
      as (r1 & Hr1 & Hk1 & Hts1).
    destruct (IH (upsert_db date ts d e) r1 Hr1 Hts1) as (r2 & Hr2 & Hk2 & Hts2).
    exists r2. split; [exact Hr2|]. split; [congruence | exact Hts2].
Qed.

Lemma foldl_upsert_stamped m d sid status :
  (sid, status) ∈ m ->
  exists r, r ∈ rows (attendances (foldl (upsert_db date ts) d m)) /\
    mark_key r = (sid, date) /\ attendance_timestamp r = Some ts.
Proof.
  revert d. induction m as [|e m IH]; intros d Hin; [inversion Hin|]. simpl.
  apply elem_of_cons in Hin as [<-|Hin]; [|apply IH, Hin].
  destruct (upsert_rows_stamped sid date status ts
              (new_rowid attendance_id (attendances d)) (rows (attendances d)))
    as (r & Hr & Hk & _ & Hts).
  destruct (foldl_upsert_keeps_stamped m (upsert_db date ts d (sid, status)) r Hr Hts)
    as (r' & Hr' & Hk' & Hts').
  exists r'. split; [exact Hr'|]. split; [congruence | exact Hts'].
Qed.
End Marking.


(** ** The upsert of [mark_attendance_for_date] *)






(** C5.  A batch touches only the students it lists: for a student outside
    the mapping every stored row, of the given date or any other, is the
    same before and after, so a student without a record still has none;
    each listed student ends with exactly one row for the date, holding the
    status the batch gives. *)
Theorem mark_attendance_selective (d : db) (now : datetime) (m : status_map)
    (date : string) :
  unique_marks d -> NoDup m.*1 ->
  exists d',
    mark_attendance_for_date now m date (Healthy d) = Ok (true, Healthy d') /\
    (forall sid, sid ∉ m.*1 ->
       marks_of_student sid d' = marks_of_student sid d /\
       marks_of sid date d' = marks_of sid date d) /\
    (forall sid status, (sid, status) ∈ m ->
       exists r, marks_of sid date d' = [ r ] /\ attendance_status r = status).
Proof.
  intros Hd Hnd. eexists. split; [apply mark_attendance_healthy|]. split.
  - intros sid Hsid. split.
    + apply foldl_upsert_frame, Hsid.
    + apply foldl_upsert_other, Hsid.
  - intros sid status Hin.
    destruct (foldl_upsert_hit date (isoformat_seconds now) m d sid status Hd Hnd Hin)
      as [i Hi].
    eexists. split; [exact Hi|]. destruct (marks_of sid date d); reflexivity.
Qed.

Lemma mark_attendance_selective_witness :
  exists d',
    mark_attendance_for_date t_early [ (1, "Present"); (2, "Absent") ] "2024-03-05"
      (Healthy marked_once) = Ok (true, Healthy d') /\
    (forall sid, sid ∉ [ (1, "Present"); (2, "Absent") ].*1 ->
       marks_of_student sid d' = marks_of_student sid marked_once /\
       marks_of sid "2024-03-05" d' = marks_of sid "2024-03-05" marked_once) /\
    (forall sid status, (sid, status) ∈ [ (1, "Present"); (2, "Absent") ] ->
       exists r, marks_of sid "2024-03-05" d' = [ r ] /\ attendance_status r = status).
Proof.
  apply (mark_attendance_selective marked_once t_early
           [ (1, "Present"); (2, "Absent") ] "2024-03-05").
  - apply NoDup_singleton.
  - apply (bool_decide_unpack _). vm_compute. exact I.
Defined.

(** The scenario of the specification: A (1) Present, B (2) Absent, and C
    (3), not listed, still without a record for the date. *)
Example selective_marking_scenario :
  exists d',
    mark_attendance_for_date t_early [ (1, "Present"); (2, "Absent") ] "2024-03-05"
      (Healthy init_db_fresh) = Ok (true, Healthy d') /\
    attendance_status <$> marks_of 1 "2024-03-05" d' = [ "Present" ] /\
    attendance_status <$> marks_of 2 "2024-03-05" d' = [ "Absent" ] /\
    marks_of 3 "2024-03-05" d' = [].
Proof. eexists. repeat split; vm_compute; reflexivity. Qed.

(** C9.  The timestamp is taken once, before the loop: whatever row the call
    inserted or changed carries the one string [isoformat_seconds now], each
    listed student has a row for the date carrying it, and the call returns
    [True] whenever it returns at all (on a store with the tables it always
    does). *)
Theorem mark_attendance_single_timestamp (d : db) (now : datetime)
    (m : status_map) (date : string) :
  exists d',
    mark_attendance_for_date now m date (Healthy d) = Ok (true, Healthy d') /\
    (forall r, r ∈ rows (attendances d') ->
       r ∈ rows (attendances d) \/
       attendance_timestamp r = Some (isoformat_seconds now)) /\
    (forall sid status, (sid, status) ∈ m ->
       exists r, r ∈ rows (attendances d') /\ mark_key r = (sid, date) /\
         attendance_timestamp r = Some (isoformat_seconds now)) /\
    (forall s b s', mark_attendance_for_date now m date s = Ok (b, s') -> b = true).
Proof.
  eexists. split; [apply mark_attendance_healthy|]. split; [|split].
  - intros r. apply foldl_upsert_new.
  - intros sid status. apply foldl_upsert_stamped.
  - intros s b s'. unfold mark_attendance_for_date.
    destruct (get_conn s); simpl; [|discriminate].
    destruct (upsert_each _ _ _ _ _); simpl; [|discriminate].
    intros [= <- _]. reflexivity.
Qed.

(** ** The [add_*] functions *)

Lemma existsb_roll_conflict cid x l :
  existsb (roll_conflict cid (Some x)) l = true <->
  exists r, r ∈ l /\ student_course_id r = cid /\ student_roll r = Some x.
Proof.
  rewrite existsb_exists. split.
  - intros (r & Hin & Hr). apply bool_decide_eq_true in Hr as [? ?].
    exists r. split; [apply list_elem_of_In, Hin | auto].
  - intros (r & Hin & ? & ?). exists r. split; [apply list_elem_of_In, Hin|].
    apply bool_decide_eq_true. auto.
Qed.

Lemma existsb_roll_conflict_null cid l :
  existsb (roll_conflict cid None) l = false.
Proof. induction l; simpl; auto. Qed.

(** C2.  An [add_*] call that violates the uniqueness constraint of its
    table returns [False] without raising, and the store is the one it was:
    no row is added to any table. *)
Theorem add_duplicate_returns_false (c : add_call) (d : db) :
  duplicates c d ->
  run_add c (Healthy d) = Ok (false, Healthy d) /\
  forall b d', run_add c (Healthy d) = Ok (b, Healthy d') ->
    row_counts d' = row_counts d.
Proof.
  intros Hdup.
  assert (run_add c (Healthy d) = Ok (false, Healthy d)) as E.
  { destruct c as [name|cid name|did name|cid name roll]; simpl in *;
      unfold add_college, add_department, add_course, add_student, try_insert; simpl.
    - destruct Hdup as (r & Hr & Hn).
      unfold insert_college. rewrite bool_decide_eq_true_2; [reflexivity|].
      rewrite <- Hn. apply list_elem_of_In, in_map, list_elem_of_In, Hr.
    - destruct Hdup as (r & Hr & Hc & Hn).
      unfold insert_department. rewrite bool_decide_eq_true_2; [reflexivity|].
      rewrite <- Hn, <- Hc. apply list_elem_of_In.
      apply (in_map (fun r => (department_college_id r, department_name r))).
      apply list_elem_of_In, Hr.
    - destruct Hdup as (r & Hr & Hc & Hn).
      unfold insert_course. rewrite bool_decide_eq_true_2; [reflexivity|].
      rewrite <- Hn, <- Hc. apply list_elem_of_In.
      apply (in_map (fun r => (course_department_id r, course_name r))).
      apply list_elem_of_In, Hr.
    - destruct Hdup as (r & x & Hr & Hc & Hroll & Hx).
      unfold insert_student. rewrite Hroll.
      replace (existsb _ _) with true; [reflexivity|].
      symmetry. apply existsb_roll_conflict. eauto. }
  split; [exact E|]. intros b d'. rewrite E. intros [= _ <-]. reflexivity.
Qed.

Lemma add_duplicate_returns_false_witness :
  run_add (AddStudent 1 " Bina " (Some " R1 ")) (Healthy family)
    = Ok (false, Healthy family) /\
  forall b d', run_add (AddStudent 1 " Bina " (Some " R1 ")) (Healthy family)
                 = Ok (b, Healthy d') ->
    row_counts d' = row_counts family.
Proof.
  apply (add_duplicate_returns_false (AddStudent 1 " Bina " (Some " R1 ")) family).
  simpl. eexists. exists "R1". split; [left|]. repeat split.
Defined.

(** On the connection of [get_conn] an insert is refused only for a
    duplicate: the parent id plays no part. *)
Lemma add_fresh_returns_true c d :
  ~ duplicates c d ->
  exists d', run_add c (Healthy d) = Ok (true, Healthy d').
Proof.
  intros Hdup.
  destruct c as [name|cid name|did name|cid name roll]; simpl in *;
    unfold add_college, add_department, add_course, add_student, try_insert; simpl.
  - unfold insert_college. rewrite bool_decide_eq_false_2; [eexists; reflexivity|].
    intros Hin. apply Hdup. apply list_elem_of_In, in_map_iff in Hin as (r & ? & Hr).
    exists r. split; [apply list_elem_of_In, Hr | assumption].
  - unfold insert_department. rewrite bool_decide_eq_false_2; [eexists; reflexivity|].
    intros Hin. apply Hdup. apply list_elem_of_In, in_map_iff in Hin as (r & [= ? ?] & Hr).
    exists r. split; [apply list_elem_of_In, Hr | auto].
  - unfold insert_course. rewrite bool_decide_eq_false_2; [eexists; reflexivity|].
    intros Hin. apply Hdup. apply list_elem_of_In, in_map_iff in Hin as (r & [= ? ?] & Hr).
    exists r. split; [apply list_elem_of_In, Hr | auto].
  - unfold insert_student.
    destruct (existsb _ _) eqn:E; [|eexists; reflexivity].
    exfalso. apply Hdup. destruct (roll_param roll) as [x|] eqn:R.
    + apply existsb_roll_conflict in E as (r & ? & ? & ?). exists r, x. auto.
    + rewrite existsb_roll_conflict_null in E. discriminate.
Qed.

(** What enforcement would do: on a connection with foreign keys on, the
    engine refuses a department whose college is missing. *)
Lemma insert_department_enforced cid name d :
  cid ∉ map college_id (rows (colleges d)) ->
  (forall r, r ∈ rows (departments d) ->
     (department_college_id r, department_name r) ≠ (cid, name)) ->
  insert_department connect_enforcing cid name d
    = Raise (IntegrityError ForeignKeyFailed).
Proof.
  intros Hmiss Hfresh. unfold insert_department.
  rewrite bool_decide_eq_false_2.
  - unfold fk_ok. simpl. rewrite bool_decide_eq_false_2 by exact Hmiss. reflexivity.
  - intros Hin. apply list_elem_of_In, in_map_iff in Hin as (r & E & Hr).
    apply (Hfresh r); [apply list_elem_of_In, Hr | exact E].
Qed.

(** C3 (the code at the failing input).  No college, department, course or
    student has id 99, yet each insert under parent 99 returns [True] and
    the orphan row is stored. *)
Theorem add_under_missing_parent_is_stored :
  ~ parent_exists (AddDepartment 99 "Physics") init_db_fresh /\
  (exists d', add_department 99 "Physics" (Healthy init_db_fresh) = Ok (true, Healthy d')
     /\ rows (departments d') =
        [ {| department_id := 1; department_college_id := 99;
             department_name := "Physics" |} ]) /\
  (exists d', add_course 99 "Optics" (Healthy init_db_fresh) = Ok (true, Healthy d')
     /\ rows (courses d') =
        [ {| course_id := 1; course_department_id := 99; course_name := "Optics" |} ]) /\
  (exists d', add_student 99 "Asha" (Some "R1") (Healthy init_db_fresh)
                = Ok (true, Healthy d')
     /\ rows (students d') =
        [ {| student_id := 1; student_course_id := 99; student_roll := Some "R1";
             student_name := "Asha" |} ]) /\
  (exists d', mark_attendance_for_date t_early [ (99, "Present") ] "2024-03-04"
                (Healthy init_db_fresh) = Ok (true, Healthy d')
     /\ rows (attendances d') =
        [ fresh_mark 99 "2024-03-04" "Present" "2024-03-04T09:30:15" 1 ]).
Proof.
  split; [intros H; inversion H|].
  repeat split; eexists; split; vm_compute; reflexivity.
Qed.

(** ** Deleting a college *)

(** On the connection of [get_conn] the [ON DELETE CASCADE] clauses are
    inert: the delete touches the [colleges] table only. *)
Lemma delete_college_default cid d :
  let d' := delete_college connect_default cid d in
  departments d' = departments d /\ courses d' = courses d /\
  students d' = students d /\ attendances d' = attendances d.
Proof. simpl. auto. Qed.

(** What enforcement would do: on a connection with foreign keys on, no row
    beneath the deleted college is left in any of the four child tables. *)
Lemma delete_college_enforced_cascades cid d :
  cid ∈ map college_id (rows (colleges d)) ->
  let d' := delete_college connect_enforcing cid d in
  (forall r, r ∈ rows (colleges d') -> college_id r ≠ cid) /\
  (forall r, r ∈ rows (departments d') -> ~ department_under cid r) /\
  (forall r, r ∈ rows (courses d') -> ~ course_under d cid r) /\
  (forall r, r ∈ rows (students d') -> ~ student_under d cid r) /\
  (forall r, r ∈ rows (attendances d') -> ~ mark_under d cid r).
Proof.
  intros Hcid. unfold delete_college. simpl.
  rewrite bool_decide_eq_true_2 by exact Hcid. simpl.
  assert (forall c, c ∈ rows (courses d) -> course_under d cid c ->
            course_department_id c ∈
              map department_id
                (filter (fun r => department_college_id r = cid) (rows (departments d))))
    as Hc.
  { intros c _ (dp & Hdp & Hu & ->). apply list_elem_of_In, in_map, list_elem_of_In.
    apply list_elem_of_filter. split; assumption. }
  assert (forall s, s ∈ rows (students d) -> student_under d cid s ->
            student_course_id s ∈
              map course_id
                (filter (fun r => course_department_id r ∈
                     map department_id
                       (filter (fun r => department_college_id r = cid)
                          (rows (departments d)))) (rows (courses d))))
    as Hs.
  { intros s _ (c & Hin & Hu & ->). apply list_elem_of_In, in_map, list_elem_of_In.
    apply list_elem_of_filter. split; [apply Hc|]; assumption. }
  repeat split.
  - intros r [H _]%list_elem_of_filter. exact H.
  - intros r [H _]%list_elem_of_filter. exact H.
  - intros r [H Hin]%list_elem_of_filter Hu. apply H, Hc; assumption.
  - intros r [H Hin]%list_elem_of_filter Hu. apply H, Hs; assumption.
  - intros r [H Hin]%list_elem_of_filter (s & Hsin & Hu & E). apply H. rewrite E.
    apply list_elem_of_In, in_map, list_elem_of_In.
    apply list_elem_of_filter. split; [apply Hs|]; assumption.
Qed.

(** C4 (the code at the failing input).  Deleting college 1 of [family] on
    the connection of [get_conn] removes the college row and nothing else:
    its department, course, student and mark are all still stored. *)
Theorem delete_college_leaves_descendants :
  let d' := delete_college connect_default 1 family in
  get_conn (Healthy family) = Ok connect_default /\
  rows (colleges d') = [] /\
  (exists r, r ∈ rows (departments d') /\ department_under 1 r) /\
  (exists r, r ∈ rows (courses d') /\ course_under family 1 r) /\
  (exists r, r ∈ rows (students d') /\ student_under family 1 r) /\
  (exists r, r ∈ rows (attendances d') /\ mark_under family 1 r).
Proof.
  assert (exists r, r ∈ rows (departments family) /\ department_under 1 r) as Hd.
  { eexists. split; [left | reflexivity]. }
  assert (exists r, r ∈ rows (courses family) /\ course_under family 1 r) as Hc.
  { destruct Hd as (dp & ? & ?). eexists. split; [left|].
    exists dp. repeat split; try assumption.
    apply list_elem_of_singleton in H as ->. reflexivity. }
  assert (exists r, r ∈ rows (students family) /\ student_under family 1 r) as Hs.
  { destruct Hc as (c & ? & ?). eexists. split; [left|].
    exists c. repeat split; try assumption.
    apply list_elem_of_singleton in H as ->. reflexivity. }
  assert (exists r, r ∈ rows (attendances family) /\ mark_under family 1 r) as Ha.
  { destruct Hs as (s & ? & ?). eexists. split; [left|].
    exists s. repeat split; try assumption.
    apply list_elem_of_singleton in H as ->. reflexivity. }
  simpl. repeat split; assumption.
Qed.

(** ** Students without a roll *)

Lemma roll_param_null roll :
  roll = None \/ roll = Some "" -> roll_param roll = None.
Proof. intros [->| ->]; reflexivity. Qed.

Lemma add_student_null_roll cid name roll d :
  roll = None \/ roll = Some "" ->
  exists d',
    add_student cid name roll (Healthy d) = Ok (true, Healthy d') /\
    rows (students d') =
      rows (students d) ++
      [ {| student_id := new_rowid student_id (students d);
           student_course_id := cid; student_roll := None;
           student_name := Py.strip name |} ].
Proof.
  intros Hroll. unfold add_student, try_insert, insert_student. simpl.
  rewrite (roll_param_null roll Hroll), existsb_roll_conflict_null. simpl.
  eexists. split; reflexivity.
Qed.

(** C10.  A roll of [None] or [""] is stored as [NULL], and [NULL] rolls
    never collide under [UNIQUE(course_id, roll)]: any list of such
    students, names repeated or not, can be added to one course; every call
    returns [True] and appends its row with a [NULL] roll. *)
Theorem add_students_without_roll (cid : Z) (l : list (string * option string))
    (d : db) :
  Forall (fun p => p.2 = None \/ p.2 = Some "") l ->
  exists d' news,
    add_students cid l (Healthy d) = Ok (replicate (length l) true, Healthy d') /\
    rows (students d') = rows (students d) ++ news /\
    student_fields <$> news = (fun p => (cid, None, Py.strip p.1)) <$> l.
Proof.
  intros Hl. revert d. induction Hl as [|[name roll] l Hroll _ IH]; intros d.
  - exists d, []. simpl. rewrite app_nil_r. auto.
  - destruct (add_student_null_roll cid name roll d Hroll) as (d1 & E1 & R1).
    destruct (IH d1) as (d' & news & E & R & F).
    exists d'. eexists (_ :: news).
    cbn [add_students]. rewrite E1. cbn [bind snd fst]. rewrite E. cbn [bind snd fst].
    split; [reflexivity|]. split.
    + rewrite R, R1, <- app_assoc. reflexivity.
    + rewrite !fmap_cons, F. reflexivity.
Qed.

Lemma add_students_without_roll_witness :
  exists d' news,
    add_students 1 [ ("Asha", None); ("Asha", Some ""); ("Bina", None) ] (Healthy family)
      = Ok (replicate 3%nat true, Healthy d') /\
    rows (students d') = rows (students family) ++ news /\
    student_fields <$> news =
      (fun p => (1, None, Py.strip p.1))
        <$> [ ("Asha", None); ("Asha", Some ""); ("Bina", None) ].
Proof.
  apply (add_students_without_roll 1
           [ ("Asha", None); ("Asha", Some ""); ("Bina", None) ] family).
  constructor; [left; reflexivity|].
  constructor; [right; reflexivity|].
  constructor; [left; reflexivity|].
  constructor.
Defined.

(** ** The flat query *)

Lemma filter_none {A} (f : A -> bool) l :
  (forall x, x ∈ l -> f x = false) -> List.filter f l = [].
Proof.
  induction l as [|x l IH]; intros H; simpl; [reflexivity|].
  rewrite (H x) by left. apply IH. intros y Hy. apply H. right. exact Hy.
Qed.

(** Once the first connection is open the query returns a table, whatever
    the filter and the state of the file: the empty [pd.DataFrame()] when
    the filter is malformed, the file cannot be read or the tables are
    missing, and a table without rows when no row matches. *)
Lemma get_attendance_df_returns f s :
  s ≠ Unopenable ->
  exists df,
    get_attendance_df f s = Ok df /\
    (f = Malformed \/ s = Unreadable \/ s = Fresh -> df = DataFrame_empty) /\
    (forall d cs, s = Healthy d -> f = Where cs ->
       (forall r, r ∈ join d -> matches cs r = false) -> df_empty df = true).
Proof.
  intros Hs. destruct s as [| | |d]; [contradiction| | |].
  - exists DataFrame_empty. split; [destruct f; reflexivity|].
    split; [reflexivity | discriminate].
  - exists DataFrame_empty. split; [destruct f; reflexivity|].
    split; [reflexivity | discriminate].
  - destruct f as [cs|].
    + eexists. split; [reflexivity|]. split.
      * intros [?|[?|?]]; discriminate.
      * intros d' cs' [= <-] [= <-] Hnone. unfold df_empty. simpl.
        rewrite (filter_none _ _ Hnone). reflexivity.
    + exists DataFrame_empty. split; [reflexivity|].
      split; [reflexivity | discriminate].
Qed.

(** C8 (the code at the failing input).  The first [get_conn()] of
    [get_attendance_df] stands before the [try]: when the database file
    cannot be opened the call raises [OperationalError], for every filter,
    instead of returning an empty table.  In every other state of the file
    it returns a table. *)
Theorem get_attendance_df_raises_when_unopenable (f : filter_clause) :
  get_attendance_df f Unopenable = Raise OperationalError /\
  forall s, (exists df, get_attendance_df f s = Ok df) <-> s ≠ Unopenable.
Proof.
  split; [reflexivity|]. intros s. split.
  - intros [df E] ->. discriminate.
  - intros Hs. destruct (get_attendance_df_returns f s Hs) as (df & E & _).
    exists df. exact E.
Qed.

(** ** pandas: [drop_duplicates], [groupby], [merge] *)

Lemma elem_of_drop_duplicates_from seen l x :
  x ∈ drop_duplicates_from seen l <-> x ∈ l /\ x ∉ seen.
Proof.
  revert seen. induction l as [|y l IH]; intros seen; simpl.
  - split; [intros H; inversion H | intros [H _]; inversion H].
  - case_bool_decide as Hy.
    + rewrite IH, elem_of_cons. split; [tauto|].
      intros [[->|?] Hn]; [contradiction | auto].
    + rewrite !elem_of_cons, IH, not_elem_of_cons.
      destruct (decide (x = y)) as [->|Hne]; tauto.
Qed.

Lemma NoDup_drop_duplicates_from seen l : NoDup (drop_duplicates_from seen l).
Proof.
  revert seen. induction l as [|y l IH]; intros seen; simpl; [constructor|].
  case_bool_decide; [apply IH|]. constructor; [|apply IH].
  rewrite elem_of_drop_duplicates_from, not_elem_of_cons. tauto.
Qed.

Lemma elem_of_drop_duplicates l x : x ∈ drop_duplicates l <-> x ∈ l.
Proof.
  unfold drop_duplicates. rewrite elem_of_drop_duplicates_from.
  split; [tauto|]. intros H. split; [exact H | apply not_elem_of_nil].
Qed.

(** On a table with one row per key, selecting a key gives that row or
    nothing. *)
Lemma filter_key_tagged {B} (f : key -> B) (gk : list key) (k : key) :
  NoDup gk ->
  List.filter (fun e : key * B => bool_decide (e.1 = k)) ((fun k => (k, f k)) <$> gk) =
  if bool_decide (k ∈ gk) then [ (k, f k) ] else [].
Proof.
  induction gk as [|k0 gk IH]; intros Hnd; csimpl; [reflexivity|].
  apply NoDup_cons in Hnd as [Hnot Hnd]. rewrite (IH Hnd).
  destruct (decide (k0 = k)) as [->|Hne].
  - rewrite (bool_decide_eq_true_2 (k = k)) by reflexivity.
    rewrite (bool_decide_eq_true_2 (k ∈ k :: gk)) by left.
    rewrite bool_decide_eq_false_2 by exact Hnot. reflexivity.
  - rewrite (bool_decide_eq_false_2 (k0 = k)) by exact Hne.
    destruct (decide (k ∈ gk)) as [Hin|Hin].
    + rewrite !bool_decide_eq_true_2; [reflexivity | right; exact Hin | exact Hin].
    + rewrite !bool_decide_eq_false_2; [reflexivity | | exact Hin].
      intros [?|?]%elem_of_cons; [congruence | contradiction].
Qed.

(** Against a right table with one row per key, the left merge keeps the
    left rows one for one. *)
Lemma merge_left_tagged (f : key -> Z) (keys gk : list key) :
  NoDup gk ->
  merge_left keys ((fun k => (k, f k)) <$> gk) =
  (fun k => (k, if bool_decide (k ∈ gk) then Some (f k) else None)) <$> keys.
Proof.
  intros Hnd. unfold merge_left.
  induction keys as [|k keys IH]; [reflexivity|].
  rewrite bind_cons, IH, fmap_cons, (filter_key_tagged f gk k Hnd).
  case_bool_decide; reflexivity.
Qed.

Lemma filter_has_key_keyed (k : key) (df : list Flat.row) :
  is_Some k.2 ->
  List.filter (has_key k)
    (List.filter (fun r => bool_decide (is_Some (Flat.roll r)))
       (List.filter (fun r => String.eqb (Flat.status r) "Present") df)) =
  List.filter (fun r => has_key k r && String.eqb (Flat.status r) "Present") df.
Proof.
  intros Hk. induction df as [|r df IH]; simpl; [reflexivity|].
  destruct (String.eqb (Flat.status r) "Present"); simpl.
  - destruct (has_key k r) eqn:E; simpl.
    + pose proof E as E'. unfold has_key in E'. apply bool_decide_eq_true in E'.
      rewrite bool_decide_eq_true_2 by (unfold key_of in E'; subst k; exact Hk).
      simpl. rewrite E. f_equal. exact IH.
    + case_bool_decide; simpl; [rewrite E|]; exact IH.
  - rewrite andb_false_r. exact IH.
Qed.

(** The summary the page builds, row by row: one row per distinct key of
    [df_week], in order of first appearance, showing [shown_count]. *)
Lemma weekly_summary_rows df start_date end_date :
  weekly_summary df start_date end_date =
  (fun k => summary_of start_date end_date k (shown_count df k))
    <$> drop_duplicates (key_of <$> df).
Proof.
  unfold weekly_summary, groupby_size.
  set (keyed := List.filter (fun r => bool_decide (is_Some (Flat.roll r)))
                  (List.filter (fun r => String.eqb (Flat.status r) "Present") df)).
  set (gk := merge_sort key_le (drop_duplicates (key_of <$> keyed))).
  assert (NoDup gk) as Hnd.
  { unfold gk. rewrite merge_sort_Permutation. apply NoDup_drop_duplicates_from. }
  assert (forall k, k ∈ gk <-> k ∈ key_of <$> keyed) as Hgk.
  { intros k. unfold gk. rewrite merge_sort_Permutation. apply elem_of_drop_duplicates. }
  rewrite (merge_left_tagged
             (fun k => Z.of_nat (length (List.filter (has_key k) keyed))) _ gk Hnd).
  rewrite <- list_fmap_compose. apply list_fmap_ext. intros _ k _. simpl.
  unfold summary_of.
  assert (default 0 (if bool_decide (k ∈ gk)
                     then Some (Z.of_nat (length (List.filter (has_key k) keyed)))
                     else None) = shown_count df k) as ->; [|reflexivity].
  unfold shown_count. destruct k as [n [x|]]; simpl.
  - unfold present_rows.
    rewrite <- (filter_has_key_keyed (n, Some x) df) by (simpl; eauto).
    fold keyed. case_bool_decide as Hin; simpl; [reflexivity|].
    rewrite filter_none; [reflexivity|].
    intros r Hr. apply bool_decide_eq_false. intros Hkey.
    apply Hin, Hgk, list_elem_of_fmap. exists r. auto.
  - rewrite bool_decide_eq_false_2; [reflexivity|].
    rewrite Hgk, list_elem_of_fmap. intros (r & Hkey & Hr).
    unfold keyed in Hr. apply list_elem_of_In, filter_In in Hr as [_ Hr].
    apply bool_decide_eq_true in Hr. unfold key_of in Hkey.
    injection Hkey as _ Hroll. rewrite <- Hroll in Hr. destruct Hr as [? ?]. discriminate.
Qed.

(** ** The weekly summary *)

(** C6 (the code at the failing input).  The week 2024-03-04..2024-03-10
    has 7 days, and 3 Present days out of 7 are 42.86 percent; in the
    report of [week_db] for Bina alone, who has no roll and three Present
    rows in that week, the summary is one row with the denominator 7, but
    with [PresentCount] 0 and 0 percent. *)
Theorem weekly_percent_without_roll :
  toordinal week_end - toordinal week_start + 1 = 7 /\
  attendance_percent 3 7 = 42.86%float /\
  exists raw,
    weekly_report 1 (Some 2) week_start week_end (Healthy week_db)
    = Ok (Some ([ {| sum_student_name := "Bina"; sum_roll := Int 0;
                     PresentCount := 0; TotalDays := 7;
                     AttendancePercent := 0%float |} ], raw)) /\
    Forall (fun r => Flat.student_name r = "Bina" /\ Flat.roll r = None)
           (data raw) /\
    length (List.filter (fun r => String.eqb (Flat.status r) "Present") (data raw))
    = 3%nat.
Proof.
  split; [reflexivity|]. split; [reflexivity|].
  eexists. split; [vm_compute; reflexivity|].
  split; [|vm_compute; reflexivity].
  repeat (constructor; [split; reflexivity|]). constructor.
Qed.

(** A predicate that singles out the image of one element of a
    duplicate-free list selects exactly that image. *)
Lemma filter_fmap_unique {A B} `{EqDecision A} (g : A -> B) (p : B -> bool)
    (k : A) (l : list A) :
  NoDup l -> k ∈ l -> (forall k', p (g k') = bool_decide (k' = k)) ->
  List.filter p (g <$> l) = [ g k ].
Proof.
  intros Hnd Hk Hp. induction l as [|k0 l IH]; [inversion Hk|].
  apply NoDup_cons in Hnd as [Hnot Hnd].
  rewrite fmap_cons. cbn [List.filter]. rewrite Hp.
  apply elem_of_cons in Hk as [->|Hk].
  - rewrite bool_decide_eq_true_2 by reflexivity. f_equal.
    apply filter_none. intros r (k' & -> & Hk')%list_elem_of_fmap.
    rewrite Hp. apply bool_decide_eq_false. intros ->. contradiction.
  - rewrite bool_decide_eq_false_2 by (intros ->; contradiction).
    apply IH; assumption.
Qed.

(** The row the summary shows for a key of [df_week], and no other row
    shows that name and roll. *)
Lemma weekly_summary_row_of_key df start_date end_date (k : key) :
  k ∈ key_of <$> df ->
  List.filter
    (fun r => bool_decide (sum_student_name r = k.1 /\ sum_roll r = fillna_roll k.2))
    (weekly_summary df start_date end_date) =
  [ summary_of start_date end_date k (shown_count df k) ].
Proof.
  intros Hk. rewrite weekly_summary_rows.
  apply (filter_fmap_unique
           (fun k => summary_of start_date end_date k (shown_count df k))).
  - apply NoDup_drop_duplicates_from.
  - apply elem_of_drop_duplicates, Hk.
  - intros [n' r']. destruct k as [n r]. simpl. apply bool_decide_ext. split.
    + intros [-> Hr]. f_equal. destruct r', r; simpl in Hr; congruence.
    + intros [= -> ->]. auto.
Qed.

(** A student with a roll is listed once, with the number of Present rows. *)
Lemma weekly_summary_with_roll df start_date end_date n x :
  (n, Some x) ∈ key_of <$> df ->
  List.filter (fun r => bool_decide (sum_student_name r = n /\ sum_roll r = Text x))
    (weekly_summary df start_date end_date) =
  [ summary_of start_date end_date (n, Some x) (present_rows df (n, Some x)) ].
Proof. apply (weekly_summary_row_of_key df start_date end_date (n, Some x)). Qed.

(** A student without a roll is listed once, with 0, whatever the rows say. *)
Lemma weekly_summary_without_roll df start_date end_date n :
  (n, None) ∈ key_of <$> df ->
  List.filter (fun r => bool_decide (sum_student_name r = n /\ sum_roll r = Int 0))
    (weekly_summary df start_date end_date) =
  [ summary_of start_date end_date (n, None) 0 ].
Proof. apply (weekly_summary_row_of_key df start_date end_date (n, None)). Qed.

(** Only students with a row in [df_week] are listed. *)
Lemma weekly_summary_only_marked df start_date end_date r :
  r ∈ weekly_summary df start_date end_date ->
  exists row, row ∈ df /\ sum_student_name r = Flat.student_name row /\
    sum_roll r = fillna_roll (Flat.roll row).
Proof.
  rewrite weekly_summary_rows.
  intros (k & -> & Hk)%list_elem_of_fmap.
  apply elem_of_drop_duplicates, list_elem_of_fmap in Hk as (row & -> & Hrow).
  exists row. auto.
Qed.

(** C7 (the code at the failing input).  In the week of [week_db] Bina, who
    has no roll, has three Present rows in the raw sheet, and the summary
    lists her once with [PresentCount] 0, roll 0 and 0 percent. *)
Theorem weekly_summary_drops_presents_without_roll :
  exists summary raw,
    weekly_report 1 None week_start week_end (Healthy week_db)
      = Ok (Some (summary, raw)) /\
    present_rows (data raw) ("Bina", None) = 3 /\
    List.filter (fun r => String.eqb (sum_student_name r) "Bina") summary =
      [ {| sum_student_name := "Bina"; sum_roll := Int 0; PresentCount := 0;
           TotalDays := 7; AttendancePercent := 0%float |} ].
Proof.
  do 2 eexists. split; [vm_compute; reflexivity|].
  split; vm_compute; reflexivity.
Qed.

(** ** The sample store is one the program builds *)

Example build_family_result : build_family = Ok (Healthy family).
Proof. vm_compute. reflexivity. Qed.

(** ** The unique index is an invariant of the program *)

Lemma init_db_idempotent s s' : init_db s = Ok s' -> init_db s' = Ok s'.
Proof. destruct s; simpl; intros [= <-]; reflexivity. Qed.

Lemma unique_marks_fresh : unique_marks init_db_fresh.
Proof. constructor. Qed.

Lemma run_add_attendances c d b d' :
  run_add c (Healthy d) = Ok (b, Healthy d') -> attendances d' = attendances d.
Proof.
  destruct c as [name|cid name|did name|cid name roll]; simpl;
    unfold add_college, add_department, add_course, add_student, try_insert,
      insert_college, insert_department, insert_course, insert_student; simpl;
    repeat match goal with
           | |- context [if ?b then _ else _] => destruct b; simpl
           end;
    intros [= _ <-]; reflexivity.
Qed.

Lemma run_add_unique_marks c d b d' :
  unique_marks d -> run_add c (Healthy d) = Ok (b, Healthy d') -> unique_marks d'.
Proof.
  intros Hd Hrun. unfold unique_marks.
  rewrite (run_add_attendances c d b d' Hrun). exact Hd.
Qed.

Lemma mark_attendance_unique_marks now m date d b d' :
  unique_marks d ->
  mark_attendance_for_date now m date (Healthy d) = Ok (b, Healthy d') ->
  unique_marks d'.
Proof.
  intros Hd. rewrite mark_attendance_healthy. intros [= _ <-].
  apply foldl_upsert_unique, Hd.
Qed.

(** * Further properties of the data layer *)

(** ** The listing functions *)

#[local] Instance name_le_total {A} (name : A -> string) : Total (name_le name).
Proof.
  intros x y. unfold name_le. rewrite (String.compare_antisym (name x) (name y)).
  destruct (String.compare (name y) (name x)); simpl; auto.
Qed.

(** Each listing function returns, on a store with the tables, exactly the
    rows of the given parent, each once, as [{id, name[, roll]}], ordered by
    name; a parent without children gives the empty list. *)
Theorem listings_are_the_children_sorted (d : db) (parent : Z) :
  (exists l, list_colleges (Healthy d) = Ok l /\
     l ≡ₚ college_entry <$> rows (colleges d) /\
     Sorted (name_le entry_name) l) /\
  (exists l, list_departments parent (Healthy d) = Ok l /\
     l ≡ₚ department_entry <$>
            filter (fun r => department_college_id r = parent) (rows (departments d)) /\
     Sorted (name_le entry_name) l /\
     (parent ∉ department_college_id <$> rows (departments d) -> l = [])) /\
  (exists l, list_courses parent (Healthy d) = Ok l /\
     l ≡ₚ course_entry <$>
            filter (fun r => course_department_id r = parent) (rows (courses d)) /\
     Sorted (name_le entry_name) l /\
     (parent ∉ course_department_id <$> rows (courses d) -> l = [])) /\
  (exists l, list_students parent (Healthy d) = Ok l /\
     l ≡ₚ student_entry_of <$>
            filter (fun r => student_course_id r = parent) (rows (students d)) /\
     Sorted (name_le se_name) l /\
     (parent ∉ student_course_id <$> rows (students d) -> l = [])).
Proof.
  assert (forall {A} (f : A -> Z) (l : list A),
            parent ∉ f <$> l -> filter (fun r => f r = parent) l = []) as Hnone.
  { intros A f l Hnot. induction l as [|x l IH]; [reflexivity|].
    rewrite fmap_cons in Hnot. apply not_elem_of_cons in Hnot as [Hne Hnot].
    rewrite filter_cons_False by congruence. apply IH, Hnot. }
  repeat split; eexists; (split; [reflexivity|]); repeat split;
    try apply merge_sort_Permutation; try apply (Sorted_merge_sort _);
    intros Hnot; rewrite (Hnone _ _ _ Hnot); reflexivity.
Qed.


(** ** Rowids and the unique indexes *)

Lemma max_id_ge x ids : x ∈ ids -> x <= max_id ids.
Proof.
  induction ids as [|y ids IH]; [intros H; inversion H|].
  intros [->|H]%elem_of_cons; simpl; [lia|]. specialize (IH H). lia.
Qed.

(** The rowid AUTOINCREMENT hands out is not in the table. *)
Lemma new_rowid_fresh {A} (id_of : A -> Z) (t : table A) :
  new_rowid id_of t ∉ id_of <$> rows t.
Proof.
  intros Hin. apply max_id_ge in Hin. unfold new_rowid in Hin.
  change (map id_of (rows t)) with (id_of <$> rows t) in Hin. lia.
Qed.

Lemma NoDup_snoc {A} (l : list A) (x : A) : NoDup l -> x ∉ l -> NoDup (l ++ [x]).
Proof.
  intros Hnd Hx. apply NoDup_app. split; [exact Hnd|]. split.
  - intros y Hy [->|[]%elem_of_nil]%elem_of_cons. contradiction.
  - apply NoDup_singleton.
Qed.

Lemma existsb_roll_conflict_false cid x l :
  existsb (roll_conflict cid (Some x)) l = false ->
  (cid, x) ∉ omap roll_key l.
Proof.
  intros E Hin. apply list_elem_of_omap in Hin as (r & Hr & Hk).
  assert (existsb (roll_conflict cid (Some x)) l = true) as E'; [|congruence].
  apply existsb_roll_conflict. exists r. split; [exact Hr|].
  unfold roll_key in Hk. destruct (student_roll r) as [y|]; simpl in Hk; [|discriminate].
  injection Hk as <- <-. auto.
Qed.

(** A call that returns [True] stored exactly one row, under a fresh
    rowid, and its key was not in the unique index. *)
Lemma run_add_true c d d' :
  run_add c (Healthy d) = Ok (true, Healthy d') ->
  d' = after_add c d /\ fresh_key c d.
Proof.
  destruct c as [name|cid name|did name|cid name roll]; simpl;
    unfold add_college, add_department, add_course, add_student, try_insert,
      insert_college, insert_department, insert_course, insert_student; simpl.
  - case_bool_decide as H; simpl; [discriminate|].
    intros [= <-]. split; [reflexivity | exact H].
  - case_bool_decide as H; simpl; [discriminate|].
    intros [= <-]. split; [reflexivity | exact H].
  - case_bool_decide as H; simpl; [discriminate|].
    intros [= <-]. split; [reflexivity | exact H].
  - destruct (existsb _ _) eqn:E; simpl; [discriminate|].
    intros [= <-]. split; [reflexivity|].
    intros x Hx. rewrite Hx in E. apply existsb_roll_conflict_false, E.
Qed.

(** A call that returns [False] left the store as it was. *)
Lemma run_add_false c d d' :
  run_add c (Healthy d) = Ok (false, Healthy d') -> d' = d.
Proof.
  destruct c as [name|cid name|did name|cid name roll]; simpl;
    unfold add_college, add_department, add_course, add_student, try_insert,
      insert_college, insert_department, insert_course, insert_student; simpl;
    repeat match goal with
           | |- context [if ?b then _ else _] => destruct b; simpl
           end;
    intros [= <-]; reflexivity.
Qed.

Lemma after_add_schema_ok c d :
  schema_ok d -> fresh_key c d -> schema_ok (after_add c d).
Proof.
  intros ((Hc & Hd & Hk & Hs & Ha) & (Nc & Nd & Nk & Ns) & Hm) Hfresh.
  destruct c as [name|cid name|did name|cid name roll]; simpl in *;
    (split; [|split; [|exact Hm]]); unfold unique_ids, unique_names; simpl;
    rewrite ?fmap_app; simpl; repeat split; try assumption;
    try (apply NoDup_snoc; [assumption|]);
    try apply new_rowid_fresh; try exact Hfresh.
  rewrite omap_app. simpl. unfold roll_key at 2. simpl.
  destruct (roll_param roll) as [x|]; simpl.
  - apply NoDup_snoc; [assumption | apply Hfresh; reflexivity].
  - rewrite app_nil_r. assumption.
Qed.

Lemma upsert_rows_ids sid date status ts i l :
  attendance_id <$> upsert_rows sid date status ts i l =
  if existsb (same_mark sid date) l
  then attendance_id <$> l else (attendance_id <$> l) ++ [ i ].
Proof.
  induction l as [|r l IH]; csimpl; [reflexivity|].
  destruct (same_mark sid date r); csimpl; [reflexivity|].
  rewrite IH. destruct (existsb _ l); reflexivity.
Qed.

Lemma upsert_db_unique_ids date ts d e :
  unique_ids d -> unique_ids (upsert_db date ts d e).
Proof.
  intros (Hc & Hd & Hk & Hs & Ha). repeat split; try assumption. simpl.
  rewrite upsert_rows_ids. destruct (existsb _ _); [assumption|].
  apply NoDup_snoc; [assumption | apply new_rowid_fresh].
Qed.

Lemma foldl_upsert_schema_ok date ts m d :
  schema_ok d -> schema_ok (foldl (upsert_db date ts) d m).
Proof.
  revert d. induction m as [|e m IH]; intros d H; simpl; [exact H|].
  apply IH. destruct H as (Hi & Hn & Hm). split; [|split].
  - apply upsert_db_unique_ids, Hi.
  - exact Hn.
  - apply upsert_db_unique, Hm.
Qed.

(** Where the primary keys and every [UNIQUE] constraint of the schema
    hold, every [add_*] call and every [mark_attendance_for_date] call keeps
    them, whatever it returns. *)
Theorem schema_ok_preserved (d : db) :
  schema_ok d ->
  (forall c b d', run_add c (Healthy d) = Ok (b, Healthy d') -> schema_ok d') /\
  (forall now m date b d',
      mark_attendance_for_date now m date (Healthy d) = Ok (b, Healthy d') ->
      schema_ok d').
Proof.
  intros Hd. split.
  - intros c [|] d' Hrun.
    + apply run_add_true in Hrun as [-> Hfresh]. apply after_add_schema_ok; assumption.
    + apply run_add_false in Hrun as ->. exact Hd.
  - intros now m date b d'. rewrite mark_attendance_healthy. intros [= _ <-].
    apply foldl_upsert_schema_ok, Hd.
Qed.

Lemma schema_ok_fresh : schema_ok init_db_fresh.
Proof. repeat split; constructor. Qed.

Lemma schema_ok_preserved_witness :
  (forall c b d', run_add c (Healthy init_db_fresh) = Ok (b, Healthy d') ->
     schema_ok d') /\
  (forall now m date b d',
      mark_attendance_for_date now m date (Healthy init_db_fresh)
        = Ok (b, Healthy d') ->
      schema_ok d').
Proof.
  apply (schema_ok_preserved init_db_fresh).
  repeat split; constructor.
Defined.


(** ** Adding, then listing *)

Lemma run_add_total c d :
  exists b d', run_add c (Healthy d) = Ok (b, Healthy d').
Proof.
  destruct c as [name|cid name|did name|cid name roll]; simpl;
    unfold add_college, add_department, add_course, add_student, try_insert,
      insert_college, insert_department, insert_course, insert_student; simpl;
    repeat match goal with
           | |- context [if ?b then _ else _] => destruct b; simpl
           end;
    do 2 eexists; reflexivity.
Qed.

Lemma merge_sort_snoc {A} (R : relation A) `{!forall x y, Decision (R x y)}
    (l : list A) (x : A) :
  merge_sort R (l ++ [x]) ≡ₚ merge_sort R l ++ [x].
Proof. rewrite !merge_sort_Permutation. reflexivity. Qed.

(** Each [add_*] call on a store with the tables returns a boolean.  When
    it is [True] the listing of the parent afterwards is the listing before
    plus one entry, holding the stripped name (and the roll as stored) under
    a rowid no row of the table had; the listing of any other parent is
    unchanged.  When it is [False] the store is the same. *)
Theorem add_then_list (d : db) :
  (forall name, exists b d' l l',
     add_college name (Healthy d) = Ok (b, Healthy d') /\
     list_colleges (Healthy d) = Ok l /\ list_colleges (Healthy d') = Ok l' /\
     if b then
       exists i, (i ∉ college_id <$> rows (colleges d)) /\
         l' ≡ₚ l ++ [ {| entry_id := i; entry_name := Py.strip name |} ]
     else d' = d) /\
  (forall cid name, exists b d' l l',
     add_department cid name (Healthy d) = Ok (b, Healthy d') /\
     list_departments cid (Healthy d) = Ok l /\
     list_departments cid (Healthy d') = Ok l' /\
     if b then
       (exists i, (i ∉ department_id <$> rows (departments d)) /\
          l' ≡ₚ l ++ [ {| entry_id := i; entry_name := Py.strip name |} ]) /\
       (forall other, other ≠ cid ->
          list_departments other (Healthy d') = list_departments other (Healthy d))
     else d' = d) /\
  (forall did name, exists b d' l l',
     add_course did name (Healthy d) = Ok (b, Healthy d') /\
     list_courses did (Healthy d) = Ok l /\
     list_courses did (Healthy d') = Ok l' /\
     if b then
       (exists i, (i ∉ course_id <$> rows (courses d)) /\
          l' ≡ₚ l ++ [ {| entry_id := i; entry_name := Py.strip name |} ]) /\
       (forall other, other ≠ did ->
          list_courses other (Healthy d') = list_courses other (Healthy d))
     else d' = d) /\
  (forall cid name roll, exists b d' l l',
     add_student cid name roll (Healthy d) = Ok (b, Healthy d') /\
     list_students cid (Healthy d) = Ok l /\
     list_students cid (Healthy d') = Ok l' /\
     if b then
       (exists i, (i ∉ student_id <$> rows (students d)) /\
          l' ≡ₚ l ++ [ {| se_id := i; se_name := Py.strip name;
                          se_roll := roll_param roll |} ]) /\
       (forall other, other ≠ cid ->
          list_students other (Healthy d') = list_students other (Healthy d))
     else d' = d).
Proof.
  repeat split.
  - intros name. destruct (run_add_total (AddCollege name) d) as (b & d' & E).
    exists b, d'. do 2 eexists. split; [exact E|]. do 2 (split; [reflexivity|]).
    destruct b.
    + apply run_add_true in E as [-> _].
      exists (new_rowid college_id (colleges d)). split; [apply new_rowid_fresh|].
      simpl. rewrite fmap_app. apply merge_sort_snoc.
    + apply run_add_false in E. exact E.
  - intros cid name. destruct (run_add_total (AddDepartment cid name) d) as (b & d' & E).
    exists b, d'. do 2 eexists. split; [exact E|]. do 2 (split; [reflexivity|]).
    destruct b.
    + apply run_add_true in E as [-> _]. split.
      * exists (new_rowid department_id (departments d)).
        split; [apply new_rowid_fresh|].
        simpl. rewrite filter_app, filter_cons_True, filter_nil by reflexivity.
        rewrite fmap_app. apply merge_sort_snoc.
      * intros other Hne. unfold list_departments. simpl.
        rewrite filter_app, filter_cons_False, filter_nil, app_nil_r by (simpl; congruence).
        reflexivity.
    + apply run_add_false in E. exact E.
  - intros did name. destruct (run_add_total (AddCourse did name) d) as (b & d' & E).
    exists b, d'. do 2 eexists. split; [exact E|]. do 2 (split; [reflexivity|]).
    destruct b.
    + apply run_add_true in E as [-> _]. split.
      * exists (new_rowid course_id (courses d)).
        split; [apply new_rowid_fresh|].
        simpl. rewrite filter_app, filter_cons_True, filter_nil by reflexivity.
        rewrite fmap_app. apply merge_sort_snoc.
      * intros other Hne. unfold list_courses. simpl.
        rewrite filter_app, filter_cons_False, filter_nil, app_nil_r by (simpl; congruence).
        reflexivity.
    + apply run_add_false in E. exact E.
  - intros cid name roll.
    destruct (run_add_total (AddStudent cid name roll) d) as (b & d' & E).
    exists b, d'. do 2 eexists. split; [exact E|]. do 2 (split; [reflexivity|]).
    destruct b.
    + apply run_add_true in E as [-> _]. split.
      * exists (new_rowid student_id (students d)).
        split; [apply new_rowid_fresh|].
        simpl. rewrite filter_app, filter_cons_True, filter_nil by reflexivity.
        rewrite fmap_app. apply merge_sort_snoc.
      * intros other Hne. unfold list_students. simpl.
        rewrite filter_app, filter_cons_False, filter_nil, app_nil_r by (simpl; congruence).
        reflexivity.
    + apply run_add_false in E. exact E.
Qed.


(** ** [str.strip] *)

Lemma lstrip_blank s : Py.lstrip s = "" <-> blank s = true.
Proof.
  induction s as [|c r IH]; simpl; [tauto|].
  destruct (Py.isspace c); simpl; [exact IH|]. split; discriminate.
Qed.

Lemma lstrip_head s c r : Py.lstrip s = String c r -> Py.isspace c = false.
Proof.
  induction s as [|c0 r0 IH]; simpl; [discriminate|].
  destruct (Py.isspace c0) eqn:E; [exact IH|]. intros [= <- _]. exact E.
Qed.

Lemma rstrip_head c r :
  Py.isspace c = false -> exists r', Py.rstrip (String c r) = String c r'.
Proof.
  intros E. simpl. destruct (Py.rstrip r); [rewrite E|]; eexists; reflexivity.
Qed.

Lemma rstrip_idempotent s : Py.rstrip (Py.rstrip s) = Py.rstrip s.
Proof.
  induction s as [|c r IH]; [reflexivity|]. simpl.
  destruct (Py.rstrip r) as [|c' t] eqn:E.
  - destruct (Py.isspace c) eqn:Ec; [reflexivity|]. simpl. rewrite Ec. reflexivity.
  - change (Py.rstrip (String c (String c' t)))
      with (match Py.rstrip (String c' t) with
            | EmptyString => if Py.isspace c then EmptyString else String c EmptyString
            | r0 => String c r0
            end).
    rewrite IH. reflexivity.
Qed.

(** [strip] returns the empty string exactly on blank strings. *)
Lemma strip_empty_iff s : Py.strip s = "" <-> blank s = true.
Proof.
  rewrite <- lstrip_blank. unfold Py.strip. split.
  - destruct (Py.lstrip s) as [|c r] eqn:E; [reflexivity|].
    destruct (rstrip_head c r (lstrip_head s c r E)) as [r' ->]. discriminate.
  - intros ->. reflexivity.
Qed.

(** A stripped string is its own [strip]: a stored name is stored the
    way a later lookup of the same name strips it. *)
Lemma strip_idempotent s : Py.strip (Py.strip s) = Py.strip s.
Proof.
  unfold Py.strip. destruct (Py.lstrip s) as [|c r] eqn:E; [reflexivity|].
  pose proof (lstrip_head s c r E) as Hc.
  destruct (rstrip_head c r Hc) as [r' Hr]. rewrite Hr.
  simpl Py.lstrip. rewrite Hc, <- Hr. apply rstrip_idempotent.
Qed.

(** ** The Setup page *)

(** On a store with its tables, the state in which the page runs once
    [ensure_db_file()] has returned, each of the four "Add" buttons shows
    its warning exactly when the name is empty or made only of whitespace,
    and then the store is as it was: no row is added. *)
Theorem setup_rejects_blank_names (name : string) (d : db) :
  (blank name = true <->
   exists s', setup_add_college name (Healthy d)
              = Ok (st_warning "Enter a valid college name.", s')) /\
  (forall cn cid, blank name = true <->
     exists s', setup_add_department cn cid name (Healthy d)
                = Ok (st_warning "Enter department name.", s')) /\
  (forall dn did, blank name = true <->
     exists s', setup_add_course dn did name (Healthy d)
                = Ok (st_warning "Enter course name.", s')) /\
  (forall cn cid roll, blank name = true <->
     exists s', setup_add_student cn cid name roll (Healthy d)
                = Ok (st_warning "Enter student name.", s')) /\
  (forall msg s',
     setup_add_college name (Healthy d) = Ok (st_warning msg, s') \/
     (exists cn cid, setup_add_department cn cid name (Healthy d)
                     = Ok (st_warning msg, s')) \/
     (exists dn did, setup_add_course dn did name (Healthy d)
                     = Ok (st_warning msg, s')) \/
     (exists cn cid roll, setup_add_student cn cid name roll (Healthy d)
                          = Ok (st_warning msg, s')) ->
     s' = Healthy d).
Proof.
  assert (forall c (yes no : string) (w : string) s',
            Py.strip name ≠ "" ->
            (let* r := run_add c (Healthy d) in
             Ok (if r.1 then st_success yes else st_error no, r.2))
            ≠ Ok (st_warning w, s')) as Hadd.
  { intros c yes no w s' _. destruct (run_add_total c d) as ([|] & d' & ->);
      simpl; discriminate. }
  assert (forall (c : add_call) (yes no w : string),
            blank name = true <->
            exists s',
              (if String.eqb (Py.strip name) "" then Ok (st_warning w, Healthy d)
               else let* r := run_add c (Healthy d) in
                    Ok (if r.1 then st_success yes else st_error no, r.2))
              = Ok (st_warning w, s')) as Hiff.
  { intros c yes no w. rewrite <- strip_empty_iff.
    destruct (String.eqb_spec (Py.strip name) "") as [E|E].
    - split; [intros _; eexists; reflexivity | intros _; exact E].
    - split; [contradiction|]. intros [s' H]. destruct (Hadd c yes no w s' E H). }
  split; [apply (Hiff (AddCollege name))|].
  split; [intros cn cid; apply (Hiff (AddDepartment cid name))|].
  split; [intros dn did; apply (Hiff (AddCourse did name))|].
  split; [intros cn cid roll; apply (Hiff (AddStudent cid name (Some roll)))|].
  assert (forall (c : add_call) (yes no w0 w : string) s',
            (if String.eqb (Py.strip name) "" then Ok (st_warning w0, Healthy d)
             else let* r := run_add c (Healthy d) in
                  Ok (if r.1 then st_success yes else st_error no, r.2))
            = Ok (st_warning w, s') -> s' = Healthy d) as Hsame.
  { intros c yes no w0 w s'.
    destruct (String.eqb_spec (Py.strip name) "") as [E|E].
    - intros [= _ <-]. reflexivity.
    - intros H. destruct (Hadd c yes no w s' E H). }
  intros msg s' [H|[(cn & cid & H)|[(dn & did & H)|(cn & cid & roll & H)]]].
  - apply (Hsame (AddCollege name) _ _ _ _ _ H).
  - apply (Hsame (AddDepartment cid name) _ _ _ _ _ H).
  - apply (Hsame (AddCourse did name) _ _ _ _ _ H).
  - apply (Hsame (AddStudent cid name (Some roll)) _ _ _ _ _ H).
Qed.

(** ** Adding the same key twice *)

Lemma fresh_key_not_duplicates c d : fresh_key c d -> ~ duplicates c d.
Proof.
  destruct c as [name|cid name|did name|cid name roll]; simpl.
  - intros Hf (r & Hr & E). apply Hf. rewrite <- E.
    apply list_elem_of_fmap. eauto.
  - intros Hf (r & Hr & E1 & E2). apply Hf. rewrite <- E1, <- E2.
    apply list_elem_of_fmap. eauto.
  - intros Hf (r & Hr & E1 & E2). apply Hf. rewrite <- E1, <- E2.
    apply list_elem_of_fmap. eauto.
  - intros Hf (r & x & Hr & E1 & E2 & E3). apply (Hf x E2).
    apply list_elem_of_omap. exists r. split; [exact Hr|].
    unfold roll_key. rewrite E3, E1. reflexivity.
Qed.

Lemma run_add_duplicate c d :
  duplicates c d -> run_add c (Healthy d) = Ok (false, Healthy d).
Proof.
  intros Hdup. destruct (run_add_total c d) as ([|] & d' & E).
  - apply run_add_true in E as [_ Hf].
    destruct (fresh_key_not_duplicates c d Hf Hdup).
  - rewrite E. apply run_add_false in E as ->. reflexivity.
Qed.

Lemma run_add_again c c' d d' :
  same_key c c' ->
  run_add c (Healthy d) = Ok (true, Healthy d') ->
  run_add c' (Healthy d') = Ok (false, Healthy d').
Proof.
  intros Hk Hrun. apply run_add_true in Hrun as [-> _].
  apply run_add_duplicate.
  destruct c as [n|p n|p n|p n r], c' as [n'|p' n'|p' n'|p' n' r'];
    simpl in Hk; try contradiction; simpl.
  - eexists. split; [apply elem_of_app; right; left | exact Hk].
  - destruct Hk as [<- Hk].
    eexists. split; [apply elem_of_app; right; left | auto].
  - destruct Hk as [<- Hk].
    eexists. split; [apply elem_of_app; right; left | auto].
  - destruct Hk as (<- & Hr & Hne).
    destruct (roll_param r) as [x|] eqn:E; [|contradiction].
    eexists. exists x. split; [apply elem_of_app; right; left|].
    simpl. auto.
Qed.

(** Once an [add_*] call has returned [True], a second call for the same
    key (the same name up to surrounding whitespace under the same parent;
    for students the same roll in the same course) returns [False] and
    leaves the store alone. *)
Theorem add_same_key_twice (c c' : add_call) (d d' : db) :
  same_key c c' ->
  run_add c (Healthy d) = Ok (true, Healthy d') ->
  run_add c' (Healthy d') = Ok (false, Healthy d').
Proof. apply run_add_again. Qed.

Lemma add_same_key_twice_witness :
  run_add (AddCollege "North  ") (Healthy (after_add (AddCollege " North") init_db_fresh))
  = Ok (false, Healthy (after_add (AddCollege " North") init_db_fresh)).
Proof.
  apply (add_same_key_twice (AddCollege " North") (AddCollege "North  ")
           init_db_fresh).
  - reflexivity.
  - reflexivity.
Defined.

(** A roll typed as whitespace only is not empty, so it is not stored as
    [NULL] but as the empty string: the first such student of a course is
    accepted, and every later student of the course whose roll is again
    only whitespace is rejected as a duplicate. *)
Theorem whitespace_rolls_collide (cid : Z) (n1 n2 r1 r2 : string) (d : db) :
  blank r1 = true -> r1 ≠ "" -> blank r2 = true -> r2 ≠ "" ->
  (forall r, r ∈ rows (students d) -> student_course_id r = cid ->
     student_roll r ≠ Some "") ->
  exists d',
    add_student cid n1 (Some r1) (Healthy d) = Ok (true, Healthy d') /\
    (exists r, r ∈ rows (students d') /\ student_name r = Py.strip n1 /\
       student_roll r = Some "") /\
    add_student cid n2 (Some r2) (Healthy d') = Ok (false, Healthy d').
Proof.
  intros B1 N1 B2 N2 Hfree.
  assert (forall r, blank r = true -> r ≠ "" -> roll_param (Some r) = Some "") as Hroll.
  { intros r B N. unfold roll_param. destruct r as [|c t]; [contradiction|].
    simpl. f_equal. apply strip_empty_iff, B. }
  destruct (add_fresh_returns_true (AddStudent cid n1 (Some r1)) d) as [d' E].
  { intros (r & x & Hr & Hc & Hx & Hrr). rewrite (Hroll r1 B1 N1) in Hx.
    injection Hx as <-. apply (Hfree r Hr Hc Hrr). }
  exists d'. split; [exact E|].
  pose proof E as E'. apply (run_add_true (AddStudent cid n1 (Some r1))) in E' as [-> _].
  split.
  - eexists. split; [apply elem_of_app; right; left|].
    simpl. rewrite (Hroll r1 B1 N1). auto.
  - apply (run_add_again (AddStudent cid n1 (Some r1))
             (AddStudent cid n2 (Some r2)) d). 
    + simpl. rewrite (Hroll r1 B1 N1), (Hroll r2 B2 N2). auto.
    + exact E.
Qed.


Lemma whitespace_rolls_collide_witness :
  exists d',
    add_student 1 "Asha" (Some " ") (Healthy init_db_fresh) = Ok (true, Healthy d') /\
    (exists r, r ∈ rows (students d') /\ student_name r = Py.strip "Asha" /\
       student_roll r = Some "") /\
    add_student 1 "Bina" (Some "  ") (Healthy d') = Ok (false, Healthy d').
Proof.
  apply (whitespace_rolls_collide 1 "Asha" "Bina" " " "  " init_db_fresh).
  - reflexivity.
  - discriminate.
  - reflexivity.
  - discriminate.
  - intros r Hr. inversion Hr.
Defined.

(** ** [str] and [int] *)

Lemma digit_value_digit k :
  (k < 10)%nat -> PyInt.digit_value (Py.digit k) = Some (Z.of_nat k).
Proof.
  intros Hk. do 10 (destruct k as [|k]; [reflexivity|]). lia.
Qed.

Lemma all_chars_digits p fuel n s :
  (forall k, (k < 10)%nat -> p (Py.digit k) = true) ->
  all_chars p s = true -> all_chars p (Py.digits fuel n s) = true.
Proof.
  intros Hp. revert n s.
  induction fuel as [|f IH]; intros n s Hs; cbn [Py.digits]; [exact Hs|].
  assert (all_chars p (String (Py.digit (n mod 10)) s) = true) as Hs'.
  { cbn [all_chars]. rewrite Hp, Hs; [reflexivity|]. apply Nat.mod_upper_bound. lia. }
  destruct (n / 10 =? 0)%nat; [exact Hs' | apply IH, Hs'].
Qed.

Lemma parse_digits_digits fuel n s :
  (n < fuel)%nat ->
  exists k : nat, forall a b,
    PyInt.parse_digits a b (Py.digits fuel n s) =
    PyInt.parse_digits (a * 10 ^ Z.of_nat k + Z.of_nat n) true s.
Proof.
  revert n s. induction fuel as [|f IH]; intros n s Hn; [lia|]. cbn [Py.digits].
  pose proof (Nat.div_mod_eq n 10) as Hdm.
  assert (n mod 10 < 10)%nat as Hm by (apply Nat.mod_upper_bound; lia).
  assert (Z.of_nat n = 10 * Z.of_nat (n / 10) + Z.of_nat (n mod 10)) as Hz by lia.
  destruct (n / 10 =? 0)%nat eqn:E.
  - apply Nat.eqb_eq in E. exists 1%nat. intros a b. cbn [PyInt.parse_digits].
    rewrite digit_value_digit by exact Hm. f_equal. rewrite Hz, E. simpl. lia.
  - apply Nat.eqb_neq in E.
    destruct (IH (n / 10)%nat (String (Py.digit (n mod 10)) s)) as [k Hk]; [lia|].
    exists (S k). intros a b. rewrite Hk. cbn [PyInt.parse_digits].
    rewrite digit_value_digit by exact Hm. f_equal.
    rewrite Hz, Nat2Z.inj_succ, Z.pow_succ_r by lia. ring.
Qed.

Lemma strip_no_space s : all_chars (fun c => negb (Py.isspace c)) s = true -> Py.strip s = s.
Proof.
  intros H. unfold Py.strip.
  assert (Py.lstrip s = s) as ->.
  { destruct s as [|c r]; [reflexivity|]. simpl in *.
    destruct (Py.isspace c); [discriminate | reflexivity]. }
  induction s as [|c r IH]; [reflexivity|]. simpl in *.
  apply andb_true_iff in H as [Hc Hr]. rewrite (IH Hr).
  destruct r; [|reflexivity]. destruct (Py.isspace c); [discriminate | reflexivity].
Qed.

Lemma split_first_append sep s rest :
  all_chars (fun c => negb (Ascii.eqb c sep)) s = true ->
  split_first sep (s +:+ String sep rest) = s.
Proof.
  induction s as [|c r IH]; simpl.
  - rewrite Ascii.eqb_refl. reflexivity.
  - intros [Hc Hr]%andb_true_iff. destruct (Ascii.eqb c sep); [discriminate|].
    rewrite (IH Hr). reflexivity.
Qed.

Lemma all_chars_impl (p q : ascii -> bool) s :
  (forall c, p c = true -> q c = true) -> all_chars p s = true -> all_chars q s = true.
Proof.
  intros Hpq. induction s as [|c r IH]; simpl; [reflexivity|].
  intros [Hc Hr]%andb_true_iff. rewrite (Hpq c Hc), (IH Hr). reflexivity.
Qed.

Lemma is_digit_digit k : (k < 10)%nat -> is_digit (Py.digit k) = true.
Proof. intros Hk. unfold is_digit. rewrite digit_value_digit by exact Hk. reflexivity. Qed.

Lemma sign_or_digit_plain c :
  sign_or_digit c = true ->
  Py.isspace c = false /\ Ascii.eqb c "|" = false.
Proof.
  unfold sign_or_digit, is_digit, PyInt.digit_value, Py.isspace.
  destruct c as [[] [] [] [] [] [] [] []]; vm_compute; intros H; auto; discriminate.
Qed.

Lemma str_chars z : all_chars sign_or_digit (PyInt.str z) = true.
Proof.
  assert (forall k, (k < 10)%nat -> sign_or_digit (Py.digit k) = true) as Hd.
  { intros k Hk. unfold sign_or_digit. rewrite is_digit_digit by exact Hk. reflexivity. }
  unfold PyInt.str. destruct (z <? 0).
  - cbn [all_chars]. change (sign_or_digit "-") with true. cbn [andb].
    apply all_chars_digits; [exact Hd | reflexivity].
  - apply all_chars_digits; [exact Hd | reflexivity].
Qed.

(** [int(str(z))] is [z]. *)
Lemma int_str z : PyInt.int (PyInt.str z) = Some z.
Proof.
  unfold PyInt.int. rewrite strip_no_space.
  2:{ apply (all_chars_impl sign_or_digit); [|apply str_chars].
      intros c Hc. apply sign_or_digit_plain in Hc as [-> _]. reflexivity. }
  unfold PyInt.str. destruct (z <? 0) eqn:Hz.
  - apply Z.ltb_lt in Hz. rewrite Ascii.eqb_refl.
    destruct (parse_digits_digits (S (Z.to_nat (- z))) (Z.to_nat (- z)) "") as [k Hk]; [lia|].
    rewrite Hk. simpl. f_equal. lia.
  - apply Z.ltb_ge in Hz.
    destruct (parse_digits_digits (S (Z.to_nat z)) (Z.to_nat z) "") as [k Hk]; [lia|].
    destruct (Py.digits (S (Z.to_nat z)) (Z.to_nat z) "") as [|c r] eqn:E.
    + specialize (Hk 0 false). simpl in Hk. discriminate.
    + assert (is_digit c = true) as Hc.
      { pose proof (all_chars_digits is_digit (S (Z.to_nat z)) (Z.to_nat z) ""
                      is_digit_digit eq_refl) as H.
        rewrite E in H. simpl in H. apply andb_true_iff in H as [H _]. exact H. }
      assert (Ascii.eqb c "-" = false /\ Ascii.eqb c "+" = false) as [-> ->].
      { revert Hc. unfold is_digit, PyInt.digit_value.
        destruct c as [[] [] [] [] [] [] [] []]; vm_compute; intros H; auto; discriminate. }
      rewrite Hk. simpl. f_equal. lia.
Qed.

(** The id a label starts with is read back by [int(opt.split("|")[0])],
    whatever the name and the roll contain. *)
Lemma option_label_id r :
  PyInt.int (split_first "|" (option_label r)) = Some (se_id r).
Proof.
  assert (option_label r =
          PyInt.str (se_id r) +:+
          String "|" (se_name r +:+ " (" +:+
            (if Py.truthy (se_roll r) then default "" (se_roll r) else "") +:+ ")"))
    as -> by reflexivity.
  rewrite split_first_append; [apply int_str|].
  apply (all_chars_impl sign_or_digit); [|apply str_chars].
  intros c Hc. apply sign_or_digit_plain in Hc as [_ ->]. reflexivity.
Qed.


(** ** The Mark Attendance page *)

Lemma filter_parent_none {A} (f : A -> Z) (parent : Z) (l : list A) :
  parent ∉ f <$> l -> filter (fun r => f r = parent) l = [].
Proof.
  intros Hnot. induction l as [|x l IH]; [reflexivity|].
  rewrite fmap_cons in Hnot. apply not_elem_of_cons in Hnot as [Hne Hnot].
  rewrite filter_cons_False by congruence. apply IH, Hnot.
Qed.

Lemma dict_set_fresh k v (m : status_map) :
  k ∉ m.*1 -> dict_set k v m = m ++ [ (k, v) ].
Proof.
  induction m as [|[k' v'] m IH]; intros Hk; simpl; [reflexivity|].
  rewrite fmap_cons in Hk. apply not_elem_of_cons in Hk as [Hne Hk]. simpl in Hne.
  destruct (Z.eqb_spec k' k); [congruence|]. rewrite IH by exact Hk. reflexivity.
Qed.

Lemma NoDup_fmap_inj {A B} (f : A -> B) (l : list A) x y :
  NoDup (f <$> l) -> x ∈ l -> y ∈ l -> f x = f y -> x = y.
Proof.
  induction l as [|z l IH]; [intros _ H; inversion H|].
  rewrite fmap_cons. intros [Hz Hnd]%NoDup_cons.
  intros [->|Hx]%elem_of_cons [->|Hy]%elem_of_cons E; auto.
  - destruct Hz. rewrite E. apply list_elem_of_fmap. eauto.
  - destruct Hz. rewrite <- E. apply list_elem_of_fmap. eauto.
Qed.

(** With pairwise distinct ids the loop gives every option one entry, in
    order, and never meets a [ValueError]. *)
Lemma build_status_map_entries (es : list student_entry) sel (m : status_map) :
  NoDup (m.*1 ++ (se_id <$> es)) ->
  build_status_map (option_label <$> es) sel m =
  Some (m ++ ((fun e => (se_id e, chosen_status sel e)) <$> es)).
Proof.
  revert m. induction es as [|e es IH]; intros m Hnd; csimpl.
  - rewrite app_nil_r. reflexivity.
  - rewrite option_label_id.
    assert (se_id e ∉ m.*1) as Hfresh.
    { apply NoDup_app in Hnd as (_ & Hdisj & _). intros Hin.
      apply (Hdisj _ Hin). left. }
    rewrite dict_set_fresh by exact Hfresh.
    rewrite IH.
    + rewrite <- app_assoc. reflexivity.
    + rewrite fmap_app, <- app_assoc. exact Hnd.
Qed.

(** Saving the page writes a mark for every student of the chosen course
    and for nobody else: a student whose option is selected is Present on
    the date, every other student of the course is Absent, each with exactly
    one row for the date; the rows of students of other courses are as they
    were.  A course without students only shows a message. *)
Theorem mark_page_marks_whole_course (d : db) (course : Z) (date_sel : date)
    (selected : list string) (now : datetime) :
  schema_ok d ->
  (course ∉ student_course_id <$> rows (students d) ->
   mark_page_save course date_sel selected now (Healthy d) =
   Some (Ok (st_info "No students in this course. Add students in Setup.",
             Healthy d))) /\
  (course ∈ student_course_id <$> rows (students d) ->
   exists d',
     mark_page_save course date_sel selected now (Healthy d) =
     Some (Ok (st_success "Attendance saved.", Healthy d')) /\
     (forall r, r ∈ rows (students d) -> student_course_id r = course ->
        exists a, marks_of (student_id r) (strftime_Ymd date_sel) d' = [ a ] /\
          attendance_status a = chosen_status selected (student_entry_of r)) /\
     (forall r, r ∈ rows (students d) -> student_course_id r ≠ course ->
        marks_of_student (student_id r) d' = marks_of_student (student_id r) d)).
Proof.
  intros ((_ & _ & _ & Hids & _) & _ & Hmarks).
  set (mine := filter (fun r => student_course_id r = course) (rows (students d))).
  set (es := merge_sort (name_le se_name) (student_entry_of <$> mine)).
  assert (es ≡ₚ student_entry_of <$> mine) as Hperm by apply merge_sort_Permutation.
  assert (list_students course (Healthy d) = Ok es) as Hlist by reflexivity.
  split.
  - intros Hnone. unfold mark_page_save. rewrite Hlist.
    assert (mine = []) as Hmine by apply filter_parent_none, Hnone.
    unfold es. rewrite Hmine. reflexivity.
  - intros (r0 & Hc0 & Hr0)%list_elem_of_fmap.
    assert (NoDup (se_id <$> es)) as Hnd.
    { rewrite Hperm, <- list_fmap_compose.
      apply NoDup_fmap_2_strong; [|apply NoDup_filter, (NoDup_fmap_1 student_id), Hids].
      intros x y [_ Hx]%list_elem_of_filter [_ Hy]%list_elem_of_filter E.
      apply (NoDup_fmap_inj student_id (rows (students d))); assumption. }
    set (m := (fun e => (se_id e, chosen_status selected e)) <$> es).
    assert (build_status_map (option_label <$> es) selected [] = Some m) as Hmap.
    { apply (build_status_map_entries es selected []). exact Hnd. }
    assert (m.*1 = se_id <$> es) as Hkeys.
    { unfold m. rewrite <- list_fmap_compose. reflexivity. }
    exists (foldl (upsert_db (strftime_Ymd date_sel) (isoformat_seconds now)) d m).
    split; [|split].
    + unfold mark_page_save. rewrite Hlist.
      destruct es as [|e es'] eqn:Ees.
      * exfalso. symmetry in Hperm. apply Permutation_nil_r in Hperm.
        apply fmap_nil_inv in Hperm.
        assert (r0 ∈ mine) as Hin by (apply list_elem_of_filter; auto).
        rewrite Hperm in Hin. inversion Hin.
      * cbn [get_attendance_df get_conn bind read_sql_query].
        rewrite Hmap, mark_attendance_healthy. reflexivity.
    + intros r Hr Hc.
      assert ((student_id r, chosen_status selected (student_entry_of r)) ∈ m) as Hin.
      { unfold m. apply list_elem_of_fmap. exists (student_entry_of r).
        split; [reflexivity|]. rewrite Hperm. apply list_elem_of_fmap.
        exists r. split; [reflexivity|]. apply list_elem_of_filter. auto. }
      destruct (foldl_upsert_hit (strftime_Ymd date_sel) (isoformat_seconds now) m d
                  (student_id r) _ Hmarks ltac:(rewrite Hkeys; exact Hnd) Hin) as [i Hi].
      eexists. split; [exact Hi|].
      destruct (marks_of (student_id r) (strftime_Ymd date_sel) d); reflexivity.
    + intros r Hr Hc. apply foldl_upsert_frame. rewrite Hkeys, Hperm.
      intros (e & He & (r' & -> & [Hc' Hr']%list_elem_of_filter)%list_elem_of_fmap)%list_elem_of_fmap.
      simpl in He.
      assert (r = r'); [|congruence].
      apply (NoDup_fmap_inj student_id (rows (students d))); assumption.
Qed.


Lemma schema_ok_family : schema_ok family.
Proof. repeat split; apply (bool_decide_unpack _); vm_compute; exact I. Qed.

Lemma mark_page_marks_whole_course_witness :
  (1 ∉ student_course_id <$> rows (students family) ->
   mark_page_save 1 week_start [] t_early (Healthy family) =
   Some (Ok (st_info "No students in this course. Add students in Setup.",
             Healthy family))) /\
  (1 ∈ student_course_id <$> rows (students family) ->
   exists d',
     mark_page_save 1 week_start [] t_early (Healthy family) =
     Some (Ok (st_success "Attendance saved.", Healthy d')) /\
     (forall r, r ∈ rows (students family) -> student_course_id r = 1 ->
        exists a, marks_of (student_id r) (strftime_Ymd week_start) d' = [ a ] /\
          attendance_status a = chosen_status [] (student_entry_of r)) /\
     (forall r, r ∈ rows (students family) -> student_course_id r ≠ 1 ->
        marks_of_student (student_id r) d' = marks_of_student (student_id r) family)).
Proof.
  apply (mark_page_marks_whole_course family 1 week_start [] t_early).
  repeat split; apply (bool_decide_unpack _); vm_compute; exact I.
Defined.

(** ** The flat query on a store with the tables *)

Lemma then_by_opp a b : then_by (CompOpp a) (CompOpp b) = CompOpp (then_by a b).
Proof. destruct a; reflexivity. Qed.

Lemma order_compare_antisym x y : order_compare x y = CompOpp (order_compare y x).
Proof.
  unfold order_compare.
  rewrite (String.compare_antisym (Flat.date y) (Flat.date x)),
    (String.compare_antisym (Flat.college x) (Flat.college y)),
    (String.compare_antisym (Flat.department x) (Flat.department y)),
    (String.compare_antisym (Flat.course x) (Flat.course y)),
    (String.compare_antisym (Flat.student_name x) (Flat.student_name y)).
  rewrite !then_by_opp. reflexivity.
Qed.

#[local] Instance order_le_total : Total order_le.
Proof.
  intros x y. unfold order_le. rewrite (order_compare_antisym x y).
  destruct (order_compare y x); simpl; auto.
Qed.

(** The rows of the join, read as the chain they come from. *)
Lemma elem_of_join d r :
  r ∈ join d <->
  exists a s c dp co,
    a ∈ rows (attendances d) /\
    s ∈ rows (students d) /\ student_id s = attendance_student_id a /\
    c ∈ rows (courses d) /\ course_id c = student_course_id s /\
    dp ∈ rows (departments d) /\ department_id dp = course_department_id c /\
    co ∈ rows (colleges d) /\ college_id co = department_college_id dp /\
    r = {| Flat.att_id := attendance_id a;
           Flat.student_id := student_id s;
           Flat.student_name := student_name s;
           Flat.roll := student_roll s;
           Flat.course_id := course_id c;
           Flat.course := course_name c;
           Flat.department_id := department_id dp;
           Flat.department := department_name dp;
           Flat.college_id := college_id co;
           Flat.college := college_name co;
           Flat.date := attendance_date a;
           Flat.status := attendance_status a;
           Flat.timestamp := attendance_timestamp a |}.
Proof.
  unfold join. split.
  - intros (a & Hr & Ha)%list_elem_of_bind.
    apply list_elem_of_bind in Hr as (s & Hr & [Es Hs]%list_elem_of_filter).
    apply list_elem_of_bind in Hr as (c & Hr & [Ec Hc]%list_elem_of_filter).
    apply list_elem_of_bind in Hr as (dp & Hr & [Ed Hd]%list_elem_of_filter).
    apply list_elem_of_bind in Hr as (co & Hr & [Eo Ho]%list_elem_of_filter).
    apply list_elem_of_singleton in Hr.
    exists a, s, c, dp, co. repeat split; assumption.
  - intros (a & s & c & dp & co & Ha & Hs & Es & Hc & Ec & Hd & Ed & Ho & Eo & ->).
    apply list_elem_of_bind. exists a. split; [|exact Ha].
    apply list_elem_of_bind. exists s. split; [|apply list_elem_of_filter; auto].
    apply list_elem_of_bind. exists c. split; [|apply list_elem_of_filter; auto].
    apply list_elem_of_bind. exists dp. split; [|apply list_elem_of_filter; auto].
    apply list_elem_of_bind. exists co. split; [|apply list_elem_of_filter; auto].
    left.
Qed.


(** A mark whose student row is missing is in no result of the flat query,
    and every row of a result names a student, course, department and
    college that are stored: orphan rows never reach a report. *)
Theorem flat_query_hides_orphans (d : db) (cs : list clause) :
  exists df,
    get_attendance_df (Where cs) (Healthy d) = Ok df /\
    (forall r, r ∈ data df ->
       Flat.att_id r ∈ attendance_id <$> rows (attendances d) /\
       Flat.student_id r ∈ student_id <$> rows (students d) /\
       Flat.course_id r ∈ course_id <$> rows (courses d) /\
       Flat.department_id r ∈ department_id <$> rows (departments d) /\
       Flat.college_id r ∈ college_id <$> rows (colleges d)) /\
    (forall a, a ∈ rows (attendances d) ->
       attendance_student_id a ∉ student_id <$> rows (students d) ->
       forall r, r ∈ data df -> Flat.student_id r ≠ attendance_student_id a).
Proof.
  eexists. split; [reflexivity|]. simpl.
  assert (forall r, r ∈ order_by (List.filter (matches cs) (join d)) -> r ∈ join d) as Hin.
  { intros r. unfold order_by. rewrite merge_sort_Permutation.
    rewrite list_elem_of_In, filter_In, <- list_elem_of_In. tauto. }
  split.
  - intros r Hr. apply Hin, elem_of_join in Hr
      as (a & s & c & dp & co & Ha & Hs & Es & Hc & Ec & Hd & Ed & Ho & Eo & ->).
    simpl. repeat split; apply list_elem_of_fmap; eauto.
  - intros a Ha Hmiss r Hr E. apply Hmiss. rewrite <- E.
    apply Hin, elem_of_join in Hr
      as (a' & s & c & dp & co & _ & Hs & _ & _ & _ & _ & _ & _ & _ & ->).
    simpl. apply list_elem_of_fmap. eauto.
Qed.


Lemma filter_key_le1 {A} (f : A -> Z) (k : Z) (l : list A) :
  NoDup (f <$> l) -> (length (filter (fun x => f x = k) l) <= 1)%nat.
Proof.
  induction l as [|x l IH]; [simpl; lia|].
  rewrite fmap_cons. intros [Hx Hnd]%NoDup_cons.
  destruct (decide (f x = k)) as [E|E].
  - rewrite filter_cons_True by exact E.
    rewrite filter_parent_none; [simpl; lia|]. rewrite <- E. exact Hx.
  - rewrite filter_cons_False by exact E. apply IH, Hnd.
Qed.

Lemma bind_le1 {A B} (l : list A) (g : A -> list B) :
  (length l <= 1)%nat -> (forall x, (length (g x) <= 1)%nat) ->
  (length (l ≫= g) <= 1)%nat.
Proof.
  intros Hl Hg. destruct l as [|x [|y l]]; simpl in *; [lia| |lia].
  rewrite app_nil_r. apply Hg.
Qed.

Lemma NoDup_le1 {A} (l : list A) : (length l <= 1)%nat -> NoDup l.
Proof.
  destruct l as [|x [|y l]]; simpl; intros H; [constructor| |lia].
  apply NoDup_singleton.
Qed.

Lemma bind_at_most_one {A B} (key : A -> Z) (key' : B -> Z) (g : A -> list B)
    (l : list A) :
  NoDup (key <$> l) ->
  (forall a, (length (g a) <= 1)%nat) ->
  (forall a b, b ∈ g a -> key' b = key a) ->
  NoDup (key' <$> (l ≫= g)).
Proof.
  intros Hnd Hlen Hkey. induction l as [|a l IH]; [constructor|].
  rewrite fmap_cons in Hnd. apply NoDup_cons in Hnd as [Ha Hnd].
  rewrite bind_cons, fmap_app. apply NoDup_app. split; [|split].
  - apply NoDup_le1. rewrite length_fmap. apply Hlen.
  - intros x (b & -> & Hb)%list_elem_of_fmap (b' & E & Hb')%list_elem_of_fmap.
    apply list_elem_of_bind in Hb' as (a' & Hb' & Ha').
    apply Ha. rewrite <- (Hkey a b Hb), E, (Hkey a' b' Hb').
    apply list_elem_of_fmap. eauto.
  - apply IH, Hnd.
Qed.

Lemma NoDup_fmap_filter {A B} (f : A -> B) (p : A -> bool) (l : list A) :
  NoDup (f <$> l) -> NoDup (f <$> List.filter p l).
Proof.
  induction l as [|x l IH]; [intros; constructor|].
  rewrite fmap_cons. intros [Hx Hnd]%NoDup_cons. simpl.
  destruct (p x); [|apply IH, Hnd]. rewrite fmap_cons. constructor; [|apply IH, Hnd].
  intros (y & E & Hy)%list_elem_of_fmap. apply Hx. rewrite E.
  apply list_elem_of_fmap. exists y. split; [reflexivity|].
  apply list_elem_of_In. apply list_elem_of_In, filter_In in Hy as [Hy _]. exact Hy.
Qed.

Lemma join_each_mark_once d :
  unique_ids d -> NoDup (Flat.att_id <$> join d).
Proof.
  intros (Hc & Hd & Hk & Hs & Ha). unfold join.
  apply (bind_at_most_one attendance_id); [exact Ha| |].
  - intros a. apply bind_le1; [apply (filter_key_le1 student_id), Hs|]. intros s.
    apply bind_le1; [apply (filter_key_le1 course_id), Hk|]. intros c.
    apply bind_le1; [apply (filter_key_le1 department_id), Hd|]. intros dp.
    apply bind_le1; [apply (filter_key_le1 college_id), Hc|]. intros co.
    simpl. lia.
  - intros a r Hr.
    apply list_elem_of_bind in Hr as (s & Hr & _).
    apply list_elem_of_bind in Hr as (c & Hr & _).
    apply list_elem_of_bind in Hr as (dp & Hr & _).
    apply list_elem_of_bind in Hr as (co & Hr & _).
    apply list_elem_of_singleton in Hr as ->. reflexivity.
Qed.

(** With distinct primary keys no mark is shown twice: the rows of a
    result have pairwise distinct [att_id]s, so a result never has more
    rows than the attendance table. *)
Theorem flat_query_each_mark_once (d : db) (cs : list clause) :
  unique_ids d ->
  exists df,
    get_attendance_df (Where cs) (Healthy d) = Ok df /\
    NoDup (Flat.att_id <$> data df) /\
    (length (data df) <= length (rows (attendances d)))%nat.
Proof.
  intros Hu. eexists. split; [reflexivity|]. simpl.
  assert (NoDup (Flat.att_id <$> order_by (List.filter (matches cs) (join d)))) as Hnd.
  { unfold order_by. rewrite merge_sort_Permutation.
    apply NoDup_fmap_filter, join_each_mark_once, Hu. }
  split; [exact Hnd|].
  rewrite <- (length_fmap Flat.att_id), <- (length_fmap attendance_id (rows (attendances d))).
  apply submseteq_length, NoDup_submseteq; [exact Hnd|].
  intros x (r & -> & Hr)%list_elem_of_fmap.
  unfold order_by in Hr. rewrite merge_sort_Permutation in Hr.
  apply list_elem_of_In, filter_In in Hr as [Hr _].
  apply list_elem_of_In, elem_of_join in Hr
    as (a & s & c & dp & co & Ha & _ & _ & _ & _ & _ & _ & _ & _ & ->).
  simpl. apply list_elem_of_fmap. eauto.
Qed.

Lemma flat_query_each_mark_once_witness :
  exists df,
    get_attendance_df (Where [ CourseIs 1 ]) (Healthy week_db) = Ok df /\
    NoDup (Flat.att_id <$> data df) /\
    (length (data df) <= length (rows (attendances week_db)))%nat.
Proof.
  apply (flat_query_each_mark_once week_db [ CourseIs 1 ]).
  repeat split; apply (bool_decide_unpack _); vm_compute; exact I.
Defined.

(** ** Counting and repeating a batch *)

Lemma upsert_rows_length sid date status ts i l :
  length (upsert_rows sid date status ts i l) =
  (length l + if existsb (same_mark sid date) l then 0 else 1)%nat.
Proof.
  induction l as [|r l IH]; simpl; [reflexivity|].
  destruct (same_mark sid date r); simpl; [lia|].
  rewrite IH. destruct (existsb _ l); lia.
Qed.

Lemma existsb_same_mark sid date d :
  existsb (same_mark sid date) (rows (attendances d)) =
  negb (bool_decide (marks_of sid date d = [])).
Proof.
  unfold marks_of. induction (rows (attendances d)) as [|r l IH]; simpl; [reflexivity|].
  destruct (same_mark sid date r); simpl; [reflexivity | exact IH].
Qed.

(** The number of listed students that have no mark on the date yet. *)
Lemma foldl_upsert_length date ts (m : status_map) d :
  NoDup m.*1 ->
  length (rows (attendances (foldl (upsert_db date ts) d m))) =
  (length (rows (attendances d)) +
   length (List.filter (fun e : Z * string => bool_decide (marks_of e.1 date d = [])) m))%nat.
Proof.
  revert d. induction m as [|e m IH]; intros d Hnd; simpl; [lia|].
  rewrite fmap_cons in Hnd. apply NoDup_cons in Hnd as [He Hnd].
  rewrite (IH _ Hnd). simpl. rewrite upsert_rows_length, existsb_same_mark.
  assert (List.filter (fun e0 : Z * string =>
             bool_decide (marks_of e0.1 date (upsert_db date ts d e) = [])) m =
          List.filter (fun e0 : Z * string => bool_decide (marks_of e0.1 date d = [])) m)
    as ->.
  { apply filter_ext_in. intros e' He'. rewrite upsert_db_other; [reflexivity|].
    intros E. apply He. rewrite <- E. apply list_elem_of_fmap. exists e'.
    split; [reflexivity | apply list_elem_of_In, He']. }
  destruct (bool_decide (marks_of e.1 date d = [])); simpl; lia.
Qed.

(** A batch adds exactly one row for each listed student who has no mark on
    the date yet and none for the others: the attendance table grows by the
    number of listed students without a mark. *)
Theorem mark_attendance_row_count (d : db) (now : datetime) (m : status_map)
    (date : string) :
  NoDup m.*1 ->
  exists d',
    mark_attendance_for_date now m date (Healthy d) = Ok (true, Healthy d') /\
    length (rows (attendances d')) =
    (length (rows (attendances d)) +
     length (List.filter
               (fun e : Z * string => bool_decide (marks_of e.1 date d = [])) m))%nat.
Proof.
  intros Hnd. eexists. split; [apply mark_attendance_healthy|].
  apply foldl_upsert_length, Hnd.
Qed.

Lemma mark_attendance_row_count_witness :
  exists d',
    mark_attendance_for_date t_early two_marks "2024-03-04"
      (Healthy marked_once) = Ok (true, Healthy d') /\
    length (rows (attendances d')) =
    (length (rows (attendances marked_once)) +
     length (List.filter
               (fun e : Z * string =>
                  bool_decide (marks_of e.1 "2024-03-04" marked_once = []))
               two_marks))%nat.
Proof.
  apply (mark_attendance_row_count marked_once t_early two_marks "2024-03-04").
  apply (bool_decide_unpack _). vm_compute. exact I.
Defined.


Lemma upsert_rows_same sid date status ts i l :
  (forall r, r ∈ l -> mark_key r = (sid, date) ->
     attendance_status r = status /\ attendance_timestamp r = Some ts) ->
  (sid, date) ∈ mark_key <$> l ->
  upsert_rows sid date status ts i l = l.
Proof.
  induction l as [|r l IH]; intros Hall Hin; [inversion Hin|]. simpl.
  destruct (same_mark sid date r) eqn:E.
  - apply same_mark_true in E. destruct (Hall r ltac:(left) E) as [Hs Ht].
    f_equal. destruct r; simpl in *. subst. reflexivity.
  - f_equal. apply IH.
    + intros r' Hr'. apply Hall. right. exact Hr'.
    + rewrite fmap_cons in Hin. apply elem_of_cons in Hin as [Hk|Hin]; [|exact Hin].
      symmetry in Hk. apply same_mark_true in Hk. congruence.
Qed.

Lemma foldl_upsert_same date ts (m : status_map) d :
  (forall sid status, (sid, status) ∈ m ->
     exists r, marks_of sid date d = [ r ] /\ attendance_status r = status /\
       attendance_timestamp r = Some ts) ->
  rows (attendances (foldl (upsert_db date ts) d m)) = rows (attendances d).
Proof.
  revert d. induction m as [|[sid status] m IH]; intros d Hall; [reflexivity|].
  assert (rows (attendances (upsert_db date ts d (sid, status))) = rows (attendances d))
    as Hsame.
  { simpl. destruct (Hall sid status ltac:(left)) as (r0 & H0 & Hs & Ht).
    apply upsert_rows_same.
    - intros r Hr Hk.
      assert (In r (marks_of sid date d)) as Hin.
      { apply filter_In. split; [apply list_elem_of_In, Hr | apply same_mark_true, Hk]. }
      rewrite H0 in Hin. destruct Hin as [<-|[]]. auto.
    - assert (In r0 (marks_of sid date d)) as Hin by (rewrite H0; left; reflexivity).
      apply filter_In in Hin as [Hin Hk]. apply same_mark_true in Hk. rewrite <- Hk.
      apply list_elem_of_fmap. exists r0. split; [reflexivity | apply list_elem_of_In, Hin]. }
  simpl foldl. rewrite IH; [exact Hsame|].
  intros sid' status' Hin. unfold marks_of. rewrite Hsame. apply Hall. right. exact Hin.
Qed.

(** Saving the same batch a second time while the clock shows the same
    second changes no row of the attendance table: same rows, same rowids,
    same statuses and timestamps. *)
Theorem mark_same_batch_again (d : db) (now1 now2 : datetime) (m : status_map)
    (date : string) :
  unique_marks d -> NoDup m.*1 ->
  isoformat_seconds now1 = isoformat_seconds now2 ->
  exists d1 d2,
    mark_attendance_for_date now1 m date (Healthy d) = Ok (true, Healthy d1) /\
    mark_attendance_for_date now2 m date (Healthy d1) = Ok (true, Healthy d2) /\
    rows (attendances d2) = rows (attendances d1).
Proof.
  intros Hd Hnd Hts. do 2 eexists.
  split; [apply mark_attendance_healthy|]. split; [apply mark_attendance_healthy|].
  rewrite <- Hts. apply foldl_upsert_same. intros sid status Hin.
  destruct (foldl_upsert_hit date (isoformat_seconds now1) m d sid status Hd Hnd Hin)
    as [i Hi].
  eexists. split; [exact Hi|]. destruct (marks_of sid date d); auto.
Qed.

Lemma mark_same_batch_again_witness :
  exists d1 d2,
    mark_attendance_for_date t_early two_marks "2024-03-04" (Healthy marked_once)
      = Ok (true, Healthy d1) /\
    mark_attendance_for_date t_late two_marks "2024-03-04" (Healthy d1)
      = Ok (true, Healthy d2) /\
    rows (attendances d2) = rows (attendances d1).
Proof.
  apply (mark_same_batch_again marked_once t_early t_late two_marks "2024-03-04").
  - apply NoDup_singleton.
  - apply (bool_decide_unpack _). vm_compute. exact I.
  - reflexivity.
Defined.

(** ** Dates *)

Lemma days_before_year_mono y1 y2 :
  y1 <= y2 -> days_before_year y1 <= days_before_year y2.
Proof. unfold days_before_year. intros H. Z.div_mod_to_equations. lia. Qed.

Lemma days_before_year_next y :
  days_before_year (y + 1) = days_before_year y + (if is_leap y then 366 else 365).
Proof.
  unfold days_before_year, is_leap.
  destruct (y mod 4 =? 0) eqn:E4; destruct (y mod 100 =? 0) eqn:E100;
    destruct (y mod 400 =? 0) eqn:E400; simpl;
    rewrite ?Z.eqb_eq, ?Z.eqb_neq in *; Z.div_mod_to_equations; lia.
Qed.

Ltac month_cases m :=
  let H := fresh "Hcase" in
  assert (m = 1 \/ m = 2 \/ m = 3 \/ m = 4 \/ m = 5 \/ m = 6 \/ m = 7 \/ m = 8 \/
          m = 9 \/ m = 10 \/ m = 11 \/ m = 12)%nat as H by lia;
  repeat destruct H as [H|H]; subst m.

Lemma days_in_year y m (dd : Z) :
  (1 <= m <= 12)%nat -> 1 <= dd <= days_in_month y (Z.of_nat m) ->
  1 <= days_before_month y m + dd <= (if is_leap y then 366 else 365).
Proof.
  intros Hm. month_cases m; simpl; unfold days_in_month; simpl;
    destruct (is_leap y); lia.
Qed.

Lemma days_before_month_lt y m1 m2 (d1 d2 : Z) :
  (1 <= m1)%nat -> (m1 < m2)%nat -> (m2 <= 12)%nat ->
  d1 <= days_in_month y (Z.of_nat m1) -> 1 <= d2 ->
  days_before_month y m1 + d1 < days_before_month y m2 + d2.
Proof.
  intros H1 H12 H2.
  month_cases m1; month_cases m2; try lia;
    simpl; unfold days_in_month; simpl; destruct (is_leap y); lia.
Qed.

Lemma lex_lt3 x1 x2 x3 y1 y2 y3 :
  lex_lt [x1; x2; x3] [y1; y2; y3] = true <->
  x1 < y1 \/ (x1 = y1 /\ (x2 < y2 \/ (x2 = y2 /\ x3 < y3))).
Proof.
  simpl.
  destruct (Z.ltb_spec x1 y1), (Z.eqb_spec x1 y1), (Z.ltb_spec x2 y2),
    (Z.eqb_spec x2 y2), (Z.ltb_spec x3 y3), (Z.eqb_spec x3 y3); simpl;
    split; intros Hx; try reflexivity; try discriminate; lia.
Qed.

(** On calendar dates the order Python compares dates by is the order of
    their ordinals. *)
Lemma date_gt_toordinal a b :
  valid_date a -> valid_date b ->
  (date_gt a b = true <-> toordinal b < toordinal a).
Proof.
  intros (Hya & Hma & Hda) (Hyb & Hmb & Hdb).
  unfold date_gt. cbn [fmap list_fmap]. rewrite lex_lt3.
  unfold toordinal.
  pose proof (days_in_year (Z.of_nat (year a)) (month a) _ Hma Hda) as Ha.
  pose proof (days_in_year (Z.of_nat (year b)) (month b) _ Hmb Hdb) as Hb.
  pose proof (days_before_year_next (Z.of_nat (year a))) as Na.
  pose proof (days_before_year_next (Z.of_nat (year b))) as Nb.
  destruct (Z.lt_trichotomy (Z.of_nat (year b)) (Z.of_nat (year a))) as [Hy|[Hy|Hy]].
  - pose proof (days_before_year_mono (Z.of_nat (year b) + 1) (Z.of_nat (year a))
                  ltac:(lia)).
    split; [intros _|intros _; left; exact Hy]. lia.
  - rewrite Hy in *. assert (year a = year b) as Ey by lia.
    destruct (lt_eq_lt_dec (month b) (month a)) as [[Hm|Hm]|Hm].
    + pose proof (days_before_month_lt (Z.of_nat (year a)) (month b) (month a)
                    (Z.of_nat (day b)) (Z.of_nat (day a))
                    ltac:(lia) Hm ltac:(lia) ltac:(lia) ltac:(lia)).
      split; [lia|]. intros _. right. split; [reflexivity|]. left. lia.
    + rewrite Hm in *. split.
      * intros [?|[_ [?|[_ ?]]]]; lia.
      * intros H. right. split; [reflexivity|]. right. split; [reflexivity|]. lia.
    + pose proof (days_before_month_lt (Z.of_nat (year a)) (month a) (month b)
                    (Z.of_nat (day a)) (Z.of_nat (day b))
                    ltac:(lia) Hm ltac:(lia) ltac:(lia) ltac:(lia)).
      split; [|lia]. intros [?|[_ [?|[? _]]]]; lia.
  - pose proof (days_before_year_mono (Z.of_nat (year a) + 1) (Z.of_nat (year b))
                  ltac:(lia)).
    split; [|lia]. intros [?|[? _]]; lia.
Qed.


(** ** The weekly report *)




Lemma week_dates_valid : valid_date week_start /\ valid_date week_end.
Proof. split; unfold valid_date; apply (bool_decide_unpack _); vm_compute; exact I. Qed.



(** ** The pivot of the Calendar View *)

#[local] Instance string_le_total : Total string_le.
Proof.
  intros x y. unfold string_le. rewrite (String.compare_antisym x y).
  destruct (String.compare y x); simpl; auto.
Qed.

Lemma index_compare_antisym x y : index_compare x y = CompOpp (index_compare y x).
Proof.
  unfold index_compare.
  rewrite (String.compare_antisym x.1.1.1 y.1.1.1),
    (String.compare_antisym x.1.1.2 y.1.1.2),
    (String.compare_antisym x.1.2 y.1.2), (String.compare_antisym x.2 y.2).
  rewrite !then_by_opp. reflexivity.
Qed.

#[local] Instance index_le_total : Total index_le.
Proof.
  intros x y. unfold index_le. rewrite (index_compare_antisym x y).
  destruct (index_compare y x); simpl; auto.
Qed.

Lemma pivot_cell_missing df k c :
  (forall r, r ∈ df -> pivot_key r = k -> Flat.date r ≠ c) ->
  pivot_cell df k c = "".
Proof.
  intros Hnone. unfold pivot_cell. rewrite filter_none; [reflexivity|].
  intros r Hr. apply bool_decide_eq_false. intros [Hk Hc]. exact (Hnone r Hr Hk Hc).
Qed.

Lemma pivot_cell_status df r :
  r ∈ df ->
  (forall r', r' ∈ df -> pivot_key r' = pivot_key r -> Flat.date r' = Flat.date r ->
     Flat.status r' = Flat.status r) ->
  pivot_cell df (pivot_key r) (Flat.date r) = Flat.status r.
Proof.
  intros Hr Hsame. unfold pivot_cell.
  destruct (List.filter _ df) as [|r' l] eqn:E.
  - assert (In r (List.filter
        (fun r0 => bool_decide (pivot_key r0 = pivot_key r /\ Flat.date r0 = Flat.date r)) df))
      as Hin.
    { apply filter_In. split; [apply list_elem_of_In, Hr|].
      apply bool_decide_eq_true. auto. }
    rewrite E in Hin. destruct Hin.
  - assert (In r' (List.filter
        (fun r0 => bool_decide (pivot_key r0 = pivot_key r /\ Flat.date r0 = Flat.date r)) df))
      as Hin by (rewrite E; left; reflexivity).
    apply filter_In in Hin as [Hin Hk]. apply bool_decide_eq_true in Hk as [Hk Hc].
    apply Hsame; [apply list_elem_of_In, Hin | exact Hk | exact Hc].
Qed.

(** The pivot has one column per distinct date of the raw rows and one row
    per distinct (label, course, department, college), both sorted and
    without repeats; every row has a cell for every column; the cell of a
    student and date without a mark is the empty string, and a cell with
    marks shows the status of the first of them (the status, when they all
    agree). *)
Theorem pivot_shape (df : list Flat.row) :
  let p := pivot df in
  (NoDup (pivot_columns p) /\ Sorted string_le (pivot_columns p) /\
   forall c, c ∈ pivot_columns p <-> c ∈ Flat.date <$> df) /\
  (NoDup (fst <$> pivot_rows p) /\ Sorted index_le (fst <$> pivot_rows p) /\
   forall k, k ∈ fst <$> pivot_rows p <-> k ∈ pivot_key <$> df) /\
  (forall k cells, (k, cells) ∈ pivot_rows p ->
     length cells = length (pivot_columns p) /\
     forall i c, pivot_columns p !! i = Some c ->
       cells !! i = Some (pivot_cell df k c)) /\
  (forall k c, (forall r, r ∈ df -> pivot_key r = k -> Flat.date r ≠ c) ->
     pivot_cell df k c = "") /\
  (forall r, r ∈ df ->
     (forall r', r' ∈ df -> pivot_key r' = pivot_key r ->
        Flat.date r' = Flat.date r -> Flat.status r' = Flat.status r) ->
     pivot_cell df (pivot_key r) (Flat.date r) = Flat.status r).
Proof.
  simpl.
  assert (fst <$> ((fun k => (k, pivot_cell df k <$>
              merge_sort string_le (remove_dups (Flat.date <$> df))))
            <$> merge_sort index_le (remove_dups (pivot_key <$> df)))
          = merge_sort index_le (remove_dups (pivot_key <$> df))) as Hidx.
  { rewrite <- list_fmap_compose. apply list_fmap_id. }
  repeat split.
  - rewrite merge_sort_Permutation. apply NoDup_remove_dups.
  - apply (Sorted_merge_sort _).
  - rewrite merge_sort_Permutation. apply elem_of_remove_dups.
  - rewrite merge_sort_Permutation. apply elem_of_remove_dups.
  - rewrite Hidx, merge_sort_Permutation. apply NoDup_remove_dups.
  - rewrite Hidx. apply (Sorted_merge_sort _).
  - rewrite Hidx, merge_sort_Permutation. apply elem_of_remove_dups.
  - rewrite Hidx, merge_sort_Permutation. apply elem_of_remove_dups.
  - apply list_elem_of_fmap in H as (k' & [= -> ->] & _). apply length_fmap.
  - intros i c Hc. apply list_elem_of_fmap in H as (k' & [= -> ->] & _).
    rewrite list_lookup_fmap, Hc. reflexivity.
  - apply pivot_cell_missing.
  - apply pivot_cell_status.
Qed.


(** ** Dates as text *)

Lemma decimal4_spec n : (1000 <= n < 100 * 100)%nat -> Py.decimal n = d4 n.
Proof.
  intros Hn.
  assert (forallb (fun n => String.eqb (Py.decimal n) (d4 n))
            (List.seq 1000 (90 * 100)) = true)
    as Hall by (vm_compute; reflexivity).
  rewrite forallb_forall in Hall. apply String.eqb_eq, Hall, in_seq. lia.
Qed.

Lemma zfill2_spec n : (n < 100)%nat -> Py.zfill 2 n = d2 n.
Proof.
  intros Hn.
  assert (forallb (fun n => String.eqb (Py.zfill 2 n) (d2 n)) (List.seq 0 100) = true)
    as Hall by (vm_compute; reflexivity).
  rewrite forallb_forall in Hall. apply String.eqb_eq, Hall, in_seq. lia.
Qed.

Lemma digit_compare a b :
  (a < 10)%nat -> (b < 10)%nat ->
  Ascii.compare (Py.digit a) (Py.digit b) = Nat.compare a b.
Proof.
  intros Ha Hb.
  assert (forallb (fun a => forallb (fun b =>
            match Ascii.compare (Py.digit a) (Py.digit b), Nat.compare a b with
            | Eq, Eq | Lt, Lt | Gt, Gt => true
            | _, _ => false
            end) (List.seq 0 10)) (List.seq 0 10) = true) as Hall
    by (vm_compute; reflexivity).
  rewrite forallb_forall in Hall. specialize (Hall a ltac:(apply in_seq; lia)).
  rewrite forallb_forall in Hall. specialize (Hall b ltac:(apply in_seq; lia)).
  destruct (Ascii.compare _ _), (Nat.compare a b); congruence.
Qed.

Lemma digits_of x :
  (x = 1000 * (x / 1000) + 100 * (x / 100 mod 10) + 10 * (x / 10 mod 10) + x mod 10 /\
   x / 100 mod 10 < 10 /\ x / 10 mod 10 < 10 /\ x mod 10 < 10)%nat.
Proof.
  assert (x / 100 = x / 10 / 10)%nat as E1 by (rewrite Nat.Div0.div_div; reflexivity).
  assert (x / 1000 = x / 100 / 10)%nat as E2 by (rewrite Nat.Div0.div_div; reflexivity).
  pose proof (Nat.div_mod_eq x 10). pose proof (Nat.div_mod_eq (x / 10) 10).
  pose proof (Nat.div_mod_eq (x / 100) 10).
  pose proof (Nat.mod_upper_bound x 10 ltac:(lia)).
  pose proof (Nat.mod_upper_bound (x / 10) 10 ltac:(lia)).
  pose proof (Nat.mod_upper_bound (x / 100) 10 ltac:(lia)).
  lia.
Qed.

Lemma compare4 x y (K : comparison) :
  match Nat.compare (x / 1000) (y / 1000) with
  | Eq => match Nat.compare (x / 100 mod 10) (y / 100 mod 10) with
          | Eq => match Nat.compare (x / 10 mod 10) (y / 10 mod 10) with
                  | Eq => match Nat.compare (x mod 10) (y mod 10) with
                          | Eq => K
                          | c => c
                          end
                  | c => c
                  end
          | c => c
          end
  | c => c
  end = then_by (Nat.compare x y) K.
Proof.
  pose proof (digits_of x). pose proof (digits_of y).
  destruct (Nat.compare_spec (x / 1000) (y / 1000));
    [destruct (Nat.compare_spec (x / 100 mod 10) (y / 100 mod 10));
      [destruct (Nat.compare_spec (x / 10 mod 10) (y / 10 mod 10));
        [destruct (Nat.compare_spec (x mod 10) (y mod 10))| |] | |] | |];
    destruct (Nat.compare_spec x y); simpl; try reflexivity; exfalso; lia.
Qed.

Lemma compare2 x y (K : comparison) :
  match Nat.compare (x / 10) (y / 10) with
  | Eq => match Nat.compare (x mod 10) (y mod 10) with
          | Eq => K
          | c => c
          end
  | c => c
  end = then_by (Nat.compare x y) K.
Proof.
  pose proof (Nat.div_mod_eq x 10). pose proof (Nat.div_mod_eq y 10).
  pose proof (Nat.mod_upper_bound x 10 ltac:(lia)).
  pose proof (Nat.mod_upper_bound y 10 ltac:(lia)).
  destruct (Nat.compare_spec (x / 10) (y / 10));
    [destruct (Nat.compare_spec (x mod 10) (y mod 10))| |];
    destruct (Nat.compare_spec x y); simpl; try reflexivity; exfalso; lia.
Qed.

Lemma strftime_digits d :
  fits_pads d ->
  strftime_Ymd d =
  String (Py.digit (year d / 1000)) (String (Py.digit (year d / 100 mod 10))
 (String (Py.digit (year d / 10 mod 10)) (String (Py.digit (year d mod 10))
 (String "-" (String (Py.digit (month d / 10)) (String (Py.digit (month d mod 10))
 (String "-" (String (Py.digit (day d / 10)) (String (Py.digit (day d mod 10))
  EmptyString))))))))).
Proof.
  intros (Hy & Hm & Hd). unfold strftime_Ymd.
  rewrite (decimal4_spec _ Hy), (zfill2_spec _ Hm), (zfill2_spec _ Hd). reflexivity.
Qed.

(** The text order of two formatted dates is the order of the dates. *)
Lemma strftime_compare a b :
  fits_pads a -> fits_pads b ->
  String.compare (strftime_Ymd a) (strftime_Ymd b) = date_compare a b.
Proof.
  intros Ha Hb. rewrite (strftime_digits a Ha), (strftime_digits b Hb).
  destruct Ha as ((_ & Hya) & Hma & Hda), Hb as ((_ & Hyb) & Hmb & Hdb).
  unfold date_compare. cbn [String.compare].
  assert (forall x, x < 100 * 100 -> x / 1000 < 10)%nat as H1000
    by (intros x Hx; apply Nat.Div0.div_lt_upper_bound; lia).
  assert (forall x, x < 100 -> x / 10 < 10)%nat as H10
    by (intros x Hx; apply Nat.Div0.div_lt_upper_bound; lia).
  pose proof (digits_of (year a)) as (_ & ? & ? & ?).
  pose proof (digits_of (year b)) as (_ & ? & ? & ?).
  pose proof (Nat.mod_upper_bound (month a) 10 ltac:(lia)).
  pose proof (Nat.mod_upper_bound (month b) 10 ltac:(lia)).
  pose proof (Nat.mod_upper_bound (day a) 10 ltac:(lia)).
  pose proof (Nat.mod_upper_bound (day b) 10 ltac:(lia)).
  rewrite !digit_compare by auto.
  change (Ascii.compare "-" "-") with Eq. cbv iota.
  assert (forall c, then_by c Eq = c) as Hr by (intros []; reflexivity).
  rewrite <- (Hr (Nat.compare (day a) (day b))).
  rewrite <- (compare2 (day a) (day b) Eq).
  rewrite <- (compare2 (month a) (month b)).
  rewrite <- (compare4 (year a) (year b)).
  reflexivity.
Qed.


Lemma valid_date_fits d :
  valid_date d -> (1000 <= year d < 100 * 100)%nat -> fits_pads d.
Proof.
  intros (_ & Hm & Hd) Hy. split; [exact Hy|]. split; [lia|].
  assert (days_in_month (Z.of_nat (year d)) (Z.of_nat (month d)) <= 31).
  { unfold days_in_month.
    repeat match goal with |- context [if ?b then _ else _] => destruct b end; lia. }
  lia.
Qed.

Lemma date_compare_gt a b : date_compare a b = Gt <-> date_gt a b = true.
Proof.
  unfold date_gt, date_compare. cbn [fmap list_fmap]. rewrite lex_lt3.
  destruct (Nat.compare_spec (year a) (year b)),
    (Nat.compare_spec (month a) (month b)), (Nat.compare_spec (day a) (day b));
    simpl; split; intros Hx; try reflexivity; try discriminate; lia.
Qed.

Lemma string_compare_trans a b c :
  String.compare a b ≠ Gt -> String.compare b c ≠ Gt -> String.compare a c ≠ Gt.
Proof.
  revert b c. induction a as [|x a IH]; intros [|y b] [|z c]; simpl; try congruence.
  unfold Ascii.compare.
  destruct (N.compare_spec (N_of_ascii x) (N_of_ascii y)) as [Exy|Lxy|Gxy];
    destruct (N.compare_spec (N_of_ascii y) (N_of_ascii z)) as [Eyz|Lyz|Gyz];
    destruct (N.compare_spec (N_of_ascii x) (N_of_ascii z)) as [Exz|Lxz|Gxz];
    try congruence; try lia.
  apply IH.
Qed.

(** Below the year 1000 [%Y] prints fewer than four digits, and the order
    of the texts is no longer the order of the days: 0999-12-31 is the day
    before 1000-01-01 and its text is the larger one, so that the texts of
    ordinary dates lie between the two in the wrong order. *)
Lemma strftime_order_below_1000 :
  strftime_Ymd {| year := 999; month := 12; day := 31 |} = "999-12-31" /\
  toordinal {| year := 999; month := 12; day := 31 |} + 1
  = toordinal {| year := 1000; month := 1; day := 1 |} /\
  String.leb (strftime_Ymd {| year := 1000; month := 1; day := 1 |})
             (strftime_Ymd {| year := 2024; month := 3; day := 4 |}) = true /\
  String.leb (strftime_Ymd {| year := 2024; month := 3; day := 4 |})
             (strftime_Ymd {| year := 999; month := 12; day := 31 |}) = true.
Proof. repeat split; vm_compute; reflexivity. Qed.

(** For calendar dates of the years 1000 to 9999, whose [%Y] has four
    digits, the text comparison of [a.date BETWEEN ? AND ?] is the
    comparison of the days: a row whose date is the text of a day meets the
    condition exactly when that day lies in the range, both ends included.
    (Below the year 1000 the texts are shorter and their order is not the
    order of the days: [strftime_order_below_1000].) *)
Theorem date_between_exact (start_date end_date x : date) (r : Flat.row) :
  valid_date start_date -> valid_date end_date -> valid_date x ->
  (1000 <= year start_date < 100 * 100)%nat ->
  (1000 <= year end_date < 100 * 100)%nat ->
  (1000 <= year x < 100 * 100)%nat ->
  Flat.date r = strftime_Ymd x ->
  (clause_holds r (DateBetween (strftime_Ymd start_date) (strftime_Ymd end_date)) = true
   <-> toordinal start_date <= toordinal x <= toordinal end_date).
Proof.
  intros Hs He Hx Ys Ye Yx Hr. simpl. rewrite Hr. unfold String.leb.
  rewrite (strftime_compare start_date x), (strftime_compare x end_date)
    by (apply valid_date_fits; assumption).
  pose proof (date_compare_gt start_date x) as G1.
  pose proof (date_compare_gt x end_date) as G2.
  pose proof (date_gt_toordinal start_date x Hs Hx) as T1.
  pose proof (date_gt_toordinal x end_date Hx He) as T2.
  rewrite andb_true_iff. split.
  - intros [H1 H2]. split.
    + destruct (Z.lt_ge_cases (toordinal x) (toordinal start_date)) as [H|H]; [|lia].
      apply T1, G1 in H. rewrite H in H1. discriminate.
    + destruct (Z.lt_ge_cases (toordinal end_date) (toordinal x)) as [H|H]; [|lia].
      apply T2, G2 in H. rewrite H in H2. discriminate.
  - intros [H1 H2]. split.
    + destruct (date_compare start_date x) eqn:E; try reflexivity.
      assert (toordinal x < toordinal start_date) by (apply T1, G1; reflexivity). lia.
    + destruct (date_compare x end_date) eqn:E; try reflexivity.
      assert (toordinal end_date < toordinal x) by (apply T2, G2; reflexivity). lia.
Qed.

Lemma date_between_exact_witness :
  clause_holds
    {| Flat.att_id := 1; Flat.student_id := 1; Flat.student_name := "Asha";
       Flat.roll := None; Flat.course_id := 1; Flat.course := "Optics";
       Flat.department_id := 1; Flat.department := "Physics";
       Flat.college_id := 1; Flat.college := "North";
       Flat.date := strftime_Ymd week_start; Flat.status := "Present";
       Flat.timestamp := None |}
    (DateBetween (strftime_Ymd week_start) (strftime_Ymd week_end)) = true
  <-> toordinal week_start <= toordinal week_start <= toordinal week_end.
Proof.
  apply (date_between_exact week_start week_end week_start).
  - unfold valid_date. apply (bool_decide_unpack _). vm_compute. exact I.
  - unfold valid_date. apply (bool_decide_unpack _). vm_compute. exact I.
  - unfold valid_date. apply (bool_decide_unpack _). vm_compute. exact I.
  - apply (bool_decide_unpack _). vm_compute. exact I.
  - apply (bool_decide_unpack _). vm_compute. exact I.
  - apply (bool_decide_unpack _). vm_compute. exact I.
  - reflexivity.
Defined.

(** No text lies between the texts of two calendar dates with four-digit
    years in the wrong order. *)
Lemma date_between_empty start_date end_date (r : Flat.row) :
  valid_date start_date -> valid_date end_date ->
  (1000 <= year start_date < 100 * 100)%nat ->
  (1000 <= year end_date < 100 * 100)%nat ->
  toordinal end_date < toordinal start_date ->
  clause_holds r (DateBetween (strftime_Ymd start_date) (strftime_Ymd end_date)) = false.
Proof.
  intros Hs He Ys Ye Hlt. simpl. apply not_true_is_false. intros H.
  apply andb_true_iff in H as [H1 H2]. unfold String.leb in *.
  assert (String.compare (strftime_Ymd start_date) (strftime_Ymd end_date) ≠ Gt) as Hc.
  { apply (string_compare_trans _ (Flat.date r)).
    - destruct (String.compare _ (Flat.date r)); congruence.
    - destruct (String.compare (Flat.date r) _); congruence. }
  rewrite strftime_compare in Hc by (apply valid_date_fits; assumption).
  apply Hc, date_compare_gt, date_gt_toordinal; assumption.
Qed.


(** ** The Calendar View and the Reports page *)

Lemma merge_sort_nil {A} (R : A -> A -> Prop) `{!forall x y, Decision (R x y)}
  (l : list A) : merge_sort R l = [] <-> l = [].
Proof.
  split; intros Hl.
  - apply Permutation_nil_r. rewrite <- Hl. symmetry. apply merge_sort_Permutation.
  - apply Permutation_nil_r. rewrite Hl. apply merge_sort_Permutation.
Qed.

Lemma scope_lookups_healthy sc d : scope_lookups sc (Healthy d) = Ok tt.
Proof. destruct sc; reflexivity. Qed.

Lemma list_colleges_none d :
  rows (colleges d) = [] -> list_colleges (Healthy d) = Ok [].
Proof. intros H. unfold list_colleges. simpl. rewrite H. reflexivity. Qed.

Lemma list_colleges_some d :
  rows (colleges d) ≠ [] ->
  exists e l, list_colleges (Healthy d) = Ok (e :: l).
Proof.
  intros H. unfold list_colleges. simpl.
  destruct (merge_sort _ _) as [|e l] eqn:E; [|eauto].
  apply merge_sort_nil in E. destruct (rows (colleges d)); [contradiction|discriminate].
Qed.

Lemma ranged_query_rows d cs lo hi r :
  r ∈ order_by (List.filter (matches (cs ++ [DateBetween lo hi])) (join d)) <->
  r ∈ join d /\ Forall (fun c => clause_holds r c = true) cs /\
  String.leb lo (Flat.date r) = true /\ String.leb (Flat.date r) hi = true.
Proof.
  unfold order_by. rewrite merge_sort_Permutation.
  rewrite list_elem_of_In, filter_In, <- list_elem_of_In.
  unfold matches. rewrite forallb_app, andb_true_iff, forallb_forall, Forall_forall.
  simpl. rewrite andb_true_r, andb_true_iff.
  split.
  - intros (H1 & H2 & H3). split; [exact H1|]. split; [|exact H3].
    intros c Hc. apply H2, list_elem_of_In, Hc.
  - intros (H1 & H2 & H3). split; [exact H1|]. split; [|exact H3].
    intros c Hc. apply H2, list_elem_of_In, Hc.
Qed.

Lemma pivot_columns_elem df c :
  c ∈ pivot_columns (pivot df) <-> exists r, r ∈ df /\ Flat.date r = c.
Proof.
  unfold pivot. cbn [pivot_columns].
  rewrite merge_sort_Permutation, elem_of_remove_dups, list_elem_of_fmap.
  split; intros (r & H1 & H2); exists r; auto.
Qed.

Lemma pivot_index_elem df k :
  k ∈ fst <$> pivot_rows (pivot df) <-> exists r, r ∈ df /\ pivot_key r = k.
Proof.
  unfold pivot. cbn [pivot_rows].
  rewrite <- list_fmap_compose.
  replace (merge_sort index_le (remove_dups (pivot_key <$> df)))
    with (id <$> merge_sort index_le (remove_dups (pivot_key <$> df))) at 2
    by apply list_fmap_id.
  rewrite list_fmap_id.
  rewrite merge_sort_Permutation, elem_of_remove_dups, list_elem_of_fmap.
  split; intros (r & H1 & H2); exists r; auto.
Qed.

(** The Calendar View on a store with the tables: without a college it
    shows "No data yet."; with a start date after the end date it shows an
    error and runs no query; and a pivot it shows is never empty, has only
    dates of the range as columns, and has only students of the selection
    with a mark in the range as rows. *)
Theorem calendar_view_outcomes (sc : scope) (start_date end_date : date) (d : db) :
  (rows (colleges d) = [] ->
   calendar_view sc start_date end_date (Healthy d) = Ok (inl (st_info "No data yet."))) /\
  (rows (colleges d) ≠ [] -> date_gt start_date end_date = true ->
   calendar_view sc start_date end_date (Healthy d)
   = Ok (inl (st_error "Start date cannot be after end date."))) /\
  (forall p, calendar_view sc start_date end_date (Healthy d) = Ok (inr p) ->
     pivot_columns p ≠ [] /\ pivot_rows p ≠ [] /\
     (forall c, c ∈ pivot_columns p <->
        exists r, r ∈ join d /\ Flat.date r = c /\
          Forall (fun cl => clause_holds r cl = true) (scope_clauses sc) /\
          String.leb (strftime_Ymd start_date) c = true /\
          String.leb c (strftime_Ymd end_date) = true) /\
     (forall k, k ∈ (fst <$> pivot_rows p) <->
        exists r, r ∈ join d /\ pivot_key r = k /\
          Forall (fun cl => clause_holds r cl = true) (scope_clauses sc) /\
          String.leb (strftime_Ymd start_date) (Flat.date r) = true /\
          String.leb (Flat.date r) (strftime_Ymd end_date) = true)).
Proof.
  split; [|split].
  - intros H. unfold calendar_view. rewrite (list_colleges_none d H). reflexivity.
  - intros H Hgt. unfold calendar_view.
    destruct (list_colleges_some d H) as (e & l & ->). simpl.
    rewrite scope_lookups_healthy. simpl. rewrite Hgt. reflexivity.
  - intros p. unfold calendar_view.
    destruct (list_colleges (Healthy d)) as [[|e l]|x]; simpl; try discriminate.
    rewrite scope_lookups_healthy. simpl.
    destruct (date_gt start_date end_date); [discriminate|].
    set (cs := scope_clauses sc ++ _).
    set (rs := order_by (List.filter (matches cs) (join d))).
    unfold df_empty. simpl. fold rs.
    destruct rs as [|r0 rs'] eqn:Ers; [discriminate|].
    intros [= <-].
    assert (forall r, r ∈ r0 :: rs' <->
              r ∈ join d /\ Forall (fun c => clause_holds r c = true) (scope_clauses sc) /\
              String.leb (strftime_Ymd start_date) (Flat.date r) = true /\
              String.leb (Flat.date r) (strftime_Ymd end_date) = true) as Hrows.
    { intros r. rewrite <- Ers. apply ranged_query_rows. }
    assert (r0 ∈ r0 :: rs') as Hr1 by left.
    revert Hr1 Hrows. generalize (r0 :: rs'). intros df Hr1 Hrows.
    split; [|split; [|split]].
    + intros E. assert (Flat.date r0 ∈ pivot_columns (pivot df)) as Hin
        by (apply pivot_columns_elem; eauto).
      rewrite E in Hin. inversion Hin.
    + intros E. assert (pivot_key r0 ∈ fst <$> pivot_rows (pivot df)) as Hin
        by (apply pivot_index_elem; eauto).
      rewrite E in Hin. inversion Hin.
    + intros c. rewrite pivot_columns_elem. split.
      * intros (r & Hr & <-). apply Hrows in Hr as (H1 & H2 & H3 & H4).
        exists r. auto.
      * intros (r & H1 & <- & H2 & H3 & H4). exists r. split; [|reflexivity].
        apply Hrows. auto.
    + intros k. rewrite pivot_index_elem. split.
      * intros (r & Hr & <-). apply Hrows in Hr as (H1 & H2 & H3 & H4).
        exists r. auto.
      * intros (r & H1 & <- & H2 & H3 & H4). exists r. split; [|reflexivity].
        apply Hrows. auto.
Qed.

(** The filter of the Reports page always holds the date condition, so the
    page never lists the whole log; what it shows is the message
    "No records for the selected filters." exactly when no joined row of the
    selection has its date text within the two bounds, and otherwise exactly
    those rows. *)
Theorem reports_view_outcomes (sc : scope) (start_date end_date : date) (d : db) :
  build_filters_from_ui sc start_date end_date
  = Where (scope_clauses sc ++
           [DateBetween (strftime_Ymd start_date) (strftime_Ymd end_date)]) /\
  exists out, reports_view sc start_date end_date (Healthy d) = Ok out /\
    let shown r :=
      r ∈ join d /\
      Forall (fun cl => clause_holds r cl = true) (scope_clauses sc) /\
      String.leb (strftime_Ymd start_date) (Flat.date r) = true /\
      String.leb (Flat.date r) (strftime_Ymd end_date) = true in
    match out with
    | inl msg =>
        msg = st_info "No records for the selected filters." /\
        forall r, ~ shown r
    | inr df =>
        columns df = Flat.columns /\ data df ≠ [] /\
        Sorted order_le (data df) /\ forall r, r ∈ data df <-> shown r
    end.
Proof.
  assert (build_filters_from_ui sc start_date end_date
          = Where (scope_clauses sc ++
                   [DateBetween (strftime_Ymd start_date) (strftime_Ymd end_date)])) as Hf.
  { unfold build_filters_from_ui. destruct sc; reflexivity. }
  split; [exact Hf|]. unfold reports_view. rewrite Hf.
  assert (exists l, list_colleges (Healthy d) = Ok l) as (l & ->) by (eexists; reflexivity).
  simpl. rewrite scope_lookups_healthy. simpl.
  set (cs := scope_clauses sc ++ _).
  pose proof (fun r => ranged_query_rows d (scope_clauses sc)
                (strftime_Ymd start_date) (strftime_Ymd end_date) r) as Hrows.
  fold cs in Hrows.
  unfold df_empty. simpl.
  destruct (order_by (List.filter (matches cs) (join d))) as [|r0 rs] eqn:Ers.
  - eexists. split; [reflexivity|]. simpl. split; [reflexivity|].
    intros r Hr. apply Hrows in Hr. inversion Hr.
  - eexists. split; [reflexivity|]. simpl. split; [reflexivity|].
    split; [discriminate|]. split; [|exact Hrows].
    rewrite <- Ers. apply (Sorted_merge_sort _).
Qed.

(** The Reports page has no check of the two dates: with a start date after
    the end date, both of the years 1000 to 9999, it still runs the query,
    which finds nothing, and shows "No records for the selected filters."
    where the Calendar View reports the wrong order of the dates. *)
Theorem reports_reversed_range (sc : scope) (start_date end_date : date) (d : db) :
  valid_date start_date -> valid_date end_date ->
  (1000 <= year start_date < 100 * 100)%nat ->
  (1000 <= year end_date < 100 * 100)%nat ->
  toordinal end_date < toordinal start_date ->
  reports_view sc start_date end_date (Healthy d)
  = Ok (inl (st_info "No records for the selected filters.")) /\
  (rows (colleges d) ≠ [] ->
   calendar_view sc start_date end_date (Healthy d)
   = Ok (inl (st_error "Start date cannot be after end date."))).
Proof.
  intros Hs He Ys Ye Hlt. split.
  - unfold reports_view.
    assert (exists l, list_colleges (Healthy d) = Ok l) as (l & ->) by (eexists; reflexivity).
    simpl. rewrite scope_lookups_healthy. simpl.
    assert (build_filters_from_ui sc start_date end_date
            = Where (scope_clauses sc ++
                 [DateBetween (strftime_Ymd start_date) (strftime_Ymd end_date)])) as ->.
    { unfold build_filters_from_ui. destruct sc; reflexivity. }
    simpl. rewrite filter_none; [reflexivity|].
    intros r _. unfold matches. rewrite forallb_app. cbn [forallb].
    rewrite (date_between_empty start_date end_date r) by assumption.
    apply andb_false_r.
  - intros H. unfold calendar_view.
    destruct (list_colleges_some d H) as (e & l & ->). simpl.
    rewrite scope_lookups_healthy. simpl.
    apply (date_gt_toordinal start_date end_date Hs He) in Hlt. rewrite Hlt. reflexivity.
Qed.

Lemma reports_reversed_range_witness :
  reports_view (InCollege 1) week_end week_start (Healthy week_db)
  = Ok (inl (st_info "No records for the selected filters.")) /\
  (rows (colleges week_db) ≠ [] ->
   calendar_view (InCollege 1) week_end week_start (Healthy week_db)
   = Ok (inl (st_error "Start date cannot be after end date."))).
Proof.
  apply (reports_reversed_range (InCollege 1) week_end week_start week_db).
  - unfold valid_date. apply (bool_decide_unpack _). vm_compute. exact I.
  - unfold valid_date. apply (bool_decide_unpack _). vm_compute. exact I.
  - apply (bool_decide_unpack _). vm_compute. exact I.
  - apply (bool_decide_unpack _). vm_compute. exact I.
  - apply (bool_decide_unpack _). vm_compute. exact I.
Defined.


(** ** Names as the Setup page stores them *)

Lemma guarded_add_clean c d b d' :
  Py.strip (call_name c) ≠ "" -> names_clean d ->
  run_add c (Healthy d) = Ok (b, Healthy d') -> names_clean d'.
Proof.
  intros Hn (H1 & H2 & H3 & H4) Hrun. destruct b.
  - apply run_add_true in Hrun as [-> _].
    assert (clean (Py.strip (call_name c))) as Hc
      by (split; [apply strip_idempotent | exact Hn]).
    destruct c as [name|cid name|did name|cid name roll]; simpl in *;
      repeat split; simpl; try assumption;
      (apply Forall_app; split; [assumption|]); constructor; simpl;
      first [exact Hc | constructor].
  - apply run_add_false in Hrun as ->. repeat split; assumption.
Qed.

Ltac setup_button H Hd :=
  match type of H with
  | (if String.eqb ?n "" then _ else _) = _ =>
      destruct (String.eqb_spec n "") as [E|E];
      [ injection H as _ <-; exact Hd
      | match type of H with
        | context [run_add ?c (Healthy ?d0)] =>
            destruct (run_add_total c d0) as (b & d1 & Hrun);
            rewrite Hrun in H; simpl in H; injection H as _ <-;
            apply (guarded_add_clean c d0 b d1 E Hd Hrun)
        end ]
  end.

(** Through the four "Add" buttons of the Setup page only clean names are
    stored: a name in the store has no surrounding whitespace and is not
    empty, whatever is typed.  The check is the page's: [add_college] itself
    stores the empty name for a blank input. *)
Theorem setup_keeps_names_clean (d : db) :
  names_clean d ->
  (forall name msg d',
     setup_add_college name (Healthy d) = Ok (msg, Healthy d') -> names_clean d') /\
  (forall cn cid name msg d',
     setup_add_department cn cid name (Healthy d) = Ok (msg, Healthy d') ->
     names_clean d') /\
  (forall dn did name msg d',
     setup_add_course dn did name (Healthy d) = Ok (msg, Healthy d') ->
     names_clean d') /\
  (forall cn cid name roll msg d',
     setup_add_student cn cid name roll (Healthy d) = Ok (msg, Healthy d') ->
     names_clean d') /\
  (forall name, blank name = true ->
     exists d', add_college name (Healthy d) = Ok (true, Healthy d') /\
       "" ∈ college_name <$> rows (colleges d') /\ ~ names_clean d').
Proof.
  intros Hd. split; [|split; [|split; [|split]]].
  - intros name msg d' H. unfold setup_add_college in H.
    change (add_college name) with (run_add (AddCollege name)) in H.
    setup_button H Hd.
  - intros cn cid name msg d' H. unfold setup_add_department in H.
    change (add_department cid name) with (run_add (AddDepartment cid name)) in H.
    setup_button H Hd.
  - intros dn did name msg d' H. unfold setup_add_course in H.
    change (add_course did name) with (run_add (AddCourse did name)) in H.
    setup_button H Hd.
  - intros cn cid name roll msg d' H. unfold setup_add_student in H.
    change (add_student cid name (Some roll))
      with (run_add (AddStudent cid name (Some roll))) in H.
    setup_button H Hd.
  - intros name Hb. apply strip_empty_iff in Hb.
    destruct (add_fresh_returns_true (AddCollege name) d) as [d' E].
    { intros (r & Hr & Hname). rewrite Hb in Hname.
      destruct Hd as (H1 & _). rewrite Forall_forall in H1.
      destruct (H1 r Hr) as [_ Hne]. apply Hne, Hname. }
    exists d'. split; [exact E|].
    apply (run_add_true (AddCollege name)) in E as [-> _]. simpl. rewrite Hb.
    assert ("" ∈ college_name <$>
              rows (colleges d) ++ [{| college_id := new_rowid college_id (colleges d);
                                       college_name := "" |}]) as Hin.
    { rewrite fmap_app. apply elem_of_app. right. left. }
    split; [exact Hin|].
    intros (H1 & _). simpl in H1. apply Forall_app in H1 as [_ H1].
    inversion H1 as [|? ? [_ Hne] _]. apply Hne. reflexivity.
Qed.

Lemma names_clean_fresh : names_clean init_db_fresh.
Proof. repeat split; constructor. Qed.

Lemma setup_keeps_names_clean_witness :
  (forall name msg d',
     setup_add_college name (Healthy init_db_fresh) = Ok (msg, Healthy d') ->
     names_clean d') /\
  (forall cn cid name msg d',
     setup_add_department cn cid name (Healthy init_db_fresh) = Ok (msg, Healthy d') ->
     names_clean d') /\
  (forall dn did name msg d',
     setup_add_course dn did name (Healthy init_db_fresh) = Ok (msg, Healthy d') ->
     names_clean d') /\
  (forall cn cid name roll msg d',
     setup_add_student cn cid name roll (Healthy init_db_fresh) = Ok (msg, Healthy d') ->
     names_clean d') /\
  (forall name, blank name = true ->
     exists d', add_college name (Healthy init_db_fresh) = Ok (true, Healthy d') /\
       "" ∈ college_name <$> rows (colleges d') /\ ~ names_clean d').
Proof. apply (setup_keeps_names_clean init_db_fresh). apply names_clean_fresh. Defined.


(** ** Option labels of the Mark Attendance page *)

(** The id a label starts with is read back by [int(opt.split("|")[0])]
    whatever the name and the roll contain, so students with the same name
    and roll still have different labels; and for students with pairwise
    distinct ids the loop over the options builds, without a [ValueError],
    the map with one entry per student in the order of the options:
    "Present" when the student's label is selected, "Absent" otherwise. *)
Theorem status_map_from_labels (es : list student_entry) (selected : list string) :
  NoDup (se_id <$> es) ->
  (forall e, PyInt.int (split_first "|" (option_label e)) = Some (se_id e)) /\
  (forall e1 e2, option_label e1 = option_label e2 -> se_id e1 = se_id e2) /\
  build_status_map (option_label <$> es) selected []
  = Some ((fun e => (se_id e,
                     if bool_decide (option_label e ∈ selected)
                     then "Present" else "Absent")) <$> es).
Proof.
  intros Hnd. split; [apply option_label_id|]. split.
  - intros e1 e2 E. pose proof (option_label_id e1) as H1.
    rewrite E, option_label_id in H1. congruence.
  - apply (build_status_map_entries es selected []). exact Hnd.
Qed.

Lemma status_map_from_labels_witness :
  (forall e, PyInt.int (split_first "|" (option_label e)) = Some (se_id e)) /\
  (forall e1 e2, option_label e1 = option_label e2 -> se_id e1 = se_id e2) /\
  build_status_map
    (option_label <$>
       [ {| se_id := 7; se_name := "Asha|1"; se_roll := None |};
         {| se_id := -3; se_name := "Asha|1"; se_roll := Some "" |} ])
    [ "7|Asha|1 ()" ] []
  = Some ((fun e => (se_id e,
                     if bool_decide (option_label e ∈ [ "7|Asha|1 ()" ])
                     then "Present" else "Absent")) <$>
            [ {| se_id := 7; se_name := "Asha|1"; se_roll := None |};
              {| se_id := -3; se_name := "Asha|1"; se_roll := Some "" |} ]).
Proof.
  apply (status_map_from_labels
           [ {| se_id := 7; se_name := "Asha|1"; se_roll := None |};
             {| se_id := -3; se_name := "Asha|1"; se_roll := Some "" |} ]
           [ "7|Asha|1 ()" ]).
  apply (bool_decide_unpack _). vm_compute. exact I.
Defined.


(** ** Statuses as the Mark Attendance page stores them *)

Lemma upsert_rows_statuses (P : string -> Prop) sid date status ts i l :
  P status -> Forall (fun a => P (attendance_status a)) l ->
  Forall (fun a => P (attendance_status a)) (upsert_rows sid date status ts i l).
Proof.
  intros Hs. induction 1 as [|r l Hr Hl IH]; simpl.
  - constructor; [exact Hs | constructor].
  - destruct (same_mark sid date r); constructor; auto.
Qed.

Lemma foldl_upsert_statuses (P : string -> Prop) date ts m d :
  Forall (fun e : Z * string => P e.2) m ->
  Forall (fun a => P (attendance_status a)) (rows (attendances d)) ->
  Forall (fun a => P (attendance_status a))
         (rows (attendances (foldl (upsert_db date ts) d m))).
Proof.
  intros Hm. revert d. induction Hm as [|e m He Hm IH]; intros d Hd; simpl; [exact Hd|].
  apply IH. simpl. apply upsert_rows_statuses; assumption.
Qed.

Lemma dict_set_values (P : string -> Prop) k v (m : status_map) :
  P v -> Forall (fun e : Z * string => P e.2) m ->
  Forall (fun e : Z * string => P e.2) (dict_set k v m).
Proof.
  intros Hv. induction 1 as [|[k' v'] m He Hm IH]; simpl.
  - constructor; [exact Hv | constructor].
  - destruct (k' =? k); constructor; auto.
Qed.

Lemma build_status_map_values options selected m m' :
  Forall (fun e : Z * string => two_valued e.2) m ->
  build_status_map options selected m = Some m' ->
  Forall (fun e : Z * string => two_valued e.2) m'.
Proof.
  revert m. induction options as [|opt rest IH]; intros m Hm; simpl.
  - intros [= <-]. exact Hm.
  - destruct (PyInt.int (split_first "|" opt)) as [sid|]; [|discriminate].
    apply IH. apply dict_set_values; [|exact Hm].
    destruct (bool_decide (opt ∈ selected)); [left|right]; reflexivity.
Qed.

Lemma upsert_rows_has sid date status ts i l :
  exists a, a ∈ upsert_rows sid date status ts i l /\
    attendance_student_id a = sid /\ attendance_date a = date /\
    attendance_status a = status.
Proof.
  induction l as [|r l (a & Ha & H1 & H2 & H3)]; simpl.
  - eexists. split; [left|]. auto.
  - destruct (same_mark sid date r) eqn:E.
    + apply same_mark_true in E. injection E as E1 E2.
      eexists. split; [left|]. auto.
    + exists a. split; [right; exact Ha | auto].
Qed.

(** Through the Mark Attendance page only the statuses "Present" and
    "Absent" are stored.  The restriction is the page's: the table has no
    check on the status, and for a student id that fits the 64 bits of an
    SQLite integer, stored or not, [mark_attendance_for_date] stores
    whatever text the map holds. *)
Theorem mark_page_keeps_two_statuses (d : db) :
  statuses_ok d ->
  (forall course date_sel selected now msg d',
     mark_page_save course date_sel selected now (Healthy d)
     = Some (Ok (msg, Healthy d')) -> statuses_ok d') /\
  (forall now sid status date_str,
     - 2 ^ 63 <= sid < 2 ^ 63 ->
     exists d',
       mark_attendance_for_date now [ (sid, status) ] date_str (Healthy d)
       = Ok (true, Healthy d') /\
       exists a, a ∈ rows (attendances d') /\ attendance_student_id a = sid /\
         attendance_date a = date_str /\ attendance_status a = status).
Proof.
  intros Hd. split.
  - intros course date_sel selected now msg d'. unfold mark_page_save.
    destruct (list_students course (Healthy d)) as [[|e es]|x]; [| |discriminate].
    + intros [= _ <-]. exact Hd.
    + destruct (get_attendance_df _ (Healthy d)) as [df|x]; [|discriminate].
      destruct (build_status_map _ selected []) as [m|] eqn:Em; [|discriminate].
      rewrite mark_attendance_healthy. simpl. intros [= _ <-].
      apply foldl_upsert_statuses; [|exact Hd].
      eapply build_status_map_values; [|exact Em]. constructor.
  - intros now sid status date_str _. eexists.
    split; [apply mark_attendance_healthy|]. simpl. apply upsert_rows_has.
Qed.

Lemma mark_page_keeps_two_statuses_witness :
  (forall course date_sel selected now msg d',
     mark_page_save course date_sel selected now (Healthy marked_once)
     = Some (Ok (msg, Healthy d')) -> statuses_ok d') /\
  (forall now sid status date_str,
     - 2 ^ 63 <= sid < 2 ^ 63 ->
     exists d',
       mark_attendance_for_date now [ (sid, status) ] date_str (Healthy marked_once)
       = Ok (true, Healthy d') /\
       exists a, a ∈ rows (attendances d') /\ attendance_student_id a = sid /\
         attendance_date a = date_str /\ attendance_status a = status).
Proof.
  apply (mark_page_keeps_two_statuses marked_once).
  unfold statuses_ok, two_valued. apply (bool_decide_unpack _). vm_compute. exact I.
Defined.


(** ** The denominator and the percentage of the weekly summary *)

Lemma toordinal_tomorrow d :
  valid_date d ->
  valid_date (tomorrow d) /\ toordinal (tomorrow d) = toordinal d + 1.
Proof.
  intros (Hy & Hm & Hd). unfold tomorrow.
  destruct (Z.ltb_spec (Z.of_nat (day d))
              (days_in_month (Z.of_nat (year d)) (Z.of_nat (month d)))) as [Hlt|Hge].
  - split; [|unfold toordinal; simpl; lia].
    unfold valid_date. simpl. lia.
  - assert (Z.of_nat (day d)
            = days_in_month (Z.of_nat (year d)) (Z.of_nat (month d))) as Hlast by lia.
    destruct (Nat.ltb_spec (month d) 12) as [Hm12|Hm12].
    + split.
      * unfold valid_date. simpl. split; [lia|]. split; [lia|].
        unfold days_in_month.
        repeat match goal with |- context [if ?b then _ else _] => destruct b end; lia.
      * unfold toordinal. simpl year. simpl month. simpl day.
        assert (days_before_month (Z.of_nat (year d)) (S (month d))
                = days_before_month (Z.of_nat (year d)) (month d)
                  + days_in_month (Z.of_nat (year d)) (Z.of_nat (month d))) as ->.
        { destruct (month d) as [|m']; [lia|]. reflexivity. }
        lia.
    + assert (month d = 12%nat) as Em by lia.
      split.
      * unfold valid_date. simpl. split; [lia|]. split; [lia|].
        unfold days_in_month. simpl. lia.
      * unfold toordinal. simpl year. simpl month. simpl day.
        replace (Z.of_nat (S (year d))) with (Z.of_nat (year d) + 1) by lia.
        rewrite days_before_year_next. rewrite Hlast, Em.
        change (days_before_month (Z.of_nat (year d) + 1) 1) with 0.
        simpl days_before_month. unfold days_in_month. simpl.
        destruct (is_leap (Z.of_nat (year d))); lia.
Qed.

Lemma toordinal_days_after n d :
  valid_date d ->
  valid_date (days_after n d) /\
  toordinal (days_after n d) = toordinal d + Z.of_nat n.
Proof.
  intros Hd. induction n as [|n [Hv IH]]; [split; [exact Hd | simpl; lia]|].
  unfold days_after in *.
  change (Nat.iter (S n) tomorrow d) with (tomorrow (Nat.iter n tomorrow d)).
  destruct (toordinal_tomorrow _ Hv) as [Hv' E]. split; [exact Hv'|]. lia.
Qed.

(** Up to a year of days, the percentage is the quotient rounded to two
    decimals: the float nearest to [q / 100] for an integer [q] nearest to
    [10000 * p / t]. *)
Lemma attendance_percent_nearest (p t : Z) :
  1 <= t <= 366 -> 0 <= p <= t ->
  exists q, nearest_hundredths p t q /\
    attendance_percent p t = PrimFloat.div (float_of_int q) 100%float.
Proof.
  intros Ht Hp.
  assert (forallb (fun t => forallb (fun p =>
            let x := attendance_percent (Z.of_nat p) (Z.of_nat t) in
            let lo := 10000 * Z.of_nat p / Z.of_nat t in
            (PrimFloat.Leibniz.eqb x (PrimFloat.div (float_of_int lo) 100%float)
             && (2 * (10000 * Z.of_nat p - lo * Z.of_nat t) <=? Z.of_nat t))
            || (PrimFloat.Leibniz.eqb x
                  (PrimFloat.div (float_of_int (lo + 1)) 100%float)
                && (2 * ((lo + 1) * Z.of_nat t - 10000 * Z.of_nat p) <=? Z.of_nat t)))
            (List.seq 0 (S t))) (List.seq 1 366) = true) as Hall
    by (vm_compute; reflexivity).
  rewrite forallb_forall in Hall.
  specialize (Hall (Z.to_nat t) ltac:(apply in_seq; lia)).
  rewrite forallb_forall in Hall.
  specialize (Hall (Z.to_nat p) ltac:(apply in_seq; lia)).
  rewrite !Z2Nat.id in Hall by lia. cbv zeta in Hall.
  pose proof (Z.div_mod (10000 * p) t ltac:(lia)) as Hdiv.
  pose proof (Z.mod_pos_bound (10000 * p) t ltac:(lia)) as Hmod.
  apply orb_true_iff in Hall as [H|H]; apply andb_true_iff in H as [Hx Hq];
    apply FloatAxioms.Leibniz.eqb_spec in Hx; apply Z.leb_le in Hq.
  - exists (10000 * p / t). split; [|exact Hx]. unfold nearest_hundredths. lia.
  - exists (10000 * p / t + 1). split; [|exact Hx]. unfold nearest_hundredths. lia.
Qed.

(** For a range of [n + 1] calendar days, at most a year, the weekly
    summary gives every row the denominator [n + 1]; a name with a roll is
    listed once, with the number of the Present rows of that name and roll
    as [PresentCount] and with the percentage [100 * PresentCount / (n + 1)]
    rounded to two decimals.  In a range of 7 days, 3 Present rows give
    42.86. *)
Theorem weekly_summary_of_a_range (df : list Flat.row) (start_date : date)
    (n : nat) (name roll : string) :
  valid_date start_date -> (n < 366)%nat ->
  (name, Some roll) ∈ key_of <$> df ->
  present_rows df (name, Some roll) <= Z.of_nat n + 1 ->
  Forall (fun r => TotalDays r = Z.of_nat n + 1)
         (weekly_summary df start_date (days_after n start_date)) /\
  exists row q,
    List.filter
      (fun r => bool_decide (sum_student_name r = name /\ sum_roll r = Text roll))
      (weekly_summary df start_date (days_after n start_date)) = [ row ] /\
    PresentCount row = present_rows df (name, Some roll) /\
    TotalDays row = Z.of_nat n + 1 /\
    nearest_hundredths (PresentCount row) (TotalDays row) q /\
    AttendancePercent row = PrimFloat.div (float_of_int q) 100%float /\
    (n = 6%nat -> present_rows df (name, Some roll) = 3 ->
     AttendancePercent row = 42.86%float).
Proof.
  intros Hs Hn Hk Hp.
  destruct (toordinal_days_after n start_date Hs) as [_ Hord].
  assert (days_between start_date (days_after n start_date) + 1 = Z.of_nat n + 1)
    as Hdays by (unfold days_between; lia).
  split.
  - rewrite weekly_summary_rows. apply Forall_fmap, Forall_forall.
    intros k _. exact Hdays.
  - assert (0 <= present_rows df (name, Some roll)) as Hp0
      by (unfold present_rows; lia).
    destruct (attendance_percent_nearest (present_rows df (name, Some roll))
                (Z.of_nat n + 1) ltac:(lia) ltac:(lia)) as (q & Hq & Hx).
    eexists _, q. split; [apply weekly_summary_with_roll, Hk|].
    unfold summary_of. cbn [PresentCount TotalDays AttendancePercent].
    rewrite Hdays. split; [reflexivity|]. split; [reflexivity|].
    split; [exact Hq|]. split; [exact Hx|].
    intros -> ->. reflexivity.
Qed.

Lemma weekly_summary_of_a_range_witness :
  Forall (fun r => TotalDays r = Z.of_nat 6 + 1)
         (weekly_summary week_rows week_start (days_after 6 week_start)) /\
  exists row q,
    List.filter
      (fun r => bool_decide (sum_student_name r = "Asha" /\ sum_roll r = Text "R1"))
      (weekly_summary week_rows week_start (days_after 6 week_start)) = [ row ] /\
    PresentCount row = present_rows week_rows ("Asha", Some "R1") /\
    TotalDays row = Z.of_nat 6 + 1 /\
    nearest_hundredths (PresentCount row) (TotalDays row) q /\
    AttendancePercent row = PrimFloat.div (float_of_int q) 100%float /\
    (6%nat = 6%nat -> present_rows week_rows ("Asha", Some "R1") = 3 ->
     AttendancePercent row = 42.86%float).
Proof.
  apply (weekly_summary_of_a_range week_rows week_start 6 "Asha" "R1").
  - unfold valid_date. apply (bool_decide_unpack _). vm_compute. exact I.
  - lia.
  - apply (bool_decide_unpack _). vm_compute. exact I.
  - apply Z.leb_le. vm_compute. reflexivity.
Defined.
